(** * dataframe-api-compat: the pandas adapter of the dataframe protocol

    A shallow embedding of [pandas_standard.py]: the three wrapper classes
    [PandasColumn], [PandasGroupBy] and [PandasDataFrame], over a model of
    the part of the pandas engine they call into.  Python exceptions are
    values of [exn]; a method that may raise returns a [result].

    The engine is modelled with the defaults the adapter leaves in place:
    [iloc] counts a negative position from the end, [groupby] drops rows
    with a null key ([dropna=True]), groups rows whose keys are equal as
    keys of a hash table and sorts the groups, [sort_values] puts nulls
    last and sorts one key with numpy's [argsort] (a parameter here, its
    tie order being numpy's business) and several keys with a stable
    lexsort.  The elementwise operators and the per-group
    reductions of the engine are parameters as well: the adapter's
    checks do not depend on what they compute. *)

From Stdlib Require Import String Ascii.
From Stdlib Require Import List ZArith QArith Bool Lia Arith.
From Stdlib Require Import Permutation Sorted OrdersEx.
Import ListNotations.

Local Open Scope Z_scope.

(** ** Exceptions and the error monad *)

(** A column label.  pandas allows any hashable as a label; the wrapper
    accepts only [str] ([_validate_columns]). *)
Inductive label :=
| LStr (s : string)
| LInt (z : Z).

Inductive exn :=
| ValueError (msg : string)
| TypeError (msg : string)
| KeyError (msg : string)
| IndexError (msg : string)
| AttributeError (msg : string)
| AssertionError (msg : string)
| RuntimeError (failed_columns : list label)
| NotImplementedError
| Unmodelled (what : string).

Inductive result (A : Type) :=
| Ok (a : A)
| Raise (e : exn).

Arguments Ok {A} a.
Arguments Raise {A} e.

Definition bind {A B} (r : result A) (k : A -> result B) : result B :=
  match r with
  | Ok a => k a
  | Raise e => Raise e
  end.

Notation "x <- r ;; k" := (bind r (fun x => k))
  (at level 61, r at next level, right associativity).
Notation "r ;;; k" := (bind r (fun _ => k))
  (at level 61, right associativity).

Fixpoint mapM {A B} (f : A -> result B) (l : list A) : result (list B) :=
  match l with
  | [] => Ok []
  | a :: l' => b <- f a ;; bs <- mapM f l' ;; Ok (b :: bs)
  end.

(** ** Labels *)

Definition label_eqb (a b : label) : bool :=
  match a, b with
  | LStr s, LStr t => String.eqb s t
  | LInt x, LInt y => Z.eqb x y
  | _, _ => false
  end.

(** [isinstance(col, str)] *)
Definition is_str (l : label) : bool :=
  match l with LStr _ => true | LInt _ => false end.

(** ** Cells and dtypes *)

(** One value of a column.  [CNaN] is the float not-a-number, [CNone]
    Python's [None] in an object column, [CNA] pandas' missing marker
    [pd.NA] of the extension (nullable) dtypes. *)
Inductive cell :=
| CBool (b : bool)
| CInt (z : Z)
| CFloat (q : Q)
| CNaN
| CStr (s : string)
| CNone
| CNA.

Inductive dtype :=
| np_bool
| np_int64
| np_float64
| np_object
| BooleanDtype
| Int64Dtype
| Float64Dtype
| StringDtype.

Definition dtype_eqb (a b : dtype) : bool :=
  match a, b with
  | np_bool, np_bool | np_int64, np_int64 | np_float64, np_float64
  | np_object, np_object | BooleanDtype, BooleanDtype
  | Int64Dtype, Int64Dtype | Float64Dtype, Float64Dtype
  | StringDtype, StringDtype => true
  | _, _ => false
  end.

(** [pandas.api.types.is_extension_array_dtype] *)
Definition is_extension_array_dtype (d : dtype) : bool :=
  match d with
  | BooleanDtype | Int64Dtype | Float64Dtype | StringDtype => true
  | _ => false
  end.

Definition cell_eqb (a b : cell) : bool :=
  match a, b with
  | CBool x, CBool y => Bool.eqb x y
  | CInt x, CInt y => Z.eqb x y
  | CFloat x, CFloat y => Qeq_bool x y
  | CNaN, CNaN => true
  | CStr x, CStr y => String.eqb x y
  | CNone, CNone => true
  | CNA, CNA => true
  | _, _ => false
  end.

(** [pd.isna] on one value of an array of dtype [d]: the mask of an
    extension array, NaN/None/NA in a numpy array. *)
Definition isna_cell (d : dtype) (c : cell) : bool :=
  if is_extension_array_dtype d then
    match c with CNA => true | _ => false end
  else
    match c with CNaN | CNone | CNA => true | _ => false end.

(** Truth value of one element in a boolean reduction: a number that is
    not zero (not-a-number included), a string that is not empty. *)
Definition truthy (c : cell) : bool :=
  match c with
  | CBool b => b
  | CInt z => negb (z =? 0)
  | CFloat q => negb (Qeq_bool q 0)
  | CStr s => negb (String.eqb s EmptyString)
  | CNaN => true
  | CNone | CNA => false
  end.

(** The number a value counts as when Python compares and hashes it:
    [True == 1 == 1.0]. *)
Definition cell_number (c : cell) : option Q :=
  match c with
  | CBool b => Some (inject_Z (if b then 1 else 0))
  | CInt z => Some (inject_Z z)
  | CFloat q => Some q
  | _ => None
  end.

(** Two values are one key of a hash table: numbers by value, the
    missing values each with itself, strings by content. *)
Definition hash_eqb (a b : cell) : bool :=
  match cell_number a, cell_number b with
  | Some x, Some y => Qeq_bool x y
  | None, None => cell_eqb a b
  | _, _ => false
  end.

(** ** The engine's containers *)

Record Array := { a_dtype : dtype; a_values : list cell }.

(** A row index.  [RangeIndex] is Python's [range(start, stop, step)],
    without a name (the default, and what [reset_index] gives);
    [LabelIndex] an [Index] of explicit labels of one dtype, with its
    name; [MultiIndex] an index of tuples, one level per group key, with
    the name and the dtype of each level. *)
Inductive Index :=
| RangeIndex (start stop step : Z)
| LabelIndex (name : option label) (d : dtype) (labels : list cell)
| MultiIndex (names : list (option label)) (levels : list dtype)
             (tuples : list (list cell)).

(** [len(range(start, stop, step))] *)
Definition range_len (start stop step : Z) : nat :=
  if 0 <? step then
    if start <? stop then Z.to_nat ((stop - start - 1) / step + 1) else 0%nat
  else if step <? 0 then
    if stop <? start then Z.to_nat ((start - stop - 1) / (- step) + 1) else 0%nat
  else 0%nat.

Definition range_values (start stop step : Z) : list Z :=
  map (fun i => start + Z.of_nat i * step) (seq 0 (range_len start stop step)).

Definition Index_len (i : Index) : nat :=
  match i with
  | RangeIndex a b s => range_len a b s
  | LabelIndex _ _ l => length l
  | MultiIndex _ _ l => length l
  end.

(** The entries of an index, each as a tuple of level values. *)
Definition Index_entries (i : Index) : list (list cell) :=
  match i with
  | RangeIndex a b s => map (fun z => [CInt z]) (range_values a b s)
  | LabelIndex _ _ l => map (fun c => [c]) l
  | MultiIndex _ _ l => l
  end.

(** [index.names], and the dtype of each level. *)
Definition Index_names (i : Index) : list (option label) :=
  match i with
  | RangeIndex _ _ _ => [None]
  | LabelIndex n _ _ => [n]
  | MultiIndex ns _ _ => ns
  end.

Definition Index_level_dtypes (i : Index) : list dtype :=
  match i with
  | RangeIndex _ _ _ => [np_int64]
  | LabelIndex _ d _ => [d]
  | MultiIndex _ ds _ => ds
  end.

Definition Index_is_multi (i : Index) : bool :=
  match i with
  | MultiIndex _ _ _ => true
  | _ => false
  end.

Fixpoint list_eqb {A} (eqb : A -> A -> bool) (l1 l2 : list A) : bool :=
  match l1, l2 with
  | [], [] => true
  | a :: l1', b :: l2' => eqb a b && list_eqb eqb l1' l2'
  | _, _ => false
  end.

(** [Index.equals]: same entries in the same order (two ranges are equal
    when they denote the same sequence). *)
Definition Index_equals (i j : Index) : bool :=
  list_eqb (list_eqb cell_eqb) (Index_entries i) (Index_entries j).

Record Series := {
  s_name : option label;
  s_array : Array;
  s_index : Index
}.

Definition s_dtype (s : Series) : dtype := a_dtype (s_array s).
Definition s_values (s : Series) : list cell := a_values (s_array s).

(** A pandas frame: its columns in order (labels may repeat in a raw
    frame) and the row index they share. *)
Record DataFrame := {
  df_data : list (label * Array);
  df_index : Index
}.

Definition columns (df : DataFrame) : list label := map fst (df_data df).

(** [len(df)] *)
Definition df_len (df : DataFrame) : nat := Index_len (df_index df).

(** [df.shape] *)
Definition shape (df : DataFrame) : nat * nat :=
  (df_len df, length (df_data df)).

(** The frame's columns all have one entry per index entry. *)
Definition df_wf (df : DataFrame) : bool :=
  forallb (fun c => Nat.eqb (length (a_values (snd c))) (df_len df)) (df_data df).

(** ** Generic helpers *)

(** [collections.Counter]: the distinct elements in first-occurrence order,
    each with its number of occurrences. *)
Fixpoint counter_add {K} (eqb : K -> K -> bool) (k : K) (acc : list (K * nat))
  : list (K * nat) :=
  match acc with
  | [] => [(k, 1%nat)]
  | (k', n) :: rest =>
      if eqb k' k then (k', S n) :: rest
      else (k', n) :: counter_add eqb k rest
  end.

Definition Counter {K} (eqb : K -> K -> bool) (l : list K) : list (K * nat) :=
  fold_left (fun acc k => counter_add eqb k acc) l [].

(** The number of elements of [l] that [eqb] identifies with [k]. *)
Definition count_matching {K} (eqb : K -> K -> bool) (k : K) (l : list K) : nat :=
  length (filter (eqb k) l).

(** The tally [acc] is right for the elements [p] counted so far: every
    entry holds the number of elements its key stands for, no two keys
    stand for the same elements, every element has its key, and the
    counts add up. *)
Record tally_of {K} (eqb : K -> K -> bool) (acc : list (K * nat)) (p : list K)
  : Prop := {
  tally_count : forall k n, In (k, n) acc -> n = count_matching eqb k p;
  tally_keys : forall k n, In (k, n) acc -> In k p;
  tally_distinct :
    ForallOrdPairs (fun k1 k2 => eqb k1 k2 = false) (map fst acc);
  tally_covers : forall x, In x p -> exists k n, In (k, n) acc /\ eqb k x = true;
  tally_sum : list_sum (map snd acc) = length p
}.

(** Python's [lst.index(x)] (the caller has checked [x in lst]). *)
Fixpoint list_index (x : label) (l : list label) : nat :=
  match l with
  | [] => 0%nat
  | y :: l' => if label_eqb y x then 0%nat else S (list_index x l')
  end.

(** The bound [k] of a slice [[:k]] or [[k:]] over [n] items, clipped the
    way Python clips it (a negative bound counts from the end). *)
Definition slice_bound (n : nat) (k : Z) : nat :=
  if k <? 0 then Z.to_nat (Z.max 0 (Z.of_nat n + k))
  else Nat.min (Z.to_nat k) n.

(** Insertion sort that keeps equal elements in their input order: an
    element is put in front of the first one it is [leb] to. *)
Section StableSort.
Context {A : Type} (leb : A -> A -> bool).

Fixpoint insert_sorted (x : A) (l : list A) : list A :=
  match l with
  | [] => [x]
  | y :: l' => if leb x y then x :: l else y :: insert_sorted x l'
  end.

Fixpoint stable_sort (l : list A) : list A :=
  match l with
  | [] => []
  | x :: l' => insert_sorted x (stable_sort l')
  end.

End StableSort.

(** The positions of [l] in sorted order, ties in input order. *)
Definition stable_argsort {A} (leb : A -> A -> bool) (l : list A) : list nat :=
  map fst
    (stable_sort (fun p q => leb (snd p) (snd q))
                 (combine (seq 0 (length l)) l)).

(** ** Ordering of cells *)

Definition cell_rank (c : cell) : nat :=
  match c with
  | CBool _ => 0 | CInt _ => 1 | CFloat _ => 2 | CNaN => 3
  | CStr _ => 4 | CNone => 5 | CNA => 6
  end%nat.

Definition string_leb (s t : string) : bool :=
  match String_as_OT.compare s t with Gt => false | _ => true end.

(** [a <= b] between two values of one column: numbers by value
    ([False == 0], [True == 1]), strings by code point.  A number and a
    string do not compare in Python; where the engine sorts them
    together it puts the numbers first, and not-a-number after the
    numbers. *)
Definition cell_leb (a b : cell) : bool :=
  match cell_number a, cell_number b with
  | Some x, Some y => Qle_bool x y
  | _, _ =>
      match a, b with
      | CStr x, CStr y => string_leb x y
      | _, _ => Nat.leb (cell_rank a) (cell_rank b)
      end
  end.

(** The values of a list compare with one another under [<]: there is
    not a number and a string among them. *)
Definition is_number (c : cell) : bool :=
  match cell_number c with Some _ => true | None => false end.

Definition is_string (c : cell) : bool :=
  match c with CStr _ => true | _ => false end.

Definition comparable (l : list cell) : bool :=
  negb (existsb is_number l && existsb is_string l).

(** The sort key of a value: [None] for a missing one, which sorts last
    ([na_position='last']). *)
Definition sort_key (d : dtype) (c : cell) : option cell :=
  if isna_cell d c then None else Some c.

Definition key_leb (a b : option cell) : bool :=
  match a, b with
  | Some x, Some y => cell_leb x y
  | Some _, None => true
  | None, Some _ => false
  | None, None => true
  end.

(** Lexicographic order on tuples of sort keys. *)
Fixpoint lex_leb (k1 k2 : list (option cell)) : bool :=
  match k1, k2 with
  | [], _ => true
  | _ :: _, [] => false
  | a :: k1', b :: k2' =>
      if key_leb a b then (if key_leb b a then lex_leb k1' k2' else true)
      else false
  end.

(** ** The engine: Series *)

Definition mk_series (name : option label) (d : dtype) (vs : list cell)
  (idx : Index) : Series :=
  {| s_name := name; s_array := {| a_dtype := d; a_values := vs |};
     s_index := idx |}.

(** [len(series)] *)
Definition Series_len (s : Series) : nat := length (s_values s).

(** [series.iloc[row]] for an integer [row]: a negative [row] counts from
    the end; outside [[-n, n)] the indexer raises IndexError. *)
Definition Series_iloc (s : Series) (row : Z) : result cell :=
  let n := Z.of_nat (Series_len s) in
  if (row <? - n) || (n <=? row) then
    Raise (IndexError "single positional indexer is out-of-bounds")
  else
    match nth_error (s_values s) (Z.to_nat (if row <? 0 then row + n else row)) with
    | Some c => Ok c
    | None => Raise (IndexError "single positional indexer is out-of-bounds")
    end.

(** [series.isna()], also spelled [series.isnull()]: a numpy-bool Series
    with the same name and index. *)
Definition Series_isna (s : Series) : Series :=
  mk_series (s_name s) np_bool
    (map (fun c => CBool (isna_cell (s_dtype s) c)) (s_values s))
    (s_index s).

(** [series.any()] and [series.all()] (missing values are skipped). *)
Definition Series_any (s : Series) : bool :=
  existsb (fun c => negb (isna_cell (s_dtype s) c) && truthy c) (s_values s).

Definition Series_all (s : Series) : bool :=
  forallb (fun c => isna_cell (s_dtype s) c || truthy c) (s_values s).

(** [series.rename(label)] *)
Definition Series_rename (s : Series) (l : label) : Series :=
  {| s_name := Some l; s_array := s_array s; s_index := s_index s |}.

(** [pd.Series(np.array([False] * n), name=name)]: [np.array] of a list
    of [n] booleans has dtype bool, but of the empty list dtype float64;
    the Series gets a fresh [RangeIndex(0, n, 1)]. *)
Definition Series_of_falses (n : nat) (name : option label) : Series :=
  mk_series name
    (match n with O => np_float64 | S _ => np_bool end)
    (repeat (CBool false) n)
    (RangeIndex 0 (Z.of_nat n) 1).

(** [np.isnan(series)] on a Series of extension dtype: the ufunc runs on
    the data and keeps the mask, giving a BooleanDtype Series; it is not
    defined on strings. *)
Definition np_isnan_masked (s : Series) : result Series :=
  match s_dtype s with
  | StringDtype =>
      Raise (TypeError "ufunc 'isnan' not supported for the input types")
  | _ =>
      Ok (mk_series (s_name s) BooleanDtype
            (map (fun c => match c with
                           | CNA => CNA
                           | CNaN => CBool true
                           | _ => CBool false
                           end) (s_values s))
            (s_index s))
  end.

(** [series.replace(pd.NA, False)] *)
Definition Series_replace_NA_False (s : Series) : Series :=
  {| s_name := s_name s;
     s_array := {| a_dtype := s_dtype s;
                   a_values := map (fun c => match c with
                                             | CNA => CBool false
                                             | _ => c
                                             end) (s_values s) |};
     s_index := s_index s |}.

(** [series.astype(bool)]: a missing value cannot be cast. *)
Definition Series_astype_bool (s : Series) : result Series :=
  if existsb (fun c => match c with CNA => true | _ => false end) (s_values s)
  then Raise (ValueError "cannot convert NA to bool")
  else Ok (mk_series (s_name s) np_bool
             (map (fun c => CBool (match c with CNaN => true | _ => truthy c end))
                  (s_values s))
             (s_index s)).

(** [index.to_series()]: values and index are both the index itself,
    the name is the index's.  Tuples of a MultiIndex are not cells of
    this model. *)
Definition Index_to_series (i : Index) : result Series :=
  match i with
  | RangeIndex a b s =>
      Ok (mk_series None np_int64 (map CInt (range_values a b s)) i)
  | LabelIndex n d l => Ok (mk_series n d l i)
  | MultiIndex _ _ _ => Raise (Unmodelled "MultiIndex.to_series")
  end.

(** ** The wrapper classes *)

Record PandasColumn := { _series : Series }.

Record PandasDataFrame := { _dataframe : DataFrame }.

(** [df.groupby(keys, sort=..., as_index=...)]: the lazy grouping. *)
Record DataFrameGroupBy := {
  g_obj : DataFrame;
  g_keys : list label;
  g_sort : bool;
  g_as_index : bool
}.

Record PandasGroupBy := {
  df : DataFrame;
  grouped : DataFrameGroupBy;
  keys : list label
}.

(** *** Distinct values, and the operators [~] and [&] *)

(** The hash table walk of [unique]: a value is appended to the
    distinct values seen so far unless an equal one is among them. *)
Fixpoint hashtable_unique (seen : list cell) (l : list cell) : list cell :=
  match l with
  | [] => seen
  | c :: l' =>
      if existsb (hash_eqb c) seen then hashtable_unique seen l'
      else hashtable_unique (seen ++ [c]) l'
  end.

(** [series.unique()]: an array of the Series' dtype. *)
Definition Series_unique (s : Series) : Array :=
  {| a_dtype := s_dtype s; a_values := hashtable_unique [] (s_values s) |}.

(** [pd.Series(array)]: no name, the index [0 .. n-1]. *)
Definition pd_Series (a : Array) : Series :=
  {| s_name := None; s_array := a;
     s_index := RangeIndex 0 (Z.of_nat (length (a_values a))) 1 |}.

(** [~value]: logical on a bool, bitwise on an integer; a missing value
    of a nullable array stays missing. *)
Definition cell_invert (c : cell) : cell :=
  match c with
  | CBool b => CBool (negb b)
  | CInt z => CInt (- z - 1)
  | _ => c
  end.

(** [~series], same name and index.  numpy refuses floats; the other
    dtypes are left out. *)
Definition Series_invert (s : Series) : result Series :=
  match s_dtype s with
  | np_bool | BooleanDtype | np_int64 | Int64Dtype =>
      Ok (mk_series (s_name s) (s_dtype s) (map cell_invert (s_values s))
                    (s_index s))
  | np_float64 => Raise (TypeError "ufunc 'invert' not supported")
  | _ => Raise (Unmodelled "~ on this dtype")
  end.

(** [left & right] on values: logical on bools (Kleene's, with a
    missing value), bitwise on integers. *)
Definition cell_and (a b : cell) : cell :=
  match a, b with
  | CBool x, CBool y => CBool (x && y)
  | CInt x, CInt y => CInt (Z.land x y)
  | CBool false, CNA | CNA, CBool false => CBool false
  | _, _ => CNA
  end.

Definition name_eqb (a b : option label) : bool :=
  match a, b with
  | Some x, Some y => label_eqb x y
  | None, None => true
  | _, _ => false
  end.

(** [left & right] for two Series on one index and of one dtype among
    bool, nullable boolean and int64; the result keeps the name the two
    share.  Series on different indexes are aligned first and mixed
    dtypes are promoted, which this model leaves out. *)
Definition Series_and (left right : Series) : result Series :=
  if negb (Index_equals (s_index left) (s_index right)) then
    Raise (Unmodelled "& of Series on different indexes")
  else if dtype_eqb (s_dtype left) (s_dtype right)
          && (dtype_eqb (s_dtype left) np_bool
              || dtype_eqb (s_dtype left) BooleanDtype
              || dtype_eqb (s_dtype left) np_int64) then
    Ok (mk_series (if name_eqb (s_name left) (s_name right)
                   then s_name left else None)
                  (s_dtype left)
                  (map (fun p => cell_and (fst p) (snd p))
                       (combine (s_values left) (s_values right)))
                  (s_index left))
  else Raise (Unmodelled "& of Series of these dtypes").

Module PandasColumn.

Definition __len__ (self : PandasColumn) : nat :=
  Series_len (_series self).

Definition __getitem__ (self : PandasColumn) (row : Z) : result cell :=
  Series_iloc (_series self) row.

Definition isnull (self : PandasColumn) : PandasColumn :=
  if is_extension_array_dtype (s_dtype (_series self)) then
    {| _series := Series_isna (_series self) |}
  else
    {| _series := Series_of_falses (__len__ self) None |}.

Definition isnan (self : PandasColumn) : PandasColumn :=
  {| _series := Series_isna (_series self) |}.

Definition any (self : PandasColumn) : bool := Series_any (_series self).

Definition all (self : PandasColumn) : bool := Series_all (_series self).

Definition unique (self : PandasColumn) : PandasColumn :=
  {| _series := pd_Series (Series_unique (_series self)) |}.

Definition __and__ (self other : PandasColumn) : result PandasColumn :=
  s <- Series_and (_series self) (_series other) ;;
  Ok {| _series := s |}.

Definition __invert__ (self : PandasColumn) : result PandasColumn :=
  s <- Series_invert (_series self) ;;
  Ok {| _series := s |}.

End PandasColumn.

(** ** The engine: DataFrame *)

(** [df.reset_index(drop=True)] *)
Definition reset_index_drop (d : DataFrame) : DataFrame :=
  {| df_data := df_data d;
     df_index := RangeIndex 0 (Z.of_nat (df_len d)) 1 |}.

(** The columns stored under [name]. *)
Definition lookup_label (d : DataFrame) (name : label) : list Array :=
  map snd (filter (fun c => label_eqb (fst c) name) (df_data d)).

(** [df.loc[:, name]] for a label held once (a repeated label selects a
    frame, which is not a Series of this model). *)
Definition loc_column (d : DataFrame) (name : label) : result Series :=
  match lookup_label d name with
  | [] => Raise (KeyError "label not found")
  | [a] => Ok {| s_name := Some name; s_array := a; s_index := df_index d |}
  | _ => Raise (Unmodelled "loc on a repeated label")
  end.

(** [df.loc[:, names]]: the named columns in the order of [names], every
    column of a repeated label each time it is named. *)
Fixpoint loc_data (d : DataFrame) (names : list label)
  : result (list (label * Array)) :=
  match names with
  | [] => Ok []
  | n :: names' =>
      match lookup_label d n with
      | [] => Raise (KeyError "label not in index")
      | arrs =>
          rest <- loc_data d names' ;;
          Ok (map (fun a => (n, a)) arrs ++ rest)
      end
  end.

Definition loc_columns (d : DataFrame) (names : list label) : result DataFrame :=
  data <- loc_data d names ;;
  Ok {| df_data := data; df_index := df_index d |}.

(** [df.drop(label, axis=1)] *)
Definition df_drop (d : DataFrame) (l : label) : result DataFrame :=
  if existsb (label_eqb l) (columns d) then
    Ok {| df_data := filter (fun c => negb (label_eqb (fst c) l)) (df_data d);
          df_index := df_index d |}
  else Raise (KeyError "label not found in axis").

(** [df.drop(columns=labels)] *)
Definition df_drop_columns (d : DataFrame) (ls : list label) : result DataFrame :=
  if forallb (fun l => existsb (label_eqb l) (columns d)) ls then
    Ok {| df_data :=
            filter (fun c => negb (existsb (label_eqb (fst c)) ls)) (df_data d);
          df_index := df_index d |}
  else Raise (KeyError "labels not found in axis").

(** [df.iloc[:, :loc]] and [df.iloc[:, loc:]] *)
Definition iloc_columns_to (d : DataFrame) (loc : Z) : DataFrame :=
  {| df_data := firstn (slice_bound (length (df_data d)) loc) (df_data d);
     df_index := df_index d |}.

Definition iloc_columns_from (d : DataFrame) (loc : Z) : DataFrame :=
  {| df_data := skipn (slice_bound (length (df_data d)) loc) (df_data d);
     df_index := df_index d |}.

(** An argument of [pd.concat]. *)
Inductive ndframe :=
| NDSeries (s : Series)
| NDFrame (d : DataFrame).

Definition nd_index (o : ndframe) : Index :=
  match o with
  | NDSeries s => s_index s
  | NDFrame d => df_index d
  end.

(** The columns an argument of [pd.concat(..., axis=1)] contributes; an
    unnamed Series is numbered ([num] counts the unnamed ones so far). *)
Fixpoint concat_columns (objs : list ndframe) (num : Z) : list (label * Array) :=
  match objs with
  | [] => []
  | NDSeries s :: rest =>
      match s_name s with
      | Some l => (l, s_array s) :: concat_columns rest num
      | None => (LInt num, s_array s) :: concat_columns rest (num + 1)
      end
  | NDFrame d :: rest => df_data d ++ concat_columns rest num
  end.

(** [pd.concat(objs, axis=1)] of objects that share one index: their
    columns side by side.  Objects on different indexes are joined on
    the union of the indexes, which this model leaves out. *)
Definition concat_axis1 (objs : list ndframe) : result DataFrame :=
  match objs with
  | [] => Raise (ValueError "No objects to concatenate")
  | o :: rest =>
      if forallb (fun o' => Index_equals (nd_index o) (nd_index o')) rest then
        Ok {| df_data := concat_columns objs 0; df_index := nd_index o |}
      else Raise (Unmodelled "concat(axis=1) of unaligned objects")
  end.

(** [df.dtypes]: a Series of dtypes indexed by the column labels. *)
Definition dtypes (d : DataFrame) : list (label * dtype) :=
  map (fun c => (fst c, a_dtype (snd c))) (df_data d).

(** [left != right] between two Series of dtypes: elementwise, and only
    between identically labelled Series. *)
Definition dtypes_ne (left right : list (label * dtype))
  : result (list (label * bool)) :=
  if list_eqb label_eqb (map fst left) (map fst right) then
    Ok (map (fun p => (fst (fst p), negb (dtype_eqb (snd (fst p)) (snd (snd p)))))
            (combine left right))
  else Raise (ValueError "Can only compare identically-labeled Series objects").

(** [bool(series)], what an [if series:] evaluates: pandas refuses to give
    a Series a truth value, whatever its length or content. *)
Definition Series_truth_value {A} (s : list (label * A)) : result bool :=
  Raise (ValueError "The truth value of a Series is ambiguous").

(** [(series == "bool").all()] on a Series of dtypes. *)
Definition dtypes_all_bool (s : list (label * dtype)) : bool :=
  forallb (fun p => dtype_eqb (snd p) np_bool) s.

(** Row-wise concatenation of the arrays of one column. *)
Fixpoint concat_rows (ds : list DataFrame) (k : nat) : list cell :=
  match ds with
  | [] => []
  | d :: ds' =>
      match nth_error (df_data d) k with
      | Some c => a_values (snd c)
      | None => []
      end ++ concat_rows ds' k
  end.

(** [pd.concat(frames, axis=0, ignore_index=True)] of frames with the
    same labels and dtypes in the same order: the rows of each in turn,
    on a fresh positional index.  Frames that differ in labels or dtypes
    are joined and upcast, which this model leaves out. *)
Definition concat_axis0 (ds : list DataFrame) : result DataFrame :=
  match ds with
  | [] => Raise (ValueError "No objects to concatenate")
  | d :: rest =>
      if forallb (fun d' =>
                    list_eqb (fun p q => label_eqb (fst p) (fst q)
                                         && dtype_eqb (snd p) (snd q))
                             (dtypes d) (dtypes d')) rest
      then
        Ok {| df_data :=
                map (fun kc => (fst (snd kc),
                                {| a_dtype := a_dtype (snd (snd kc));
                                   a_values := concat_rows ds (fst kc) |}))
                    (combine (seq 0 (length (df_data d))) (df_data d));
              df_index :=
                RangeIndex 0 (Z.of_nat (list_sum (map df_len ds))) 1 |}
      else Raise (Unmodelled "concat(axis=0) of frames with different columns")
  end.

(** A level whose values [assert_index_equal] does not compare one by
    one for identity: object values are compared with [==] after their
    inferred type (1 and 1.0), floats with a tolerance in recent
    versions of pandas. *)
Definition compared_loosely (d : dtype) : bool :=
  match d with
  | np_object | np_float64 | Float64Dtype => true
  | _ => false
  end.

(** [pd.testing.assert_index_equal(left, right)] with its defaults
    ([exact='equiv'], [check_names=True]): the two are of one class (a
    RangeIndex counts as an Index, a MultiIndex does not), have the same
    dtype level by level, the same length, the same entries and the same
    names.  What becomes of entries of an object or float level that
    are not the same values is left out of this model. *)
Definition assert_index_equal (left right : Index) : result unit :=
  if negb (Bool.eqb (Index_is_multi left) (Index_is_multi right)) then
    Raise (AssertionError "Index classes are different")
  else if negb (list_eqb dtype_eqb (Index_level_dtypes left)
                                   (Index_level_dtypes right)) then
    Raise (AssertionError "Attributes of Index are different")
  else if negb (Nat.eqb (Index_len left) (Index_len right)) then
    Raise (AssertionError "Index length are different")
  else if Index_equals left right then
    if list_eqb name_eqb (Index_names left) (Index_names right) then Ok tt
    else Raise (AssertionError "Attribute names are different")
  else if existsb compared_loosely (Index_level_dtypes left) then
    Raise (Unmodelled "object or float index values that differ")
  else Raise (AssertionError "Index values are different").

(** [index.take(indexer)] *)
Definition Index_take (i : Index) (indexer : list nat) : Index :=
  match i with
  | RangeIndex a b s =>
      LabelIndex None np_int64
        (map (fun k => CInt (nth k (range_values a b s) 0)) indexer)
  | LabelIndex n d l => LabelIndex n d (map (fun k => nth k l CNone) indexer)
  | MultiIndex ns ds l => MultiIndex ns ds (map (fun k => nth k l []) indexer)
  end.

(** [array.take(indexer)] and [df.take(indexer)]: the rows at the given
    positions, in that order, under their index labels. *)
Definition Array_take (a : Array) (indexer : list nat) : Array :=
  {| a_dtype := a_dtype a;
     a_values := map (fun k => nth k (a_values a) CNone) indexer |}.

Definition df_take (d : DataFrame) (indexer : list nat) : DataFrame :=
  {| df_data := map (fun c => (fst c, Array_take (snd c) indexer)) (df_data d);
     df_index := Index_take (df_index d) indexer |}.

(** *** Grouping *)

(** The array grouped on for key [k]. *)
Definition key_array (d : DataFrame) (k : label) : result Array :=
  match lookup_label d k with
  | [] => Raise (KeyError "key not found")
  | [a] => Ok a
  | _ => Raise (ValueError "Grouper not 1-dimensional")
  end.

(** [df.groupby(keys, sort=sort, as_index=as_index)] *)
Definition pd_groupby (d : DataFrame) (ks : list label) (sort as_index : bool)
  : result DataFrameGroupBy :=
  _ <- mapM (key_array d) ks ;;
  if match ks with [] => Nat.ltb 0 (df_len d) | _ :: _ => false end then
    Raise (ValueError "No group keys passed!")
  else
    Ok {| g_obj := d; g_keys := ks; g_sort := sort; g_as_index := as_index |}.

(** The key of row [i]: its value in each key array. *)
Definition row_key (ks : list Array) (i : nat) : list cell :=
  map (fun a => nth i (a_values a) CNone) ks.

Definition row_has_null (ks : list Array) (i : nat) : bool :=
  existsb (fun a => isna_cell (a_dtype a) (nth i (a_values a) CNone)) ks.

(** The rows that belong to a group: [dropna=True] leaves out a row with
    a missing value in a key. *)
Definition grouped_rows (n : nat) (ks : list Array) : list nat :=
  filter (fun i => negb (row_has_null ks i)) (seq 0 n).

(** The groups, in order of first appearance, each with its row count.
    Two rows are in one group when their keys are equal level by level
    as keys of a hash table. *)
Definition group_sizes (n : nat) (ks : list Array) : list (list cell * nat) :=
  Counter (list_eqb hash_eqb) (map (row_key ks) (grouped_rows n ks)).

Definition group_leb (p q : list cell * nat) : bool :=
  lex_leb (map Some (fst p)) (map Some (fst q)).

(** [grouped.size()] for [as_index=True]: one entry per group, indexed
    by the group key (an Index for one key, a MultiIndex otherwise),
    each level named by its key. *)
Definition groupby_size (g : DataFrameGroupBy) : result Series :=
  ks <- mapM (key_array (g_obj g)) (g_keys g) ;;
  if g_as_index g then
    let counted := group_sizes (df_len (g_obj g)) ks in
    let groups := if g_sort g then stable_sort group_leb counted else counted in
    Ok (mk_series None np_int64
          (map (fun p => CInt (Z.of_nat (snd p))) groups)
          (match ks with
           | [a] => LabelIndex (hd_error (g_keys g)) (a_dtype a)
                               (map (fun p => hd CNone (fst p)) groups)
           | _ => MultiIndex (map Some (g_keys g)) (map a_dtype ks)
                             (map fst groups)
           end))
  else Raise (Unmodelled "size() with as_index=False").

(** *** Sorting *)

Section SortValues.

(** numpy's [argsort(kind='quicksort')] on the values that are not
    missing: the positions in ascending order of value.  The order it
    leaves equal values in is numpy's choice. *)
Variable argsort : list cell -> list nat.

(** The values of the column a sort key names. *)
Definition label_values (d : DataFrame) (k : label) : result Array :=
  match lookup_label d k with
  | [] => Raise (KeyError "sort key not found")
  | [a] => Ok a
  | _ => Raise (ValueError "The column label is not unique")
  end.

(** [nargsort(items, kind='quicksort', na_position='last')]: the kernel
    sorts the values that are not missing, the missing ones follow.
    numpy compares values with [<], which raises TypeError between a
    string and a number. *)
Definition nargsort (a : Array) : result (list nat) :=
  let idx := seq 0 (length (a_values a)) in
  let mask := fun i => isna_cell (a_dtype a) (nth i (a_values a) CNone) in
  let non_nan_idx := filter (fun i => negb (mask i)) idx in
  let nan_idx := filter mask idx in
  let non_nans := map (fun i => nth i (a_values a) CNone) non_nan_idx in
  if comparable non_nans then
    Ok (map (fun j => nth j non_nan_idx 0%nat) (argsort non_nans) ++ nan_idx)
  else
    Raise (TypeError "'<' not supported between instances of 'str' and 'int'").

(** The sort key of row [i] over the key arrays [ks]. *)
Definition sort_row (ks : list Array) (i : nat) : list (option cell) :=
  map (fun a => sort_key (a_dtype a) (nth i (a_values a) CNone)) ks.

(** [lexsort_indexer(keys, na_position='last')]: a stable sort on the
    codes of the keys, which order the values of each key (numbers before
    strings, where a key holds both). *)
Definition lexsort_indexer (ks : list Array) (n : nat) : list nat :=
  stable_argsort lex_leb (map (sort_row ks) (seq 0 n)).

(** A nullable array that holds a not-a-number beside its missing
    values: how the codes of [lexsort_indexer] treat it is left out of
    this model. *)
Definition holds_masked_nan (a : Array) : bool :=
  is_extension_array_dtype (a_dtype a)
  && existsb (fun c => match c with CNaN => true | _ => false end) (a_values a).

(** [df.sort_values(by)] for a list [by]: no key leaves the frame as it
    is, one key is sorted by [nargsort], several by [lexsort_indexer]. *)
Definition sort_values (d : DataFrame) (by_ : list label) : result DataFrame :=
  match by_ with
  | [] => Ok d
  | [k] =>
      a <- label_values d k ;;
      indexer <- nargsort a ;;
      Ok (df_take d indexer)
  | _ =>
      ks <- mapM (label_values d) by_ ;;
      if existsb holds_masked_nan ks then
        Raise (Unmodelled "lexsort on a nullable key holding NaN")
      else Ok (df_take d (lexsort_indexer ks (df_len d)))
  end.

End SortValues.

(** [left.difference(right)] on two column indexes: the labels of [left]
    not in [right], without repeats, sorted. *)
Definition label_leb (a b : label) : bool :=
  match a, b with
  | LInt x, LInt y => x <=? y
  | LInt _, LStr _ => true
  | LStr _, LInt _ => false
  | LStr s, LStr t => string_leb s t
  end.

Fixpoint dedup (l : list label) : list label :=
  match l with
  | [] => []
  | x :: l' => x :: filter (fun y => negb (label_eqb y x)) (dedup l')
  end.

Definition Index_difference (left right : list label) : list label :=
  stable_sort label_leb
    (dedup (filter (fun l => negb (existsb (label_eqb l) right)) left)).

(** *** Frames from columns, row selection, renaming, reductions *)

(** [pd.DataFrame({label: series, ...})], the dict given as the list of
    its items in insertion order (the keys of a dict do not repeat): one
    column per item, on the index the Series share; no item gives the
    empty frame.  Series on different indexes are aligned on the union
    of the indexes, which this model leaves out. *)
Definition DataFrame_of_dict (items : list (label * Series)) : result DataFrame :=
  match items with
  | [] => Ok {| df_data := []; df_index := RangeIndex 0 0 1 |}
  | (_, s) :: rest =>
      if forallb (fun it => Index_equals (s_index s) (s_index (snd it))) rest then
        Ok {| df_data := map (fun it => (fst it, s_array (snd it))) items;
              df_index := s_index s |}
      else Raise (Unmodelled "DataFrame from Series on different indexes")
  end.

(** The position an integer [i] of a positional indexer stands for among
    [n] rows: [i] itself, or [n + i] for a negative [i]; none when out of
    bounds. *)
Definition iloc_position (n : nat) (i : Z) : option nat :=
  if (i <? - Z.of_nat n) || (Z.of_nat n <=? i) then None
  else Some (Z.to_nat (if i <? 0 then i + Z.of_nat n else i)).

Fixpoint iloc_positions (n : nat) (l : list Z) : result (list nat) :=
  match l with
  | [] => Ok []
  | i :: l' =>
      match iloc_position n i with
      | None => Raise (IndexError "positional indexers are out-of-bounds")
      | Some p => ps <- iloc_positions n l' ;; Ok (p :: ps)
      end
  end.

(** [df.iloc[indices, :]] for a list of integers: a gather. *)
Definition df_iloc_rows (d : DataFrame) (indices : list Z) : result DataFrame :=
  ps <- iloc_positions (df_len d) indices ;;
  Ok (df_take d ps).

(** [slice(start, stop, step).indices(n)], then the positions of the
    range it gives: Python's clipping of slice bounds. *)
Definition slice_clip (n lo hi k : Z) : Z :=
  if k <? 0 then (if k + n <? lo then lo else k + n)
  else (if hi <? k then hi else k).

Definition slice_positions (n : nat) (start stop step : Z) : result (list nat) :=
  if step =? 0 then Raise (ValueError "slice step cannot be zero")
  else
    let z := Z.of_nat n in
    let lo := if 0 <? step then 0 else -1 in
    let hi := if 0 <? step then z else z - 1 in
    Ok (map Z.to_nat
          (range_values (slice_clip z lo hi start) (slice_clip z lo hi stop) step)).

(** [df.iloc[start:stop:step]] *)
Definition df_iloc_slice (d : DataFrame) (start stop step : Z) : result DataFrame :=
  ps <- slice_positions (df_len d) start stop step ;;
  Ok (df_take d ps).

(** [df.loc[mask, :]] for a boolean Series on the frame's index: the rows
    where the mask is true, a missing value of a nullable mask counting
    as false.  A Series of another dtype selects by label, which this
    model leaves out. *)
Definition mask_positions (n : nat) (mask : Series) : list nat :=
  filter (fun i => match nth i (s_values mask) CNone with
                   | CBool b => b
                   | _ => false
                   end) (seq 0 n).

Definition df_loc_mask (d : DataFrame) (mask : Series) : result DataFrame :=
  match s_dtype mask with
  | np_bool | BooleanDtype => Ok (df_take d (mask_positions (df_len d) mask))
  | _ => Raise (Unmodelled "loc with a Series that is not boolean")
  end.

(** [mapping.get(l, l)] on the items of a dict. *)
Fixpoint dict_get (mapping : list (label * label)) (l : label) : label :=
  match mapping with
  | [] => l
  | (k, v) :: rest => if label_eqb k l then v else dict_get rest l
  end.

(** [df.rename(columns=mapping)] *)
Definition df_rename (d : DataFrame) (mapping : list (label * label)) : DataFrame :=
  {| df_data := map (fun c => (dict_get mapping (fst c), snd c)) (df_data d);
     df_index := df_index d |}.

(** [df.any().to_frame().T] and [df.all().to_frame().T] on a frame of
    bool columns: one row, labelled 0, with the reduction of each
    column under its label. *)
Definition df_reduce_frame (reduce : list cell -> bool) (d : DataFrame) : DataFrame :=
  {| df_data := map (fun c => (fst c, {| a_dtype := np_bool;
                                         a_values := [CBool (reduce (a_values (snd c)))] |}))
                    (df_data d);
     df_index := LabelIndex None np_int64 [CInt 0] |}.

(** Row [i] of a frame: its value in each column. *)
Definition df_row (d : DataFrame) (i : nat) : list cell :=
  map (fun c => nth i (a_values (snd c)) CNone) (df_data d).

(** [df.any(axis=1)] and [df.all(axis=1)] on a frame of bool columns: a
    bool Series on the frame's index with the reduction of each row. *)
Definition df_reduce_rows (reduce : list cell -> bool) (d : DataFrame) : Series :=
  mk_series None np_bool
    (map (fun i => CBool (reduce (df_row d i))) (seq 0 (df_len d)))
    (df_index d).

(** ** Arguments as Python passes them *)

(** The right operand of a binary operator: a wrapped frame, or a scalar
    (which has no [dataframe] attribute). *)
Inductive pyobject :=
| PyDataFrame (d : PandasDataFrame)
| PyScalar (c : cell).

(** The [keys] argument of [groupby]: a [str], a list, or an object that
    is not a [collections.abc.Sequence]. *)
Inductive keys_arg :=
| KeysStr (s : string)
| KeysList (ks : list label)
| KeysOther.

(** The [keys] argument of [sorted_indices]: a list of labels, a tuple
    of labels, or a [str]. *)
Inductive sort_keys_arg :=
| SortList (ks : list label)
| SortTuple (ks : list label)
| SortStr (s : string).

(** The [names] argument of [get_columns_by_name]: a [str] or a list. *)
Inductive names_arg :=
| NamesStr (s : string)
| NamesList (names : list label).

(** The [indices] argument of [get_rows]: a list of integers, or an
    object that is not a [collections.abc.Sequence]. *)
Inductive indices_arg :=
| IndicesList (indices : list Z)
| IndicesOther.

(** The [mapping] argument of [rename_columns]: a dict, given as the list
    of its items, or an object that is not a [collections.abc.Mapping]. *)
Inductive mapping_arg :=
| MappingDict (items : list (label * label))
| MappingOther.

Inductive binop :=
| OpEq | OpNe | OpGe | OpGt | OpLe | OpLt
| OpAdd | OpSub | OpMul | OpTruediv | OpFloordiv | OpPow | OpMod.

Inductive aggregation :=
| AggAny | AggAll | AggMin | AggMax | AggSum | AggProd
| AggMedian | AggMean | AggStd | AggVar.

(** [PandasGroupBy(df, keys)] *)
Definition PandasGroupBy__init__ (d : DataFrame) (ks : list label)
  : result PandasGroupBy :=
  g <- pd_groupby d ks false false ;;
  Ok {| df := d; grouped := g; keys := ks |}.

Module PandasDataFrame.

Definition _validate_columns (cols : list label) : result unit :=
  match find (fun kc => Nat.ltb 1 (snd kc)) (Counter label_eqb cols) with
  | Some _ => Raise (ValueError "Expected unique column names")
  | None =>
      match find (fun col => negb (is_str col)) cols with
      | Some _ => Raise (TypeError "Expected column names to be of type str")
      | None => Ok tt
      end
  end.

(** [PandasDataFrame(dataframe)] *)
Definition __init__ (dataframe : DataFrame) : result PandasDataFrame :=
  _validate_columns (columns dataframe) ;;;
  if match df_index dataframe with
     | RangeIndex start stop step =>
         (start =? 0) && (step =? 1)
         && (stop =? Z.of_nat (df_len dataframe) - 1)
     | _ => false
     end
  then Ok {| _dataframe := dataframe |}
  else Ok {| _dataframe := reset_index_drop dataframe |}.

Definition dataframe (self : PandasDataFrame) : DataFrame := _dataframe self.

Definition shape (self : PandasDataFrame) : nat * nat := shape (dataframe self).

Definition __len__ (self : PandasDataFrame) : nat := fst (shape self).

Definition get_column_names (self : PandasDataFrame) : list label :=
  columns (dataframe self).

Definition _validate_index (self : PandasDataFrame) (index : Index) : result unit :=
  assert_index_equal (df_index (dataframe self)) index.

Definition _validate_comparand (self : PandasDataFrame) (other : pyobject)
  : result unit :=
  match other with
  | PyDataFrame o =>
      if negb (Index_equals (df_index (dataframe self)) (df_index (dataframe o))
               && (Nat.eqb (fst (shape self)) (fst (shape o))
                   && Nat.eqb (snd (shape self)) (snd (shape o)))
               && list_eqb label_eqb (columns (dataframe self))
                                     (columns (dataframe o)))
      then Raise (ValueError "Expected DataFrame with same length, matching columns, and matching index.")
      else Ok tt
  | PyScalar _ => Ok tt
  end.

(** [other.dataframe] *)
Definition getattr_dataframe (other : pyobject) : result DataFrame :=
  match other with
  | PyDataFrame o => Ok (dataframe o)
  | PyScalar _ => Raise (AttributeError "object has no attribute 'dataframe'")
  end.

Definition groupby (self : PandasDataFrame) (ks : keys_arg) : result PandasGroupBy :=
  match ks with
  | KeysOther => Raise (TypeError "Expected sequence of strings")
  | KeysStr _ => Raise (TypeError "Expected sequence of strings, got: str")
  | KeysList l =>
      match find (fun key => negb (existsb (label_eqb key) (get_column_names self))) l with
      | Some _ => Raise (KeyError "key not present in DataFrame's columns")
      | None => PandasGroupBy__init__ (dataframe self) l
      end
  end.

Definition get_column_by_name (self : PandasDataFrame) (name : label)
  : result PandasColumn :=
  if negb (is_str name) then Raise (TypeError "Expected str")
  else
    s <- loc_column (dataframe self) name ;;
    Ok {| _series := s |}.

Definition insert (self : PandasDataFrame) (loc : Z) (l : label)
  (value : PandasColumn) : result PandasDataFrame :=
  let series := _series value in
  _validate_index self (s_index series) ;;;
  let before := iloc_columns_to (dataframe self) loc in
  let after := iloc_columns_from (dataframe self) loc in
  let to_insert := Series_rename (_series value) l in
  r <- concat_axis1 [NDFrame before; NDSeries to_insert; NDFrame after] ;;
  __init__ r.

Definition drop_column (self : PandasDataFrame) (l : label)
  : result PandasDataFrame :=
  if negb (is_str l) then Raise (TypeError "Expected str")
  else
    r <- df_drop (dataframe self) l ;;
    __init__ r.

Definition set_column (self : PandasDataFrame) (l : label)
  (value : PandasColumn) : result PandasDataFrame :=
  let cols := get_column_names self in
  if existsb (label_eqb l) cols then
    let idx := list_index l cols in
    d <- drop_column self l ;;
    insert d (Z.of_nat idx) l value
  else insert self (Z.of_nat (length cols)) l value.

Section Operators.

(** The engine's elementwise operators on two frames,
    [left.__op__(right)] and [left.__divmod__(right)]. *)
Variable frame_op : binop -> DataFrame -> DataFrame -> result DataFrame.
Variable frame_divmod : DataFrame -> DataFrame -> result (DataFrame * DataFrame).

(** The body shared by [__eq__], [__ne__], ..., [__mod__]. *)
Definition binary_op (op : binop) (self : PandasDataFrame) (other : pyobject)
  : result PandasDataFrame :=
  _validate_comparand self other ;;;
  o <- getattr_dataframe other ;;
  r <- frame_op op (dataframe self) o ;;
  __init__ r.

Definition __eq__ := binary_op OpEq.
Definition __ne__ := binary_op OpNe.
Definition __ge__ := binary_op OpGe.
Definition __gt__ := binary_op OpGt.
Definition __le__ := binary_op OpLe.
Definition __lt__ := binary_op OpLt.
Definition __add__ := binary_op OpAdd.
Definition __sub__ := binary_op OpSub.
Definition __mul__ := binary_op OpMul.
Definition __truediv__ := binary_op OpTruediv.
Definition __floordiv__ := binary_op OpFloordiv.
Definition __pow__ := binary_op OpPow.
Definition __mod__ := binary_op OpMod.

Definition __divmod__ (self : PandasDataFrame) (other : pyobject)
  : result (PandasDataFrame * PandasDataFrame) :=
  _validate_comparand self other ;;;
  o <- getattr_dataframe other ;;
  qr <- frame_divmod (dataframe self) o ;;
  quotient <- __init__ (fst qr) ;;
  remainder <- __init__ (snd qr) ;;
  Ok (quotient, remainder).

End Operators.

Definition isnull (self : PandasDataFrame) : result PandasDataFrame :=
  result <- mapM (fun column =>
                    s <- loc_column (dataframe self) column ;;
                    if is_extension_array_dtype (s_dtype s) then
                      Ok (NDSeries (Series_isna s))
                    else
                      Ok (NDSeries (Series_of_falses (fst (shape self)) (Some column))))
                 (columns (dataframe self)) ;;
  r <- concat_axis1 result ;;
  __init__ r.

Definition isnan (self : PandasDataFrame) : result PandasDataFrame :=
  result <- mapM (fun column =>
                    s <- loc_column (dataframe self) column ;;
                    if is_extension_array_dtype (s_dtype s) then
                      m <- np_isnan_masked s ;;
                      b <- Series_astype_bool (Series_replace_NA_False m) ;;
                      Ok (NDSeries b)
                    else
                      Ok (NDSeries (Series_isna s)))
                 (columns (dataframe self)) ;;
  r <- concat_axis1 result ;;
  __init__ r.

(** The loop of [concat] over [other]. *)
Fixpoint concat_check (self : PandasDataFrame) (other : list PandasDataFrame)
  : result unit :=
  match other with
  | [] => Ok tt
  | _other :: rest =>
      ne <- dtypes_ne (dtypes (dataframe _other)) (dtypes (dataframe self)) ;;
      b <- Series_truth_value ne ;;
      if b then Raise (ValueError "Expected matching columns")
      else concat_check self rest
  end.

Definition concat (self : PandasDataFrame) (other : list PandasDataFrame)
  : result PandasDataFrame :=
  concat_check self other ;;;
  r <- concat_axis0 (dataframe self :: map dataframe other) ;;
  __init__ r.

Section Sorting.

Variable argsort : list cell -> list nat.

(** [list(keys)]: the items of a list or a tuple, the characters of a
    [str]. *)
Definition list_of_keys (ks : sort_keys_arg) : list label :=
  match ks with
  | SortList l | SortTuple l => l
  | SortStr s => map (fun c => LStr (String c EmptyString)) (list_ascii_of_string s)
  end.

(** [df.sort_values(keys)]: a [by] that is not a list is taken for one
    label; a tuple is the label of no column of a frame with a flat
    column index. *)
Definition sort_values_by (d : DataFrame) (ks : sort_keys_arg) : result DataFrame :=
  match ks with
  | SortList l => sort_values argsort d l
  | SortStr s => sort_values argsort d [LStr s]
  | SortTuple _ => Raise (KeyError "sort key not found")
  end.

Definition sorted_indices (self : PandasDataFrame) (ks : sort_keys_arg)
  : result PandasColumn :=
  d <- loc_columns (dataframe self) (list_of_keys ks) ;;
  sorted <- sort_values_by d ks ;;
  s <- Index_to_series (df_index sorted) ;;
  Ok {| _series := s |}.

End Sorting.

Definition _validate_booleanness (self : PandasDataFrame) : result unit :=
  if negb (dtypes_all_bool (dtypes (dataframe self))) then Raise NotImplementedError
  else Ok tt.

Definition from_dict (data : list (label * PandasColumn)) : result PandasDataFrame :=
  r <- DataFrame_of_dict (map (fun it => (fst it, _series (snd it))) data) ;;
  __init__ r.

Definition get_columns_by_name (self : PandasDataFrame) (names : names_arg)
  : result PandasDataFrame :=
  match names with
  | NamesStr _ => Raise (TypeError "Expected sequence of str")
  | NamesList l =>
      _validate_columns l ;;;
      r <- loc_columns (dataframe self) l ;;
      __init__ r
  end.

Definition get_rows (self : PandasDataFrame) (indices : indices_arg)
  : result PandasDataFrame :=
  match indices with
  | IndicesOther => Raise (TypeError "Expected Sequence of int")
  | IndicesList l =>
      r <- df_iloc_rows (dataframe self) l ;;
      __init__ r
  end.

Definition slice_rows (self : PandasDataFrame) (start stop step : Z)
  : result PandasDataFrame :=
  r <- df_iloc_slice (dataframe self) start stop step ;;
  __init__ r.

Definition get_rows_by_mask (self : PandasDataFrame) (mask : PandasColumn)
  : result PandasDataFrame :=
  let series := _series mask in
  _validate_index self (s_index series) ;;;
  r <- df_loc_mask (dataframe self) series ;;
  __init__ r.

Definition rename_columns (self : PandasDataFrame) (mapping : mapping_arg)
  : result PandasDataFrame :=
  match mapping with
  | MappingOther => Raise (TypeError "Expected Mapping")
  | MappingDict items => __init__ (df_rename (dataframe self) items)
  end.

Definition any (self : PandasDataFrame) : result PandasDataFrame :=
  _validate_booleanness self ;;;
  __init__ (df_reduce_frame (existsb truthy) (dataframe self)).

Definition all (self : PandasDataFrame) : result PandasDataFrame :=
  _validate_booleanness self ;;;
  __init__ (df_reduce_frame (forallb truthy) (dataframe self)).

Definition any_rowwise (self : PandasDataFrame) : result PandasColumn :=
  _validate_booleanness self ;;;
  Ok {| _series := df_reduce_rows (existsb truthy) (dataframe self) |}.

Definition all_rowwise (self : PandasDataFrame) : result PandasColumn :=
  _validate_booleanness self ;;;
  Ok {| _series := df_reduce_rows (forallb truthy) (dataframe self) |}.

End PandasDataFrame.

Module PandasGroupBy.

Definition __init__ := PandasGroupBy__init__.

Definition _validate_result (self : PandasGroupBy) (result_ : DataFrame)
  : result unit :=
  let failed_columns := Index_difference (columns (df self)) (columns result_) in
  if Nat.ltb 0 (length failed_columns) then Raise (RuntimeError failed_columns)
  else Ok tt.

Definition size (self : PandasGroupBy) : result PandasColumn :=
  g <- pd_groupby (df self) (keys self) true true ;;
  s <- groupby_size g ;;
  Ok {| _series := s |}.

Section Aggregations.

(** The engine's per-group reductions, [grouped.any()], ...,
    [grouped.var()]. *)
Variable grouped_agg : aggregation -> DataFrameGroupBy -> result DataFrame.

(** The check [any] and [all] start with. *)
Definition _expect_boolean (self : PandasGroupBy) : result unit :=
  d <- df_drop_columns (df self) (keys self) ;;
  if negb (dtypes_all_bool (dtypes d)) then
    Raise (ValueError "Expected boolean types")
  else Ok tt.

(** The check before the reduction: only [any] and [all] have one. *)
Definition precheck (f : aggregation) (self : PandasGroupBy) : result unit :=
  match f with
  | AggAny | AggAll => _expect_boolean self
  | _ => Ok tt
  end.

(** The body shared by the ten aggregation methods. *)
Definition aggregate (f : aggregation) (self : PandasGroupBy)
  : result PandasDataFrame :=
  precheck f self ;;;
  result <- grouped_agg f (grouped self) ;;
  _validate_result self result ;;;
  PandasDataFrame.__init__ result.

Definition any := aggregate AggAny.
Definition all := aggregate AggAll.
Definition min := aggregate AggMin.
Definition max := aggregate AggMax.
Definition sum := aggregate AggSum.
Definition prod := aggregate AggProd.
Definition median := aggregate AggMedian.
Definition mean := aggregate AggMean.
Definition std := aggregate AggStd.
Definition var := aggregate AggVar.

End Aggregations.

End PandasGroupBy.

(** ** Objects the program can build *)

(** A wrapped frame is one its constructor returned, from a frame whose
    columns all have the length of its index. *)
Definition constructed (D : PandasDataFrame) : Prop :=
  exists raw, df_wf raw = true /\ PandasDataFrame.__init__ raw = Ok D.

(** An index is positional when it is a range from 0 in steps of 1. *)
Definition positional (i : Index) : Prop := exists stop, i = RangeIndex 0 stop 1.

(** A kernel that never raises and hands back its left operand: what the
    wrapper raises with it, the wrapper raises by itself. *)
Definition accepting_frame_op (op : binop) (left right : DataFrame)
  : result DataFrame := Ok left.

Definition accepting_frame_divmod (left right : DataFrame)
  : result (DataFrame * DataFrame) := Ok (left, left).

(** An int64 column and a frame of such columns on the default index. *)
Definition int64_array (l : list Z) : Array :=
  {| a_dtype := np_int64; a_values := map CInt l |}.

Definition named (name : string) (a : Array) : label * Array := (LStr name, a).

Definition frame_of (n : nat) (data : list (label * Array)) : DataFrame :=
  {| df_data := data; df_index := RangeIndex 0 (Z.of_nat n) 1 |}.

Definition column_of (a : Array) : PandasColumn :=
  {| _series := {| s_name := None; s_array := a;
                   s_index := RangeIndex 0 (Z.of_nat (length (a_values a))) 1 |} |}.

(** The wrapper around a frame that is already in canonical form. *)
Definition wrap (d : DataFrame) : PandasDataFrame := {| _dataframe := d |}.

(** ** The alignment contract, in the words of the specification *)

(** Two frames are aligned when they have the same shape, the same column
    labels in the same order, and the same index entries. *)
Definition aligned (D1 D2 : PandasDataFrame) : Prop :=
  PandasDataFrame.shape D1 = PandasDataFrame.shape D2
  /\ PandasDataFrame.get_column_names D1 = PandasDataFrame.get_column_names D2
  /\ Index_entries (df_index (PandasDataFrame.dataframe D1))
     = Index_entries (df_index (PandasDataFrame.dataframe D2)).

(** ** Column-wise [isnan], in the words of the specification *)

(** The Column-level [isnan] applied to each column of [D], the results
    put back under the original labels in the original order. *)
Definition isnan_columnwise (D : PandasDataFrame) : DataFrame :=
  let d := PandasDataFrame.dataframe D in
  {| df_data :=
       map (fun c =>
              (fst c,
               s_array (_series (PandasColumn.isnan
                 {| _series := {| s_name := Some (fst c); s_array := snd c;
                                  s_index := df_index d |} |}))))
           (df_data d);
     df_index := df_index d |}.

(** A reduction kernel for the examples: one row per group, in order of
    first appearance, holding the group's first value of each column; a
    column of object dtype that is not a key is left out, the way the
    engine leaves out a column it cannot reduce. *)
Fixpoint first_positions (ks : list Array) (rows : list nat)
  (seen : list (list cell)) : list nat :=
  match rows with
  | [] => []
  | i :: rows' =>
      if existsb (list_eqb hash_eqb (row_key ks i)) seen
      then first_positions ks rows' seen
      else i :: first_positions ks rows' (row_key ks i :: seen)
  end.

Definition first_value_agg (f : aggregation) (g : DataFrameGroupBy)
  : result DataFrame :=
  ks <- mapM (key_array (g_obj g)) (g_keys g) ;;
  let d := g_obj g in
  let kept :=
    {| df_data :=
         filter (fun c => existsb (label_eqb (fst c)) (g_keys g)
                          || negb (dtype_eqb (a_dtype (snd c)) np_object))
                (df_data d);
       df_index := df_index d |} in
  Ok (reset_index_drop
        (df_take kept (first_positions ks (grouped_rows (df_len d) ks) []))).

(** A column of strings (numpy object dtype). *)
Definition object_array (l : list string) : Array :=
  {| a_dtype := np_object; a_values := map CStr l |}.

(** The GroupBy that [groupby(ks)] builds on the frame [d]. *)
Definition groupby_of (d : DataFrame) (ks : list label) : PandasGroupBy :=
  {| df := d;
     grouped := {| g_obj := d; g_keys := ks; g_sort := false; g_as_index := false |};
     keys := ks |}.

(** [series.sum()] of a Series of integers. *)
Definition Series_sum (s : Series) : Z :=
  fold_right (fun c acc => match c with CInt z => z + acc | _ => acc end) 0
             (s_values s).


(** The kernel numpy runs on short arrays: an insertion sort. *)
Definition insertion_argsort (l : list cell) : list nat :=
  stable_argsort cell_leb l.

(** The Column [sortedIndices] returns for the order [perm]: positions as
    values, under the same positions as index. *)
Definition column_of_positions (perm : list nat) : PandasColumn :=
  {| _series :=
       mk_series None np_int64 (map (fun i => CInt (Z.of_nat i)) perm)
         (LabelIndex None np_int64 (map (fun i => CInt (Z.of_nat i)) perm)) |}.


(** ** Column-wise [isnull], in the words of the specification *)

(** The Column-level [isnull] applied to each column of [D], the results
    put back under the original labels in the original order. *)
Definition isnull_columnwise (D : PandasDataFrame) : list (label * Array) :=
  let d := PandasDataFrame.dataframe D in
  map (fun c =>
         (fst c,
          s_array (_series (PandasColumn.isnull
            {| _series := {| s_name := Some (fst c); s_array := snd c;
                             s_index := df_index d |} |}))))
      (df_data d).

(** ** Reading one value *)

(** [D.get_column_by_name(name)[row]] *)
Definition entry (D : PandasDataFrame) (name : label) (row : Z) : result cell :=
  c <- PandasDataFrame.get_column_by_name D name ;;
  PandasColumn.__getitem__ c row.

(** A bool Column over the values [bs], on the index [0 .. n-1]. *)
Definition bool_array (bs : list bool) : Array :=
  {| a_dtype := np_bool; a_values := map CBool bs |}.

(** A mask value selects its row when it is [True]. *)
Definition selects (c : cell) : bool :=
  match c with
  | CBool b => b
  | _ => false
  end.

(** The values of [a] at the rows the mask values [m] select. *)
Definition Array_where (a : Array) (m : list cell) : Array :=
  {| a_dtype := a_dtype a;
     a_values := map fst (filter (fun p => selects (snd p))
                                 (combine (a_values a) m)) |}.

(** The items [{name: D.get_column_by_name(name) for name in
    D.get_column_names()}]. *)
Definition columns_dict (D : PandasDataFrame)
  : result (list (label * PandasColumn)) :=
  mapM (fun name =>
          c <- PandasDataFrame.get_column_by_name D name ;;
          Ok (name, c))
       (PandasDataFrame.get_column_names D).

(** ** A Column on a Dataframe's index *)

(** An index of row positions as [assert_index_equal] takes it for a
    Dataframe's own: a RangeIndex, or an int64 Index without a name. *)
Definition unnamed_positions (j : Index) : bool :=
  match j with
  | RangeIndex _ _ _ => true
  | LabelIndex None np_int64 _ => true
  | _ => false
  end.

(** ** Sort keys that compare *)



(** A kernel that sorts and leaves equal values in reverse input order:
    it returns positions in ascending order of value, as a kernel has
    to, and is not stable. *)
Definition reversing_argsort (l : list cell) : list nat :=
  map (fun i => (length l - 1 - i)%nat) (stable_argsort cell_leb (rev l)).

(** * Properties *)

(** ** The error monad *)

Lemma bind_Ok {A B} (r : result A) (k : A -> result B) (b : B) :
  bind r k = Ok b -> exists a, r = Ok a /\ k a = Ok b.
Proof.
  destruct r as [a|e]; simpl; intros H; [eauto | discriminate].
Qed.

(** ** Counter *)

Section CounterFacts.

Context {K : Type} (eqb : K -> K -> bool).
Hypothesis eqb_refl : forall a, eqb a a = true.
Hypothesis eqb_sym : forall a b, eqb a b = eqb b a.
Hypothesis eqb_trans :
  forall a b c, eqb a b = true -> eqb b c = true -> eqb a c = true.

Lemma count_matching_app (k : K) (l1 l2 : list K) :
  count_matching eqb k (l1 ++ l2)
  = (count_matching eqb k l1 + count_matching eqb k l2)%nat.
Proof.
  unfold count_matching. now rewrite filter_app, length_app.
Qed.

Lemma count_matching_zero (k : K) (l : list K) :
  (forall y, In y l -> eqb k y = false) -> count_matching eqb k l = 0%nat.
Proof.
  unfold count_matching. induction l as [|y l IH]; simpl; intros H.
  - reflexivity.
  - rewrite (H y (or_introl eq_refl)). apply IH. intros z Hz. apply H. now right.
Qed.

(** What [counter_add] does to the tally: the first entry whose key
    matches is incremented, or a new entry is appended. *)
Lemma counter_add_spec (x : K) (acc : list (K * nat)) :
  (exists pre k0 n post,
      acc = pre ++ (k0, n) :: post
      /\ eqb k0 x = true
      /\ (forall e, In e pre -> eqb (fst e) x = false)
      /\ counter_add eqb x acc = pre ++ (k0, S n) :: post)
  \/ ((forall e, In e acc -> eqb (fst e) x = false)
      /\ counter_add eqb x acc = acc ++ [(x, 1%nat)]).
Proof.
  induction acc as [|[k n] acc IH]; simpl.
  - right. split; [intros e []|reflexivity].
  - destruct (eqb k x) eqn:E.
    + left. exists [], k, n, acc. repeat split; auto. intros e [].
    + destruct IH as [[pre [k0 [n0 [post [H1 [H2 [H3 H4]]]]]]] | [H1 H2]].
      * left. exists ((k, n) :: pre), k0, n0, post. subst acc.
        repeat split; auto.
        -- intros e [<-|He]; auto.
        -- simpl. now rewrite H4.
      * right. split.
        -- intros e [<-|He]; auto.
        -- now rewrite H2.
Qed.

Lemma tally_of_nil : tally_of eqb [] [].
Proof.
  constructor; simpl.
  - intros k n [].
  - intros k n [].
  - constructor.
  - intros x [].
  - reflexivity.
Qed.

Lemma count_matching_snoc (k x : K) (p : list K) :
  count_matching eqb k (p ++ [x])
  = (count_matching eqb k p + if eqb k x then 1 else 0)%nat.
Proof.
  rewrite count_matching_app. f_equal. unfold count_matching. simpl.
  now destruct (eqb k x).
Qed.

Lemma distinct_after (R : K -> K -> Prop) (l1 l2 : list K) (a b : K) :
  ForallOrdPairs R (l1 ++ a :: l2) -> In b l2 -> R a b.
Proof.
  induction l1 as [|c l1 IH]; simpl; intros H Hb; inversion H; subst.
  - match goal with HF : Forall _ l2 |- _ =>
      rewrite Forall_forall in HF; now apply HF end.
  - now apply IH.
Qed.

Lemma distinct_snoc (R : K -> K -> Prop) (l : list K) (x : K) :
  ForallOrdPairs R l -> (forall a, In a l -> R a x) ->
  ForallOrdPairs R (l ++ [x]).
Proof.
  induction 1 as [|a l Ha HF IH]; simpl; intros Hx.
  - repeat constructor.
  - constructor.
    + apply Forall_app. split; [exact Ha|]. repeat constructor.
      apply Hx. now left.
    + apply IH. intros b Hb. apply Hx. now right.
Qed.

Lemma tally_of_step (acc : list (K * nat)) (p : list K) (x : K) :
  tally_of eqb acc p -> tally_of eqb (counter_add eqb x acc) (p ++ [x]).
Proof.
  intros [Hc Hk Hd Hv Hs].
  destruct (counter_add_spec x acc)
    as [[pre [k0 [n0 [post [H1 [H2 [H3 H4]]]]]]] | [H1 H2]].
  - rewrite H4. subst acc. constructor.
    + intros k n Hin. rewrite count_matching_snoc.
      apply in_app_or in Hin as [Hin | [Hin | Hin]].
      * pose proof (H3 _ Hin) as E. simpl in E. rewrite E, Nat.add_0_r.
        apply Hc. apply in_or_app. now left.
      * injection Hin as <- <-. rewrite H2.
        rewrite <- (Hc k0 n0); [lia|]. apply in_or_app. right. now left.
      * assert (E : eqb k x = false).
        { destruct (eqb k x) eqn:E; [|reflexivity].
          rewrite map_app in Hd. simpl in Hd.
          rewrite <- (distinct_after _ _ _ _ k Hd
                        (in_map fst _ _ Hin)).
          symmetry. apply eqb_trans with x; [exact H2|]. now rewrite eqb_sym. }
        rewrite E, Nat.add_0_r. apply Hc. apply in_or_app. right. now right.
    + intros k n Hin. apply in_or_app. left.
      apply in_app_or in Hin as [Hin | [Hin | Hin]].
      * apply (Hk k n). apply in_or_app. now left.
      * injection Hin as <- _. apply (Hk k0 n0). apply in_or_app. right. now left.
      * apply (Hk k n). apply in_or_app. right. now right.
    + rewrite map_app in *. exact Hd.
    + intros y Hy. apply in_app_or in Hy as [Hy | [<- | []]].
      * destruct (Hv y Hy) as [k [n [Hin Hky]]].
        apply in_app_or in Hin as [Hin | [Hin | Hin]].
        -- exists k, n. split; [|exact Hky]. apply in_or_app. now left.
        -- injection Hin as <- <-. exists k0, (S n0). split; [|exact Hky].
           apply in_or_app. right. now left.
        -- exists k, n. split; [|exact Hky]. apply in_or_app. right. now right.
      * exists k0, (S n0). split; [|exact H2]. apply in_or_app. right. now left.
    + rewrite length_app. simpl. rewrite <- Hs.
      rewrite !map_app, !list_sum_app. simpl. lia.
  - rewrite H2. constructor.
    + intros k n Hin. rewrite count_matching_snoc.
      apply in_app_or in Hin as [Hin | [Hin | []]].
      * pose proof (H1 _ Hin) as E. simpl in E. rewrite E, Nat.add_0_r.
        now apply Hc.
      * injection Hin as <- <-. rewrite eqb_refl.
        rewrite count_matching_zero; [reflexivity|].
        intros y Hy. destruct (Hv y Hy) as [k [n [Hin Hky]]].
        destruct (eqb x y) eqn:E; [|reflexivity].
        rewrite <- (H1 _ Hin). simpl. symmetry.
        apply eqb_trans with y; [exact Hky|]. now rewrite eqb_sym.
    + intros k n Hin. apply in_or_app.
      apply in_app_or in Hin as [Hin | [Hin | []]].
      * left. now apply (Hk k n).
      * injection Hin as <- _. right. now left.
    + rewrite map_app. simpl. apply distinct_snoc; [exact Hd|].
      intros a Ha. apply in_map_iff in Ha as [e [<- He]]. now apply H1.
    + intros y Hy. apply in_app_or in Hy as [Hy | [<- | []]].
      * destruct (Hv y Hy) as [k [n [Hin Hky]]].
        exists k, n. split; [|exact Hky]. apply in_or_app. now left.
      * exists x, 1%nat. split; [|apply eqb_refl]. apply in_or_app. right. now left.
    + rewrite length_app. simpl. rewrite <- Hs.
      rewrite map_app, list_sum_app. simpl. lia.
Qed.

Lemma tally_of_fold (l : list K) (acc : list (K * nat)) (p : list K) :
  tally_of eqb acc p ->
  tally_of eqb (fold_left (fun acc k => counter_add eqb k acc) l acc) (p ++ l).
Proof.
  revert acc p. induction l as [|x l IH]; intros acc p H; simpl.
  - now rewrite app_nil_r.
  - replace (p ++ x :: l) with ((p ++ [x]) ++ l)
      by (rewrite <- app_assoc; reflexivity).
    apply IH. now apply tally_of_step.
Qed.

Lemma Counter_tally (l : list K) : tally_of eqb (Counter eqb l) l.
Proof. apply (tally_of_fold l [] []). apply tally_of_nil. Qed.

End CounterFacts.

(** ** Column.get *)

Lemma Series_iloc_nonneg (s : Series) (row : Z) :
  0 <= row < Z.of_nat (Series_len s) ->
  exists v, nth_error (s_values s) (Z.to_nat row) = Some v
            /\ Series_iloc s row = Ok v.
Proof.
  intros H. unfold Series_iloc.
  replace (row <? - Z.of_nat (Series_len s)) with false
    by (symmetry; apply Z.ltb_ge; lia).
  replace (Z.of_nat (Series_len s) <=? row) with false
    by (symmetry; apply Z.leb_gt; lia).
  replace (row <? 0) with false by (symmetry; apply Z.ltb_ge; lia).
  simpl.
  destruct (nth_error (s_values s) (Z.to_nat row)) as [v|] eqn:E.
  - exists v. split; reflexivity.
  - apply nth_error_None in E. unfold Series_len in *. lia.
Qed.

Lemma Series_iloc_negative (s : Series) (row : Z) :
  - Z.of_nat (Series_len s) <= row < 0 ->
  exists v, nth_error (s_values s) (Z.to_nat (Z.of_nat (Series_len s) + row)) = Some v
            /\ Series_iloc s row = Ok v.
Proof.
  intros H. unfold Series_iloc.
  replace (row <? - Z.of_nat (Series_len s)) with false
    by (symmetry; apply Z.ltb_ge; lia).
  replace (Z.of_nat (Series_len s) <=? row) with false
    by (symmetry; apply Z.leb_gt; lia).
  replace (row <? 0) with true by (symmetry; apply Z.ltb_lt; lia).
  simpl. rewrite (Z.add_comm row).
  destruct (nth_error (s_values s) _) as [v|] eqn:E.
  - exists v. split; reflexivity.
  - apply nth_error_None in E. unfold Series_len in *. lia.
Qed.

Lemma Series_iloc_out_of_bounds (s : Series) (row : Z) :
  row < - Z.of_nat (Series_len s) \/ Z.of_nat (Series_len s) <= row ->
  exists m, Series_iloc s row = Raise (IndexError m).
Proof.
  intros H. unfold Series_iloc.
  destruct ((row <? - Z.of_nat (Series_len s)) || (Z.of_nat (Series_len s) <=? row))
    eqn:E.
  - eauto.
  - apply orb_false_elim in E as [E1 E2].
    apply Z.ltb_ge in E1. apply Z.leb_gt in E2. lia.
Qed.

(** C7, as the code has it: [C.get(row)] is the value at position [row]
    for [0 <= row < N], the value at position [N + row] for
    [-N <= row < 0] (a negative row counts from the end), and fails with
    IndexError for every other row. *)
Theorem getitem_positions (C : PandasColumn) (row : Z) :
  let N := Z.of_nat (PandasColumn.__len__ C) in
  (0 <= row < N ->
   exists v, nth_error (s_values (_series C)) (Z.to_nat row) = Some v
             /\ PandasColumn.__getitem__ C row = Ok v)
  /\ (- N <= row < 0 ->
      exists v, nth_error (s_values (_series C)) (Z.to_nat (N + row)) = Some v
                /\ PandasColumn.__getitem__ C row = Ok v)
  /\ (row < - N \/ N <= row ->
      exists m, PandasColumn.__getitem__ C row = Raise (IndexError m)).
Proof.
  unfold PandasColumn.__getitem__, PandasColumn.__len__.
  split; [|split].
  - apply Series_iloc_nonneg.
  - apply Series_iloc_negative.
  - apply Series_iloc_out_of_bounds.
Qed.

(** The three cases of [getitem_positions] on the column [1, 2, 3]. *)
Lemma getitem_positions_witness :
  let C := column_of (int64_array [1; 2; 3]) in
  (exists v, nth_error (s_values (_series C)) 1 = Some v
             /\ PandasColumn.__getitem__ C 1 = Ok v)
  /\ (exists v, nth_error (s_values (_series C)) 1 = Some v
                /\ PandasColumn.__getitem__ C (-2) = Ok v)
  /\ (exists m, PandasColumn.__getitem__ C 3 = Raise (IndexError m)).
Proof.
  split; [|split].
  - apply (getitem_positions (column_of (int64_array [1; 2; 3])) 1). simpl. lia.
  - apply (getitem_positions (column_of (int64_array [1; 2; 3])) (-2)). simpl. lia.
  - apply (getitem_positions (column_of (int64_array [1; 2; 3])) 3). simpl. lia.
Defined.

(** C7 as stated fails: row [-1] of the column [1, 2, 3] is not an
    IndexError but the last value. *)
Lemma getitem_negative_row :
  PandasColumn.__getitem__ (column_of (int64_array [1; 2; 3])) (-1) = Ok (CInt 3).
Proof. reflexivity. Qed.

(** ** Column.isnull *)

Lemma values_of_falses (n : nat) (name : option label) :
  s_values (Series_of_falses n name) = repeat (CBool false) n.
Proof. reflexivity. Qed.

Lemma all_of_falses (n : nat) (name : option label) :
  Series_all (Series_of_falses n name) = match n with O => true | S _ => false end.
Proof. destruct n; reflexivity. Qed.

Lemma any_isna_extension (s : Series) :
  is_extension_array_dtype (s_dtype s) = true ->
  Series_any (Series_isna s) = true <-> In CNA (s_values s).
Proof.
  intros Hext. unfold Series_any, Series_isna, s_values, s_dtype. simpl.
  rewrite existsb_exists. split.
  - intros [c [Hin Hc]]. apply in_map_iff in Hin as [c0 [<- Hin]].
    simpl in Hc. unfold isna_cell in Hc. unfold s_dtype in Hext.
    rewrite Hext in Hc. destruct c0; try discriminate. exact Hin.
  - intros Hin. exists (CBool true). split.
    + apply in_map_iff. exists CNA. split; [|exact Hin].
      unfold isna_cell. unfold s_dtype in Hext. now rewrite Hext.
    + reflexivity.
Qed.

(** C5, as the code has it: on a column of non-nullable dtype [isnull]
    gives a column of the same length whose values are all false, of
    boolean dtype and with [all() == false] when the column is not empty,
    and with [all() == true] when it is empty; on a column of nullable
    dtype [isnull().any() == true] iff the column holds a null. *)
Theorem isnull_reductions (C : PandasColumn) :
  (is_extension_array_dtype (s_dtype (_series C)) = false ->
   PandasColumn.__len__ (PandasColumn.isnull C) = PandasColumn.__len__ C
   /\ (forall v, In v (s_values (_series (PandasColumn.isnull C))) -> v = CBool false)
   /\ (PandasColumn.__len__ C <> 0%nat ->
       s_dtype (_series (PandasColumn.isnull C)) = np_bool
       /\ PandasColumn.all (PandasColumn.isnull C) = false)
   /\ (PandasColumn.__len__ C = 0%nat ->
       PandasColumn.all (PandasColumn.isnull C) = true))
  /\ (is_extension_array_dtype (s_dtype (_series C)) = true ->
      PandasColumn.any (PandasColumn.isnull C) = true
      <-> In CNA (s_values (_series C))).
Proof.
  split.
  - intros Hext. unfold PandasColumn.isnull. rewrite Hext.
    unfold PandasColumn.all, PandasColumn.__len__. simpl.
    rewrite all_of_falses.
    repeat split.
    + unfold Series_len. rewrite values_of_falses. apply repeat_length.
    + intros v Hv. rewrite values_of_falses in Hv. now apply repeat_spec in Hv.
    + destruct (Series_len (_series C)); [congruence | reflexivity].
    + destruct (Series_len (_series C)); [congruence | reflexivity].
    + intros ->. reflexivity.
  - intros Hext. unfold PandasColumn.isnull. rewrite Hext.
    unfold PandasColumn.any. simpl. now apply any_isna_extension.
Qed.

(** [isnull_reductions] on the int64 column [1, 2] and on the Int64
    (nullable) column [1, NA]. *)
Lemma isnull_reductions_witness :
  (PandasColumn.all (PandasColumn.isnull (column_of (int64_array [1; 2]))) = false)
  /\ (PandasColumn.any
        (PandasColumn.isnull
           (column_of {| a_dtype := Int64Dtype; a_values := [CInt 1; CNA] |})) = true).
Proof.
  split.
  - apply (isnull_reductions (column_of (int64_array [1; 2]))).
    + reflexivity.
    + simpl. discriminate.
  - apply (isnull_reductions
             (column_of {| a_dtype := Int64Dtype; a_values := [CInt 1; CNA] |})).
    + reflexivity.
    + simpl. auto.
Defined.

(** C5 as stated fails: on the empty int64 column [isnull().all()] is
    true, the reduction of no values. *)
Lemma isnull_all_of_empty_column :
  is_extension_array_dtype (s_dtype (_series (column_of (int64_array [])))) = false
  /\ PandasColumn.all (PandasColumn.isnull (column_of (int64_array []))) = true.
Proof. split; reflexivity. Qed.

(** ** Equality tests *)

Lemma label_eqb_eq (a b : label) : label_eqb a b = true <-> a = b.
Proof.
  destruct a as [s|x], b as [t|y]; simpl; split; intros H;
    try discriminate; try congruence.
  - apply String.eqb_eq in H. congruence.
  - injection H as ->. apply String.eqb_refl.
  - apply Z.eqb_eq in H. congruence.
  - injection H as ->. apply Z.eqb_refl.
Qed.

Lemma label_eqb_refl (a : label) : label_eqb a a = true.
Proof. now apply label_eqb_eq. Qed.

Lemma label_eqb_neq (a b : label) : label_eqb a b = false <-> a <> b.
Proof.
  split.
  - intros H E. apply label_eqb_eq in E. congruence.
  - intros H. destruct (label_eqb a b) eqn:E; [|reflexivity].
    apply label_eqb_eq in E. contradiction.
Qed.

Lemma label_eq_dec (a b : label) : {a = b} + {a <> b}.
Proof.
  destruct (label_eqb a b) eqn:E.
  - left. now apply label_eqb_eq.
  - right. now apply label_eqb_neq.
Qed.

Lemma list_eqb_sound {A} (eqb : A -> A -> bool) (l1 l2 : list A) :
  Forall (fun a => forall b, eqb a b = true -> a = b) l1 ->
  list_eqb eqb l1 l2 = true -> l1 = l2.
Proof.
  intros HF. revert l2. induction HF as [|a l1 Ha HF IH]; intros [|b l2] H;
    simpl in H; try discriminate; [reflexivity|].
  apply andb_prop in H as [H1 H2]. f_equal; auto.
Qed.

Lemma list_eqb_refl {A} (eqb : A -> A -> bool) (l : list A) :
  Forall (fun a => eqb a a = true) l -> list_eqb eqb l l = true.
Proof.
  induction 1 as [|a l Ha HF IH]; simpl; [reflexivity|].
  now rewrite Ha, IH.
Qed.

Lemma labels_eqb_eq (l1 l2 : list label) :
  list_eqb label_eqb l1 l2 = true <-> l1 = l2.
Proof.
  split.
  - apply list_eqb_sound. apply Forall_forall. intros a _ b. apply label_eqb_eq.
  - intros <-. apply list_eqb_refl. apply Forall_forall. intros a _.
    apply label_eqb_refl.
Qed.

Lemma cell_eqb_refl (c : cell) : cell_eqb c c = true.
Proof.
  destruct c; simpl; auto using Bool.eqb_reflx, Z.eqb_refl, String.eqb_refl.
  apply Qeq_bool_iff. reflexivity.
Qed.

Lemma cell_eqb_int (z : Z) (c : cell) : cell_eqb (CInt z) c = true -> CInt z = c.
Proof.
  destruct c; simpl; try discriminate. intros H. apply Z.eqb_eq in H. congruence.
Qed.

(** ** Indexes *)

Lemma range_len_from_0 (n : nat) : range_len 0 (Z.of_nat n) 1 = n.
Proof.
  unfold range_len. simpl.
  destruct (0 <? Z.of_nat n) eqn:E.
  - rewrite Z.div_1_r. lia.
  - apply Z.ltb_ge in E. lia.
Qed.

Lemma positional_entries_sound (i j : Index) :
  positional i -> Index_equals i j = true -> Index_entries i = Index_entries j.
Proof.
  intros [stop ->]. unfold Index_equals. apply list_eqb_sound.
  simpl. apply Forall_forall. intros e He.
  apply in_map_iff in He as [z [<- _]].
  intros b. apply list_eqb_sound. repeat constructor. apply cell_eqb_int.
Qed.

Lemma Index_equals_refl (i : Index) : Index_equals i i = true.
Proof.
  unfold Index_equals. apply list_eqb_refl. apply Forall_forall. intros e _.
  apply list_eqb_refl. apply Forall_forall. intros c _. apply cell_eqb_refl.
Qed.

Lemma name_eqb_refl (n : option label) : name_eqb n n = true.
Proof. destruct n; simpl; [apply label_eqb_refl | reflexivity]. Qed.

Lemma Index_len_entries (i : Index) : Index_len i = length (Index_entries i).
Proof.
  destruct i; simpl; unfold range_values;
    rewrite ?length_map, ?length_seq; reflexivity.
Qed.

Lemma list_eqb_length {A} (eqb : A -> A -> bool) (l1 l2 : list A) :
  list_eqb eqb l1 l2 = true -> length l1 = length l2.
Proof.
  revert l2. induction l1 as [|a l1 IH]; intros [|b l2]; simpl; try discriminate;
    [reflexivity|].
  intros H. apply andb_prop in H as [_ H]. f_equal. now apply IH.
Qed.

(** An index passes the check against itself. *)
Lemma assert_index_equal_refl (i : Index) : assert_index_equal i i = Ok tt.
Proof.
  unfold assert_index_equal.
  rewrite Bool.eqb_reflx. simpl.
  rewrite list_eqb_refl
    by (apply Forall_forall; intros d _; now destruct d).
  simpl. rewrite Nat.eqb_refl. simpl. rewrite Index_equals_refl.
  rewrite list_eqb_refl
    by (apply Forall_forall; intros n _; apply name_eqb_refl).
  reflexivity.
Qed.

(** Against a positional index the check passes for an index of row
    positions without a name that has the same entries, and raises
    AssertionError for every other index. *)
Lemma assert_index_equal_accepts (i j : Index) :
  positional i -> unnamed_positions j = true -> Index_equals i j = true ->
  assert_index_equal i j = Ok tt.
Proof.
  intros [stop ->] Hj He. unfold assert_index_equal.
  pose proof (list_eqb_length _ _ _ He) as Hlen.
  rewrite <- !Index_len_entries in Hlen. rewrite Hlen, Nat.eqb_refl, He.
  destruct j as [a b s | [n|] d l | ns ds l]; try discriminate.
  - reflexivity.
  - destruct d; try discriminate. reflexivity.
Qed.

Lemma assert_index_equal_rejects (i j : Index) :
  positional i -> unnamed_positions j = false \/ Index_equals i j = false ->
  exists m, assert_index_equal i j = Raise (AssertionError m).
Proof.
  intros [stop ->] H. unfold assert_index_equal.
  destruct j as [a b s | n d l | ns ds l].
  - destruct H as [H | H]; [discriminate|]. rewrite H. simpl.
    destruct (Nat.eqb _ _); simpl; eauto.
  - simpl Index_is_multi. simpl Index_level_dtypes. cbn [Bool.eqb negb list_eqb].
    destruct (dtype_eqb np_int64 d) eqn:Ed; [|simpl; eauto].
    destruct d; try discriminate. simpl.
    destruct (Nat.eqb _ _); simpl; [|eauto].
    destruct (Index_equals (RangeIndex 0 stop 1) (LabelIndex n np_int64 l)) eqn:E;
      [|eauto].
    destruct n as [n|]; simpl; [eauto|].
    destruct H as [H | H]; discriminate.
  - simpl. eauto.
Qed.

(** ** The constructor *)

Lemma count_matching_label_NoDup (l : list label) :
  NoDup l <-> (forall x, In x l -> (count_matching label_eqb x l <= 1)%nat).
Proof.
  unfold count_matching. induction l as [|y l IH]; simpl.
  - split; [intros _ x [] | constructor].
  - split.
    + intros H x Hx. inversion H as [|? ? Hy Hl]; subst.
      destruct (label_eqb x y) eqn:E; simpl.
      * apply label_eqb_eq in E. subst y.
        assert (Z0 : filter (label_eqb x) l = []).
        { destruct (filter (label_eqb x) l) as [|z f] eqn:F; [reflexivity|].
          assert (Hz : In z (filter (label_eqb x) l)) by (rewrite F; now left).
          apply filter_In in Hz as [Hz1 Hz2]. apply label_eqb_eq in Hz2.
          subst z. contradiction. }
        rewrite Z0. simpl. lia.
      * destruct Hx as [->|Hx]; [now rewrite label_eqb_refl in E|].
        apply IH; assumption.
    + intros H. constructor.
      * intros Hy. specialize (H y (or_introl eq_refl)).
        rewrite label_eqb_refl in H. simpl in H.
        assert (Hin : In y (filter (label_eqb y) l))
          by (apply filter_In; split; [exact Hy | apply label_eqb_refl]).
        destruct (filter (label_eqb y) l); [destruct Hin | simpl in H; lia].
      * apply IH. intros x Hx. specialize (H x (or_intror Hx)).
        destruct (label_eqb x y); simpl in H; lia.
Qed.

Lemma label_eqb_sym (a b : label) : label_eqb a b = label_eqb b a.
Proof.
  destruct (label_eqb a b) eqn:E; symmetry.
  - apply label_eqb_eq in E. subst. apply label_eqb_refl.
  - apply label_eqb_neq. apply label_eqb_neq in E. congruence.
Qed.

Lemma label_eqb_trans (a b c : label) :
  label_eqb a b = true -> label_eqb b c = true -> label_eqb a c = true.
Proof. rewrite !label_eqb_eq. congruence. Qed.

Lemma Counter_label_tally (cols : list label) :
  tally_of label_eqb (Counter label_eqb cols) cols.
Proof.
  apply Counter_tally.
  - apply label_eqb_refl.
  - apply label_eqb_sym.
  - apply label_eqb_trans.
Qed.

(** The constructor's check passes exactly on labels that are pairwise
    different strings. *)
Lemma validate_columns_Ok (cols : list label) :
  PandasDataFrame._validate_columns cols = Ok tt
  <-> NoDup cols /\ Forall (fun c => is_str c = true) cols.
Proof.
  pose proof (Counter_label_tally cols) as [Hc _ _ Hv _].
  unfold PandasDataFrame._validate_columns. split.
  - destruct (find _ (Counter label_eqb cols)) eqn:F; [discriminate|].
    destruct (find (fun col => negb (is_str col)) cols) eqn:G; [discriminate|].
    intros _. split.
    + apply count_matching_label_NoDup. intros x Hx.
      destruct (Hv x Hx) as [k [n [Hin Hk]]]. apply label_eqb_eq in Hk. subst k.
      rewrite <- (Hc x n Hin).
      pose proof (find_none _ _ F _ Hin) as Hn. simpl in Hn.
      apply Nat.ltb_ge in Hn. exact Hn.
    + apply Forall_forall. intros c Hin.
      pose proof (find_none _ _ G _ Hin) as Hn. simpl in Hn.
      now destruct (is_str c).
  - intros [Hnd Hstr].
    destruct (find _ (Counter label_eqb cols)) as [[k n]|] eqn:F.
    + exfalso. apply find_some in F as [Hin Hn]. simpl in Hn.
      apply Nat.ltb_lt in Hn. rewrite (Hc k n Hin) in Hn.
      assert (Hk : In k cols).
      { unfold count_matching in Hn.
        destruct (filter (label_eqb k) cols) as [|z f] eqn:E; [simpl in Hn; lia|].
        assert (Hz : In z (filter (label_eqb k) cols)) by (rewrite E; now left).
        apply filter_In in Hz as [Hz1 Hz2]. apply label_eqb_eq in Hz2. now subst. }
      pose proof (proj1 (count_matching_label_NoDup cols) Hnd k Hk). lia.
    + destruct (find (fun col => negb (is_str col)) cols) eqn:G; [|reflexivity].
      exfalso. apply find_some in G as [Hin Hn].
      rewrite Forall_forall in Hstr. rewrite (Hstr _ Hin) in Hn. discriminate.
Qed.

Lemma init_Ok (raw : DataFrame) (D : PandasDataFrame) :
  PandasDataFrame.__init__ raw = Ok D ->
  PandasDataFrame._validate_columns (columns raw) = Ok tt
  /\ df_data (_dataframe D) = df_data raw
  /\ (df_index (_dataframe D) = RangeIndex 0 (Z.of_nat (df_len raw)) 1
      \/ (df_index (_dataframe D) = RangeIndex 0 (-1) 1
          /\ df_index raw = RangeIndex 0 (-1) 1)).
Proof.
  unfold PandasDataFrame.__init__. intros H.
  destruct (PandasDataFrame._validate_columns (columns raw)) as [[]|e] eqn:V;
    simpl in H; [|discriminate].
  split; [reflexivity|].
  destruct (df_index raw) as [start stop step| |] eqn:I;
    try (injection H as <-; simpl; auto).
  destruct ((start =? 0) && (step =? 1) && (stop =? Z.of_nat (df_len raw) - 1)) eqn:C;
    injection H as <-; simpl; auto.
  apply andb_prop in C as [C C3]. apply andb_prop in C as [C1 C2].
  apply Z.eqb_eq in C1, C2, C3. subst start step.
  split; [reflexivity|]. right.
  assert (H : stop = -1).
  { unfold df_len in C3. rewrite I in C3. simpl in C3. unfold range_len in C3.
    simpl in C3. destruct (0 <? stop) eqn:E.
    - rewrite Z.div_1_r in C3. apply Z.ltb_lt in E. lia.
    - simpl in C3. lia. }
  rewrite I. rewrite H. auto.
Qed.

Lemma constructed_positional (D : PandasDataFrame) :
  constructed D -> positional (df_index (_dataframe D)).
Proof.
  intros [raw [_ H]]. apply init_Ok in H as [_ [_ [H | [H _]]]];
    rewrite H; eexists; reflexivity.
Qed.

Lemma constructed_len (D : PandasDataFrame) :
  constructed D ->
  df_index (_dataframe D) = RangeIndex 0 (Z.of_nat (df_len (_dataframe D))) 1
  \/ (df_index (_dataframe D) = RangeIndex 0 (-1) 1 /\ df_len (_dataframe D) = 0%nat).
Proof.
  intros [raw [_ H]]. apply init_Ok in H as [_ [_ [H | [H _]]]].
  - left. unfold df_len. rewrite H. simpl. now rewrite range_len_from_0.
  - right. split; [exact H|]. unfold df_len. rewrite H. reflexivity.
Qed.

(** Building a wrapper again from the frame a wrapper holds gives the
    same wrapper. *)
Lemma init_idempotent (D : PandasDataFrame) :
  constructed D -> PandasDataFrame.__init__ (_dataframe D) = Ok D.
Proof.
  intros HD. pose proof (constructed_len D HD) as HL.
  destruct HD as [raw [_ H]]. apply init_Ok in H as [V [Hd _]].
  unfold PandasDataFrame.__init__.
  replace (columns (_dataframe D)) with (columns raw)
    by (unfold columns; now rewrite Hd).
  rewrite V. simpl. destruct D as [d]. simpl in *.
  destruct HL as [HL | [HL HL0]].
  - rewrite HL at 1. simpl.
    replace (Z.of_nat (df_len d) =? Z.of_nat (df_len d) - 1) with false
      by (symmetry; apply Z.eqb_neq; lia).
    f_equal. f_equal. unfold reset_index_drop. destruct d as [data idx].
    simpl in *. now rewrite HL at 2.
  - rewrite HL. rewrite HL0. reflexivity.
Qed.

(** ** Binary operators: the alignment check *)

Lemma validate_comparand_Ok (D1 D2 : PandasDataFrame) :
  constructed D1 ->
  PandasDataFrame._validate_comparand D1 (PyDataFrame D2) = Ok tt ->
  aligned D1 D2.
Proof.
  intros HD. unfold PandasDataFrame._validate_comparand.
  destruct (Index_equals _ _ && _ && _) eqn:C; simpl; [intros _ | discriminate].
  apply andb_prop in C as [C C3]. apply andb_prop in C as [C1 C2].
  apply andb_prop in C2 as [C2a C2b].
  apply Nat.eqb_eq in C2a, C2b. apply labels_eqb_eq in C3.
  repeat split.
  - destruct (PandasDataFrame.shape D1), (PandasDataFrame.shape D2).
    simpl in *. congruence.
  - exact C3.
  - apply positional_entries_sound; [|exact C1].
    now apply constructed_positional.
Qed.

Lemma validate_comparand_raises (D1 : PandasDataFrame) (other : pyobject) (e : exn) :
  PandasDataFrame._validate_comparand D1 other = Raise e ->
  (exists D2, other = PyDataFrame D2) /\ (exists m, e = ValueError m).
Proof.
  unfold PandasDataFrame._validate_comparand. destruct other as [D2|c].
  - destruct (negb _); intros H; [|discriminate].
    injection H as <-. eauto.
  - discriminate.
Qed.

Lemma validate_comparand_misaligned (D1 D2 : PandasDataFrame) :
  constructed D1 -> ~ aligned D1 D2 ->
  exists m, PandasDataFrame._validate_comparand D1 (PyDataFrame D2)
            = Raise (ValueError m).
Proof.
  intros HD Hn.
  destruct (PandasDataFrame._validate_comparand D1 (PyDataFrame D2)) as [[]|e] eqn:V.
  - exfalso. apply Hn. now apply validate_comparand_Ok.
  - apply validate_comparand_raises in V as [_ [m ->]]. eauto.
Qed.

(** C1: a binary comparison or arithmetic operator, [divmod] included,
    applied to two Dataframes that do not have the same shape, the same
    column labels in the same order and the same positional index raises
    ValueError, whatever the engine would compute; so does [D1 == D2] on
    frames that differ only in column order. *)
Theorem binary_op_misaligned_raises
  (frame_op : binop -> DataFrame -> DataFrame -> result DataFrame)
  (frame_divmod : DataFrame -> DataFrame -> result (DataFrame * DataFrame))
  (op : binop) (D1 D2 : PandasDataFrame) :
  constructed D1 -> constructed D2 -> ~ aligned D1 D2 ->
  (exists m, PandasDataFrame.binary_op frame_op op D1 (PyDataFrame D2)
             = Raise (ValueError m))
  /\ (exists m, PandasDataFrame.__divmod__ frame_divmod D1 (PyDataFrame D2)
                = Raise (ValueError m)).
Proof.
  intros HD1 _ Hn.
  destruct (validate_comparand_misaligned D1 D2 HD1 Hn) as [m Hm].
  unfold PandasDataFrame.binary_op, PandasDataFrame.__divmod__.
  rewrite Hm. simpl. eauto.
Qed.

(** [binary_op_misaligned_raises] on [{a: [1], b: [2]} == {b: [2], a: [1]}]:
    the same cells, the columns in another order. *)
Lemma binary_op_misaligned_raises_witness :
  let D1 := wrap (frame_of 1 [named "a" (int64_array [1]); named "b" (int64_array [2])]) in
  let D2 := wrap (frame_of 1 [named "b" (int64_array [2]); named "a" (int64_array [1])]) in
  (exists m, PandasDataFrame.__eq__ accepting_frame_op D1 (PyDataFrame D2)
             = Raise (ValueError m))
  /\ (exists m, PandasDataFrame.__divmod__ accepting_frame_divmod D1 (PyDataFrame D2)
                = Raise (ValueError m)).
Proof.
  apply (binary_op_misaligned_raises accepting_frame_op accepting_frame_divmod OpEq
           (wrap (frame_of 1 [named "a" (int64_array [1]); named "b" (int64_array [2])]))
           (wrap (frame_of 1 [named "b" (int64_array [2]); named "a" (int64_array [1])]))).
  - exists (frame_of 1 [named "a" (int64_array [1]); named "b" (int64_array [2])]).
    split; reflexivity.
  - exists (frame_of 1 [named "b" (int64_array [2]); named "a" (int64_array [1])]).
    split; reflexivity.
  - intros [_ [H _]]. discriminate H.
Defined.

(** ** Binary operators: operands that are not Dataframes *)

(** C10, as the code has it: the pre-check accepts every operand that is
    not a Dataframe and raises (ValueError) only on a Dataframe; the
    operator then reads the operand's [dataframe] attribute, which a
    scalar does not have, so the operation fails with AttributeError and
    the engine is not called. *)
Theorem scalar_operand_attribute_error
  (frame_op : binop -> DataFrame -> DataFrame -> result DataFrame)
  (frame_divmod : DataFrame -> DataFrame -> result (DataFrame * DataFrame))
  (op : binop) (D : PandasDataFrame) (x : cell) :
  PandasDataFrame._validate_comparand D (PyScalar x) = Ok tt
  /\ (forall other e,
        PandasDataFrame._validate_comparand D other = Raise e ->
        (exists D2, other = PyDataFrame D2) /\ (exists m, e = ValueError m))
  /\ (exists m, PandasDataFrame.binary_op frame_op op D (PyScalar x)
                = Raise (AttributeError m))
  /\ (exists m, PandasDataFrame.__divmod__ frame_divmod D (PyScalar x)
                = Raise (AttributeError m)).
Proof.
  repeat split.
  - apply validate_comparand_raises in H. apply H.
  - apply validate_comparand_raises in H. apply H.
  - unfold PandasDataFrame.binary_op. simpl. eauto.
  - unfold PandasDataFrame.__divmod__. simpl. eauto.
Qed.

(** [scalar_operand_attribute_error] on [{a: [1]}], with the operand [1]
    and with a misaligned Dataframe. *)
Lemma scalar_operand_attribute_error_witness :
  let D := wrap (frame_of 1 [named "a" (int64_array [1])]) in
  let D2 := wrap (frame_of 1 [named "b" (int64_array [1])]) in
  PandasDataFrame._validate_comparand D (PyScalar (CInt 1)) = Ok tt
  /\ (exists m, PandasDataFrame._validate_comparand D (PyDataFrame D2)
                = Raise (ValueError m)).
Proof.
  pose proof (scalar_operand_attribute_error accepting_frame_op
                accepting_frame_divmod OpAdd
                (wrap (frame_of 1 [named "a" (int64_array [1])])) (CInt 1))
    as [H1 [H2 _]].
  split; [exact H1|].
  destruct (H2 (PyDataFrame (wrap (frame_of 1 [named "b" (int64_array [1])])))
              (ValueError "Expected DataFrame with same length, matching columns, and matching index.")
              eq_refl) as [_ [m Hm]].
  exists m. rewrite <- Hm. reflexivity.
Defined.

(** C10 as stated fails: [{a: [1]} + 1] is not handed to the engine; with
    an engine that accepts every call the operation still raises. *)
Lemma scalar_operand_not_delegated :
  PandasDataFrame.__add__ accepting_frame_op
    (wrap (frame_of 1 [named "a" (int64_array [1])])) (PyScalar (CInt 1))
  = Raise (AttributeError "object has no attribute 'dataframe'").
Proof. reflexivity. Qed.

(** ** concat *)

(** C3 on the code: [concat] with at least one operand raises ValueError,
    whether or not the dtypes match: the comparison of the two dtype
    Series either refuses differently labelled Series or yields a Series,
    whose truth value the [if] then asks for, which pandas refuses. *)
Theorem concat_nonempty_raises (D other : PandasDataFrame)
  (others : list PandasDataFrame) :
  exists m, PandasDataFrame.concat D (other :: others) = Raise (ValueError m).
Proof.
  unfold PandasDataFrame.concat. simpl.
  destruct (dtypes_ne _ _) as [ne|e] eqn:E; simpl.
  - eauto.
  - unfold dtypes_ne in E. destruct (list_eqb _ _ _); [discriminate|].
    injection E as <-. eauto.
Qed.

(** [D.concat([D])] on [{a: [1]}]. *)
Lemma concat_with_itself :
  let D := wrap (frame_of 1 [named "a" (int64_array [1])]) in
  PandasDataFrame.concat D [D]
  = Raise (ValueError "The truth value of a Series is ambiguous").
Proof. reflexivity. Qed.

(** ** isnan *)

(** C2 on the code: on the Int64 (nullable) column [1, NA] the
    Column-level [isnan] gives [false, true], the Dataframe-level one
    [false, false]; the Dataframe-level result is not the column-wise
    application of the Column-level one. *)
Theorem isnan_column_and_frame_disagree :
  let a := {| a_dtype := Int64Dtype; a_values := [CInt 1; CNA] |} in
  let D := wrap (frame_of 2 [named "a" (a)]) in
  s_values (_series (PandasColumn.isnan (column_of a))) = [CBool false; CBool true]
  /\ PandasDataFrame.isnan D
     = Ok (wrap (frame_of 2 [named "a" ({| a_dtype := np_bool;
                                      a_values := [CBool false; CBool false] |})]))
  /\ isnan_columnwise D
     = frame_of 2 [named "a" ({| a_dtype := np_bool;
                            a_values := [CBool false; CBool true] |})].
Proof. repeat split. Qed.

(** ** dropColumn and insert *)

Lemma init_canonical (d : DataFrame) :
  PandasDataFrame._validate_columns (columns d) = Ok tt ->
  df_index d = RangeIndex 0 (Z.of_nat (df_len d)) 1
  \/ df_index d = RangeIndex 0 (-1) 1 ->
  PandasDataFrame.__init__ d = Ok (wrap d).
Proof.
  intros V HI. unfold PandasDataFrame.__init__. rewrite V. simpl.
  destruct d as [data idx]. unfold wrap. simpl in *.
  destruct HI as [HI | HI].
  - rewrite HI at 1.
    replace (Z.of_nat (df_len {| df_data := data; df_index := idx |})
             =? Z.of_nat (df_len {| df_data := data; df_index := idx |}) - 1)
      with false by (symmetry; apply Z.eqb_neq; lia).
    simpl. unfold reset_index_drop. simpl. now rewrite <- HI.
  - subst idx. reflexivity.
Qed.

Lemma constructed_labels (D : PandasDataFrame) :
  constructed D ->
  NoDup (columns (_dataframe D))
  /\ Forall (fun c => is_str c = true) (columns (_dataframe D)).
Proof.
  intros [raw [_ H]]. apply init_Ok in H as [V [Hd _]].
  apply validate_columns_Ok in V. unfold columns in *. now rewrite Hd.
Qed.

(** Where a label held once sits among the columns. *)
Lemma split_at_label (data : list (label * Array)) (l : label) :
  NoDup (map fst data) -> In l (map fst data) ->
  exists pre a post,
    data = pre ++ (l, a) :: post
    /\ ~ In l (map fst pre) /\ ~ In l (map fst post).
Proof.
  intros Hnd Hin. apply in_map_iff in Hin as [[l' a] [Hl Hin]]. simpl in Hl.
  subst l'. apply in_split in Hin as [pre [post ->]].
  exists pre, a, post. split; [reflexivity|].
  rewrite map_app in Hnd. simpl in Hnd.
  split.
  - intros H. apply NoDup_remove_2 in Hnd. apply Hnd. apply in_or_app. now left.
  - intros H. apply NoDup_remove_2 in Hnd. apply Hnd. apply in_or_app. now right.
Qed.

Lemma filter_label_absent (f : label -> bool) (data : list (label * Array)) :
  (forall c, In c data -> f (fst c) = false) ->
  filter (fun c => f (fst c)) data = [].
Proof.
  induction data as [|c data IH]; simpl; intros H; [reflexivity|].
  rewrite (H c (or_introl eq_refl)). apply IH. intros c' Hc. apply H. now right.
Qed.

Lemma filter_label_all (f : label -> bool) (data : list (label * Array)) :
  (forall c, In c data -> f (fst c) = true) ->
  filter (fun c => f (fst c)) data = data.
Proof.
  induction data as [|c data IH]; simpl; intros H; [reflexivity|].
  rewrite (H c (or_introl eq_refl)). f_equal. apply IH. intros c' Hc.
  apply H. now right.
Qed.

Lemma not_in_labels (data : list (label * Array)) (l : label) :
  ~ In l (map fst data) ->
  forall c, In c data -> label_eqb (fst c) l = false.
Proof.
  intros H c Hc. apply label_eqb_neq. intros E. apply H.
  apply in_map_iff. exists c. auto.
Qed.

Lemma lookup_label_split (pre post : list (label * Array)) (l : label) (a : Array)
  (idx : Index) :
  ~ In l (map fst pre) -> ~ In l (map fst post) ->
  lookup_label {| df_data := pre ++ (l, a) :: post; df_index := idx |} l = [a].
Proof.
  intros H1 H2. unfold lookup_label. simpl. rewrite filter_app. simpl.
  rewrite label_eqb_refl.
  rewrite (filter_label_absent (fun x => label_eqb x l)) by now apply not_in_labels.
  rewrite (filter_label_absent (fun x => label_eqb x l)) by now apply not_in_labels.
  reflexivity.
Qed.

Lemma drop_label_split (pre post : list (label * Array)) (l : label) (a : Array) :
  ~ In l (map fst pre) -> ~ In l (map fst post) ->
  filter (fun c => negb (label_eqb (fst c) l)) (pre ++ (l, a) :: post) = pre ++ post.
Proof.
  intros H1 H2. rewrite filter_app. simpl. rewrite label_eqb_refl. simpl.
  rewrite (filter_label_all (fun x => negb (label_eqb x l)));
    [|intros c Hc; now rewrite (not_in_labels pre l H1 c Hc)].
  rewrite (filter_label_all (fun x => negb (label_eqb x l)));
    [|intros c Hc; now rewrite (not_in_labels post l H2 c Hc)].
  reflexivity.
Qed.

Lemma list_index_split (pre post : list label) (l : label) :
  ~ In l pre -> list_index l (pre ++ l :: post) = length pre.
Proof.
  induction pre as [|y pre IH]; simpl; intros H.
  - now rewrite label_eqb_refl.
  - replace (label_eqb y l) with false
      by (symmetry; apply label_eqb_neq; intros E; apply H; now left).
    f_equal. apply IH. intros Hin. apply H. now right.
Qed.

Lemma slice_bound_prefix (n k : nat) :
  (k <= n)%nat -> slice_bound n (Z.of_nat k) = k.
Proof.
  intros H. unfold slice_bound.
  replace (Z.of_nat k <? 0) with false by (symmetry; apply Z.ltb_ge; lia).
  rewrite Nat2Z.id. lia.
Qed.

(** C9: for a Dataframe [D] and a label [l] of [D], with [C] the Column
    held under [l]: dropping [l] and inserting [C] under [l] at the
    position [l] had gives back [D] itself: the same labels in the same
    order, the same values and the same index. *)
Theorem drop_then_insert_reconstructs (D : PandasDataFrame) (l : label) :
  constructed D -> In l (PandasDataFrame.get_column_names D) ->
  exists C D1,
    PandasDataFrame.get_column_by_name D l = Ok C
    /\ PandasDataFrame.drop_column D l = Ok D1
    /\ PandasDataFrame.insert D1
         (Z.of_nat (list_index l (PandasDataFrame.get_column_names D))) l C
       = Ok D.
Proof.
  intros HD Hl.
  pose proof (constructed_labels D HD) as [Hnd Hstr].
  pose proof (constructed_len D HD) as Hidx.
  pose proof (init_idempotent D HD) as Hinit.
  unfold PandasDataFrame.get_column_names, PandasDataFrame.dataframe, columns in *.
  destruct D as [[data idx]]. simpl in *.
  destruct (split_at_label data l Hnd Hl) as [pre [a [post [-> [Hpre Hpost]]]]].
  assert (Hs : is_str l = true).
  { rewrite Forall_forall in Hstr. apply Hstr. rewrite map_app. simpl.
    apply in_or_app. right. now left. }
  assert (Hnd' : NoDup (map fst (pre ++ post))).
  { rewrite map_app in *. simpl in Hnd. now apply NoDup_remove_1 in Hnd. }
  assert (Hstr' : Forall (fun c => is_str c = true) (map fst (pre ++ post))).
  { rewrite map_app in *. simpl in Hstr. apply Forall_app in Hstr as [S1 S2].
    apply Forall_app. split; [exact S1|]. now inversion S2. }
  assert (Hidx' : idx = RangeIndex 0 (Z.of_nat (Index_len idx)) 1
                  \/ idx = RangeIndex 0 (-1) 1).
  { unfold df_len in Hidx. simpl in Hidx. destruct Hidx as [H | [H _]]; auto. }
  exists {| _series := {| s_name := Some l; s_array := a; s_index := idx |} |}.
  exists (wrap {| df_data := pre ++ post; df_index := idx |}).
  split; [|split].
  - unfold PandasDataFrame.get_column_by_name. rewrite Hs. simpl.
    unfold loc_column, PandasDataFrame.dataframe. simpl.
    now rewrite lookup_label_split.
  - unfold PandasDataFrame.drop_column. rewrite Hs. simpl.
    unfold df_drop, PandasDataFrame.dataframe, columns. simpl.
    replace (existsb (label_eqb l) (map fst (pre ++ (l, a) :: post))) with true.
    2:{ symmetry. apply existsb_exists. exists l. split; [exact Hl|].
        apply label_eqb_refl. }
    simpl. rewrite drop_label_split by assumption.
    apply init_canonical.
    + apply validate_columns_Ok. unfold columns. simpl. auto.
    + exact Hidx'.
  - unfold PandasDataFrame.insert, PandasDataFrame._validate_index,
      PandasDataFrame.dataframe, wrap. cbn [_dataframe _series s_index df_index].
    rewrite assert_index_equal_refl. simpl.
    rewrite !Index_equals_refl. simpl.
    rewrite map_app. simpl. rewrite list_index_split by exact Hpre.
    rewrite length_map.
    rewrite slice_bound_prefix by (rewrite length_app; lia).
    rewrite firstn_app, Nat.sub_diag, firstn_all. simpl. rewrite app_nil_r.
    rewrite skipn_app, Nat.sub_diag, skipn_all. simpl. rewrite app_nil_r.
    exact Hinit.
Qed.

(** [drop_then_insert_reconstructs] on column [b] of
    [{a: [1, 2], b: [3, 4], c: [5, 6]}]. *)
Lemma drop_then_insert_reconstructs_witness :
  let D := wrap (frame_of 2 [named "a" (int64_array [1; 2]);
                             named "b" (int64_array [3; 4]);
                             named "c" (int64_array [5; 6])]) in
  exists C D1,
    PandasDataFrame.get_column_by_name D (LStr "b") = Ok C
    /\ PandasDataFrame.drop_column D (LStr "b") = Ok D1
    /\ PandasDataFrame.insert D1
         (Z.of_nat (list_index (LStr "b") (PandasDataFrame.get_column_names D)))
         (LStr "b") C
       = Ok D.
Proof.
  apply (drop_then_insert_reconstructs
           (wrap (frame_of 2 [named "a" (int64_array [1; 2]);
                              named "b" (int64_array [3; 4]);
                              named "c" (int64_array [5; 6])]))
           (LStr "b")).
  - exists (frame_of 2 [named "a" (int64_array [1; 2]);
                        named "b" (int64_array [3; 4]);
                        named "c" (int64_array [5; 6])]).
    split; reflexivity.
  - simpl. auto.
Defined.

(** ** Sorting: the result is a rearrangement *)

Lemma insert_sorted_perm {A} (leb : A -> A -> bool) (x : A) (l : list A) :
  Permutation (insert_sorted leb x l) (x :: l).
Proof.
  induction l as [|y l IH]; simpl.
  - reflexivity.
  - destruct (leb x y).
    + reflexivity.
    + rewrite IH. apply perm_swap.
Qed.

Lemma stable_sort_perm {A} (leb : A -> A -> bool) (l : list A) :
  Permutation (stable_sort leb l) l.
Proof.
  induction l as [|x l IH]; simpl.
  - reflexivity.
  - rewrite insert_sorted_perm. now constructor.
Qed.

(** ** GroupBy aggregations *)

Lemma in_dedup (l : list label) (x : label) : In x (dedup l) <-> In x l.
Proof.
  induction l as [|y l IH]; simpl; [reflexivity|].
  split.
  - intros [->|H]; [now left|]. apply filter_In in H as [H _]. right. now apply IH.
  - intros [->|H]; [now left|].
    destruct (label_eq_dec y x) as [->|N]; [now left|].
    right. apply filter_In. split; [now apply IH|].
    apply negb_true_iff. apply label_eqb_neq. congruence.
Qed.

Lemma in_Index_difference (left right : list label) (c : label) :
  In c (Index_difference left right) <-> In c left /\ ~ In c right.
Proof.
  unfold Index_difference.
  split.
  - intros H. apply (Permutation_in _ (stable_sort_perm _ _)) in H.
    apply (proj1 (in_dedup _ _)) in H. apply filter_In in H as [H1 H2].
    split; [exact H1|].
    intros Hr. apply negb_true_iff in H2.
    assert (E : existsb (label_eqb c) right = true).
    { apply existsb_exists. exists c. split; [exact Hr | apply label_eqb_refl]. }
    congruence.
  - intros [H1 H2].
    apply (Permutation_in _ (Permutation_sym (stable_sort_perm _ _))).
    apply in_dedup. apply filter_In. split; [exact H1|].
    apply negb_true_iff. destruct (existsb (label_eqb c) right) eqn:E; [|reflexivity].
    apply existsb_exists in E as [y [Hy E]]. apply label_eqb_eq in E. now subst.
Qed.

Lemma validate_result_Ok (g : PandasGroupBy) (r : DataFrame) :
  PandasGroupBy._validate_result g r = Ok tt ->
  forall c, In c (columns (df g)) -> In c (columns r).
Proof.
  unfold PandasGroupBy._validate_result.
  destruct (Index_difference (columns (df g)) (columns r)) as [|x f] eqn:E;
    simpl; [intros _ | discriminate].
  intros c Hc.
  destruct (in_dec label_eq_dec c (columns r)) as [H|H]; [exact H|].
  exfalso. assert (Hin : In c (Index_difference (columns (df g)) (columns r)))
    by (apply in_Index_difference; auto).
  rewrite E in Hin. destruct Hin.
Qed.

Lemma validate_result_dropped (g : PandasGroupBy) (r : DataFrame) :
  (exists c, In c (columns (df g)) /\ ~ In c (columns r)) ->
  PandasGroupBy._validate_result g r
  = Raise (RuntimeError (Index_difference (columns (df g)) (columns r))).
Proof.
  intros [c Hc]. unfold PandasGroupBy._validate_result.
  apply in_Index_difference in Hc.
  destruct (Index_difference (columns (df g)) (columns r)); [destruct Hc|reflexivity].
Qed.

Lemma validate_result_complete (g : PandasGroupBy) (r : DataFrame) :
  (forall c, In c (columns (df g)) -> In c (columns r)) ->
  PandasGroupBy._validate_result g r = Ok tt.
Proof.
  intros H. unfold PandasGroupBy._validate_result.
  destruct (Index_difference (columns (df g)) (columns r)) as [|x l] eqn:E;
    [reflexivity|].
  assert (Hx : In x (Index_difference (columns (df g)) (columns r)))
    by (rewrite E; now left).
  apply in_Index_difference in Hx as [Hx1 Hx2]. exfalso. auto.
Qed.

(** C6: whatever the engine's reduction returns, an aggregation method
    ([any], [all], [min], [max], [sum], [prod], [median], [mean], [std],
    [var]) that returns a Dataframe returns one with every column of the
    grouped Dataframe; when the reduction it runs returns a frame that
    lacks columns of the grouped Dataframe, the method raises a
    RuntimeError that carries exactly the lacking columns; and when the
    reduction returns a frame with all of them, the method returns that
    frame, wrapped. *)
Theorem aggregation_keeps_columns
  (grouped_agg : aggregation -> DataFrameGroupBy -> result DataFrame)
  (f : aggregation) (g : PandasGroupBy) :
  (forall D,
      PandasGroupBy.aggregate grouped_agg f g = Ok D ->
      forall c, In c (columns (df g)) -> In c (PandasDataFrame.get_column_names D))
  /\ (forall r,
         PandasGroupBy.precheck f g = Ok tt ->
         grouped_agg f (grouped g) = Ok r ->
         (exists c, In c (columns (df g)) /\ ~ In c (columns r)) ->
         exists failed,
           PandasGroupBy.aggregate grouped_agg f g = Raise (RuntimeError failed)
           /\ forall c, In c failed <-> In c (columns (df g)) /\ ~ In c (columns r))
  /\ (forall r,
         PandasGroupBy.precheck f g = Ok tt ->
         grouped_agg f (grouped g) = Ok r ->
         (forall c, In c (columns (df g)) -> In c (columns r)) ->
         PandasGroupBy.aggregate grouped_agg f g = PandasDataFrame.__init__ r).
Proof.
  split; [|split].
  - intros D H c Hc. unfold PandasGroupBy.aggregate in H.
    apply bind_Ok in H as [[] [_ H]].
    apply bind_Ok in H as [r [_ H]].
    apply bind_Ok in H as [[] [V H]].
    apply init_Ok in H as [_ [Hd _]].
    unfold PandasDataFrame.get_column_names, PandasDataFrame.dataframe, columns.
    rewrite Hd. now apply (validate_result_Ok g r V).
  - intros r Hp Hr Hdrop.
    exists (Index_difference (columns (df g)) (columns r)). split.
    + unfold PandasGroupBy.aggregate. rewrite Hp. simpl. rewrite Hr. simpl.
      now rewrite validate_result_dropped.
    + intros c. apply in_Index_difference.
  - intros r Hp Hr Hall.
    unfold PandasGroupBy.aggregate. rewrite Hp. simpl. rewrite Hr. simpl.
    now rewrite validate_result_complete.
Qed.

(** [aggregation_keeps_columns] on [mean] over the key [k], with a
    reduction that leaves out object columns: on [{k, v}] the result has
    the column [v]; on [{k, v, s}] with [s] a column of strings the
    method raises a RuntimeError naming [s]. *)
Lemma aggregation_keeps_columns_witness :
  let d1 := frame_of 3 [named "k" (int64_array [1; 1; 2]);
                        named "v" (int64_array [10; 20; 30])] in
  let d2 := frame_of 3 [named "k" (int64_array [1; 1; 2]);
                        named "v" (int64_array [10; 20; 30]);
                        named "s" (object_array ["x"%string; "y"%string; "z"%string])] in
  PandasDataFrame.groupby (wrap d1) (KeysList [LStr "k"]) = Ok (groupby_of d1 [LStr "k"])
  /\ PandasDataFrame.groupby (wrap d2) (KeysList [LStr "k"]) = Ok (groupby_of d2 [LStr "k"])
  /\ (exists D, PandasGroupBy.mean first_value_agg (groupby_of d1 [LStr "k"]) = Ok D
                /\ In (LStr "v") (PandasDataFrame.get_column_names D))
  /\ (exists failed,
         PandasGroupBy.mean first_value_agg (groupby_of d2 [LStr "k"])
         = Raise (RuntimeError failed)
         /\ In (LStr "s") failed).
Proof.
  intros d1 d2.
  split; [reflexivity|]. split; [reflexivity|]. split.
  - destruct (aggregation_keeps_columns first_value_agg AggMean
                (groupby_of d1 [LStr "k"])) as [H _].
    eexists. split; [reflexivity|].
    apply (H _ eq_refl). simpl. auto.
  - destruct (aggregation_keeps_columns first_value_agg AggMean
                (groupby_of d2 [LStr "k"])) as [_ [H _]].
    destruct (H (frame_of 2 [named "k" (int64_array [1; 2]);
                             named "v" (int64_array [10; 30])]))
      as [failed [Hf Hin]].
    + reflexivity.
    + reflexivity.
    + exists (LStr "s"). split; [simpl; auto|].
      simpl. intros [E|[E|[]]]; discriminate E.
    + exists failed. split; [exact Hf|]. apply Hin. split; [simpl; auto|].
      simpl. intros [E|[E|[]]]; discriminate E.
Defined.

(** ** Keys of groups *)

Lemma cell_eqb_sym (a b : cell) : cell_eqb a b = cell_eqb b a.
Proof.
  destruct a, b; simpl; try reflexivity.
  - now destruct b, b0.
  - apply Z.eqb_sym.
  - destruct (Qeq_bool q q0) eqn:E, (Qeq_bool q0 q) eqn:F; try reflexivity.
    + apply Qeq_bool_iff in E. symmetry in E. apply Qeq_bool_iff in E. congruence.
    + apply Qeq_bool_iff in F. symmetry in F. apply Qeq_bool_iff in F. congruence.
  - apply String.eqb_sym.
Qed.

Lemma cell_eqb_trans (a b c : cell) :
  cell_eqb a b = true -> cell_eqb b c = true -> cell_eqb a c = true.
Proof.
  destruct a, b; simpl; try discriminate; destruct c; simpl; try discriminate; auto.
  - intros H1 H2. apply Bool.eqb_prop in H1, H2. subst. apply Bool.eqb_reflx.
  - intros H1 H2. apply Z.eqb_eq in H1, H2. subst. apply Z.eqb_refl.
  - intros H1 H2. apply Qeq_bool_iff in H1, H2. apply Qeq_bool_iff.
    now rewrite H1.
  - intros H1 H2. apply String.eqb_eq in H1, H2. subst. apply String.eqb_refl.
Qed.

Lemma hash_eqb_refl (a : cell) : hash_eqb a a = true.
Proof.
  unfold hash_eqb. destruct (cell_number a) as [q|] eqn:E.
  - apply Qeq_bool_iff. reflexivity.
  - apply cell_eqb_refl.
Qed.

Lemma hash_eqb_sym (a b : cell) : hash_eqb a b = hash_eqb b a.
Proof.
  unfold hash_eqb. destruct (cell_number a) as [x|], (cell_number b) as [y|];
    try reflexivity.
  - destruct (Qeq_bool x y) eqn:E.
    + symmetry. apply Qeq_bool_iff. symmetry. now apply Qeq_bool_iff.
    + destruct (Qeq_bool y x) eqn:E'; [|reflexivity].
      apply Qeq_bool_iff in E'. symmetry in E'. apply Qeq_bool_iff in E'.
      congruence.
  - apply cell_eqb_sym.
Qed.

Lemma hash_eqb_trans (a b c : cell) :
  hash_eqb a b = true -> hash_eqb b c = true -> hash_eqb a c = true.
Proof.
  unfold hash_eqb.
  destruct (cell_number a) as [x|], (cell_number b) as [y|],
    (cell_number c) as [z|]; try discriminate.
  - intros H1 H2. apply Qeq_bool_iff in H1, H2. apply Qeq_bool_iff.
    now rewrite H1.
  - apply cell_eqb_trans.
Qed.

Lemma key_eqb_refl (k : list cell) : list_eqb hash_eqb k k = true.
Proof.
  apply list_eqb_refl. apply Forall_forall. intros c _. apply hash_eqb_refl.
Qed.

Lemma key_eqb_sym (k1 k2 : list cell) :
  list_eqb hash_eqb k1 k2 = list_eqb hash_eqb k2 k1.
Proof.
  revert k2. induction k1 as [|a k1 IH]; intros [|b k2]; simpl; try reflexivity.
  now rewrite hash_eqb_sym, IH.
Qed.

Lemma key_eqb_trans (k1 k2 k3 : list cell) :
  list_eqb hash_eqb k1 k2 = true -> list_eqb hash_eqb k2 k3 = true ->
  list_eqb hash_eqb k1 k3 = true.
Proof.
  revert k2 k3. induction k1 as [|a k1 IH]; intros [|b k2] [|c k3]; simpl;
    try discriminate; auto.
  intros H1 H2. apply andb_prop in H1 as [H1 H1']. apply andb_prop in H2 as [H2 H2'].
  rewrite (hash_eqb_trans a b c H1 H2). simpl. now apply IH with k2.
Qed.

(** Values that are one key are missing together. *)
Lemma isna_cell_eqb (d : dtype) (c c' : cell) :
  hash_eqb c c' = true -> isna_cell d c = isna_cell d c'.
Proof.
  unfold isna_cell, hash_eqb.
  destruct c, c'; simpl; try discriminate; reflexivity.
Qed.

Lemma row_has_null_eqb (ks : list Array) (i j : nat) :
  list_eqb hash_eqb (row_key ks i) (row_key ks j) = true ->
  row_has_null ks i = row_has_null ks j.
Proof.
  unfold row_key, row_has_null. induction ks as [|a ks IH]; simpl; [reflexivity|].
  intros H. apply andb_prop in H as [H1 H2].
  rewrite (isna_cell_eqb _ _ _ H1). f_equal. now apply IH.
Qed.

(** A row whose key matches the key of a grouped row is grouped: the
    count of a group over all rows is its count over the grouped rows. *)
Lemma count_over_grouped_rows (ks : list Array) (e : list cell) (i0 : nat)
  (rows : list nat) :
  row_has_null ks i0 = false ->
  list_eqb hash_eqb e (row_key ks i0) = true ->
  count_matching (list_eqb hash_eqb) e
    (map (row_key ks) (filter (fun i => negb (row_has_null ks i)) rows))
  = count_matching (list_eqb hash_eqb) e (map (row_key ks) rows).
Proof.
  intros H0 He. unfold count_matching.
  induction rows as [|i rows IH]; simpl; [reflexivity|].
  destruct (row_has_null ks i) eqn:N; simpl.
  - destruct (list_eqb hash_eqb e (row_key ks i)) eqn:E; [|exact IH].
    exfalso. assert (Hij : list_eqb hash_eqb (row_key ks i0) (row_key ks i) = true).
    { apply key_eqb_trans with e; [|exact E]. now rewrite key_eqb_sym. }
    apply row_has_null_eqb in Hij. congruence.
  - destruct (list_eqb hash_eqb e (row_key ks i)); simpl; now rewrite IH.
Qed.

(** ** Rearranged tallies *)

Lemma filter_length_perm {A} (f : A -> bool) (l l' : list A) :
  Permutation l l' -> length (filter f l) = length (filter f l').
Proof.
  induction 1 as [| x l l' _ IH | x y l | l l' l'' _ IH1 _ IH2]; simpl.
  - reflexivity.
  - destruct (f x); simpl; now rewrite IH.
  - destruct (f x), (f y); reflexivity.
  - now rewrite IH1.
Qed.

Lemma list_sum_perm (l l' : list nat) :
  Permutation l l' -> list_sum l = list_sum l'.
Proof.
  induction 1 as [| x l l' _ IH | x y l | l l' l'' _ IH1 _ IH2]; simpl; lia.
Qed.

Section TallyFacts.

Context {K : Type} (eqb : K -> K -> bool).
Hypothesis eqb_refl : forall a, eqb a a = true.
Hypothesis eqb_sym : forall a b, eqb a b = eqb b a.
Hypothesis eqb_trans :
  forall a b c, eqb a b = true -> eqb b c = true -> eqb a c = true.

Lemma distinct_keys_at_most_one (ks : list K) (x : K) :
  ForallOrdPairs (fun k1 k2 => eqb k1 k2 = false) ks ->
  (length (filter (fun k => eqb k x) ks) <= 1)%nat.
Proof.
  induction 1 as [|k ks Hk HF IH]; simpl; [lia|].
  destruct (eqb k x) eqn:E; [|exact IH]. simpl.
  assert (Z0 : filter (fun k' => eqb k' x) ks = []).
  { destruct (filter (fun k' => eqb k' x) ks) as [|z f] eqn:F; [reflexivity|].
    assert (Hz : In z (filter (fun k' => eqb k' x) ks)) by (rewrite F; now left).
    apply filter_In in Hz as [Hz1 Hz2].
    rewrite Forall_forall in Hk. specialize (Hk z Hz1).
    assert (eqb k z = true)
      by (apply eqb_trans with x; [exact E | now rewrite eqb_sym]).
    congruence. }
  rewrite Z0. simpl. lia.
Qed.

(** In a tally every counted element has exactly one key. *)
Lemma tally_one_key (acc : list (K * nat)) (p : list K) (x : K) :
  tally_of eqb acc p -> In x p ->
  length (filter (fun k => eqb k x) (map fst acc)) = 1%nat.
Proof.
  intros [_ _ Hd Hv _] Hx.
  pose proof (distinct_keys_at_most_one (map fst acc) x Hd) as Hle.
  destruct (Hv x Hx) as [k [n [Hin Hk]]].
  assert (Hf : In k (filter (fun k => eqb k x) (map fst acc))).
  { apply filter_In. split; [|exact Hk]. apply in_map_iff. exists (k, n). auto. }
  destruct (filter (fun k => eqb k x) (map fst acc)); [destruct Hf|].
  simpl in *. lia.
Qed.

(** In a tally every count is positive. *)
Lemma tally_positive (acc : list (K * nat)) (p : list K) (k : K) (n : nat) :
  tally_of eqb acc p -> In (k, n) acc -> (0 < n)%nat.
Proof.
  intros [Hc Hk _ _ _] Hin. rewrite (Hc k n Hin).
  specialize (Hk k n Hin). unfold count_matching.
  assert (Hf : In k (filter (eqb k) p))
    by (apply filter_In; split; [exact Hk | apply eqb_refl]).
  destruct (filter (eqb k) p); [destruct Hf | simpl; lia].
Qed.

End TallyFacts.

(** ** groupby(keys).size() *)

Lemma lookup_label_unique (d : DataFrame) (k : label) :
  NoDup (columns d) -> In k (columns d) -> exists a, lookup_label d k = [a].
Proof.
  intros Hnd Hin. destruct d as [data idx]. unfold columns in *. simpl in *.
  destruct (split_at_label data k Hnd Hin) as [pre [a [post [-> [H1 H2]]]]].
  exists a. now apply lookup_label_split.
Qed.

Lemma key_arrays_Ok (d : DataFrame) (ks : list label) :
  NoDup (columns d) -> Forall (fun k => In k (columns d)) ks ->
  exists arrs, mapM (key_array d) ks = Ok arrs.
Proof.
  intros Hnd. induction 1 as [|k ks Hk HF [arrs IH]]; simpl.
  - eauto.
  - destruct (lookup_label_unique d k Hnd Hk) as [a Ha].
    unfold key_array at 1. rewrite Ha. simpl. rewrite IH. simpl. eauto.
Qed.

Lemma keys_all_present (cols ks : list label) :
  Forall (fun k => In k cols) ks ->
  find (fun key => negb (existsb (label_eqb key) cols)) ks = None.
Proof.
  induction 1 as [|k ks Hk HF IH]; simpl; [reflexivity|].
  replace (existsb (label_eqb k) cols) with true; [exact IH|].
  symmetry. apply existsb_exists. exists k. split; [exact Hk | apply label_eqb_refl].
Qed.

Lemma Series_sum_counts (name : option label) (idx : Index)
  (gs : list (list cell * nat)) :
  Series_sum (mk_series name np_int64
                (map (fun p => CInt (Z.of_nat (snd p))) gs) idx)
  = Z.of_nat (list_sum (map snd gs)).
Proof.
  unfold Series_sum, s_values. simpl.
  induction gs as [|p gs IH]; simpl; [reflexivity|]. rewrite IH. lia.
Qed.

Lemma size_index_entries (nm : option label) (ns : list (option label))
  (arrs : list Array) (gs : list (list cell * nat)) :
  (forall p, In p gs -> length (fst p) = length arrs) ->
  Index_entries
    (match arrs with
     | [a] => LabelIndex nm (a_dtype a) (map (fun p => hd CNone (fst p)) gs)
     | _ => MultiIndex ns (map a_dtype arrs) (map fst gs)
     end)
  = map fst gs.
Proof.
  intros H. destruct arrs as [|a [|b arrs]]; try reflexivity.
  simpl. rewrite map_map. apply map_ext_in. intros [k n] Hp.
  specialize (H _ Hp). simpl in *.
  destruct k as [|c [|c' k]]; simpl in H; try discriminate. reflexivity.
Qed.

Lemma in_combine_maps {A B C} (f : A -> B) (g : A -> C) (l : list A) (b : B) (c : C) :
  In (b, c) (combine (map f l) (map g l)) -> exists a, In a l /\ b = f a /\ c = g a.
Proof.
  induction l as [|a l IH]; simpl; [intros []|].
  intros [H|H].
  - injection H as <- <-. exists a. auto.
  - destruct (IH H) as [a' [H1 H2]]. exists a'. auto.
Qed.

Lemma grouped_rows_all (n : nat) (ks : list Array) :
  (forall i, (i < n)%nat -> row_has_null ks i = false) ->
  grouped_rows n ks = seq 0 n.
Proof.
  intros H. unfold grouped_rows.
  assert (G : forall l, (forall i, In i l -> row_has_null ks i = false) ->
                        filter (fun i => negb (row_has_null ks i)) l = l).
  { induction l as [|i l IH]; simpl; intros Hl; [reflexivity|].
    rewrite (Hl i (or_introl eq_refl)). simpl. f_equal. apply IH.
    intros j Hj. apply Hl. now right. }
  apply G. intros i Hi. apply in_seq in Hi. apply H. lia.
Qed.

(** What [size()] computes from the key arrays: the tally of the keys of
    the grouped rows, rearranged by the sort. *)
Lemma group_sizes_tally (n : nat) (arrs : list Array) :
  tally_of (list_eqb hash_eqb) (group_sizes n arrs)
           (map (row_key arrs) (grouped_rows n arrs)).
Proof.
  unfold group_sizes. apply Counter_tally.
  - apply key_eqb_refl.
  - apply key_eqb_sym.
  - apply key_eqb_trans.
Qed.

(** C4, as the code has it: for a Dataframe [D] and keys that are labels
    of [D] (at least one key, unless [D] has no rows), [groupby(keys)]
    and then [size()] succeed; the result has one entry per group of the
    rows without a null key (every such row matches exactly one index
    entry), indexed by the group keys, whose value is the number of rows
    of [D] with that key; keys are the same key when they are equal as
    values, so that [1], [True] and [1.0] are one key.  The values add
    up to the number of rows of [D] without a null key, which is the
    number of rows of [D] when no key cell is null. *)
Theorem groupby_size_counts (D : PandasDataFrame) (ks : list label) :
  constructed D ->
  Forall (fun k => In k (PandasDataFrame.get_column_names D)) ks ->
  ks <> [] \/ PandasDataFrame.__len__ D = 0%nat ->
  exists g C arrs,
    PandasDataFrame.groupby D (KeysList ks) = Ok g
    /\ PandasGroupBy.size g = Ok C
    /\ mapM (key_array (PandasDataFrame.dataframe D)) ks = Ok arrs
    /\ let N := PandasDataFrame.__len__ D in
       let entries := Index_entries (s_index (_series C)) in
       let values := s_values (_series C) in
       length entries = length values
       /\ (forall i, (i < N)%nat -> row_has_null arrs i = false ->
           length (filter (fun e => list_eqb hash_eqb e (row_key arrs i)) entries)
           = 1%nat)
       /\ (forall e v, In (e, v) (combine entries values) ->
           exists n, v = CInt (Z.of_nat n) /\ (0 < n)%nat
                     /\ n = count_matching (list_eqb hash_eqb) e
                              (map (row_key arrs) (seq 0 N)))
       /\ Series_sum (_series C) = Z.of_nat (length (grouped_rows N arrs))
       /\ ((forall i, (i < N)%nat -> row_has_null arrs i = false) ->
           Series_sum (_series C) = Z.of_nat N).
Proof.
  intros HD Hks Hne.
  pose proof (constructed_labels D HD) as [Hnd _].
  unfold PandasDataFrame.get_column_names, PandasDataFrame.__len__,
    PandasDataFrame.shape, PandasDataFrame.dataframe, shape in *. simpl in *.
  set (d := _dataframe D) in *.
  destruct (key_arrays_Ok d ks Hnd Hks) as [arrs Harrs].
  assert (Hg : pd_groupby d ks true true
               = Ok {| g_obj := d; g_keys := ks; g_sort := true; g_as_index := true |}
               /\ pd_groupby d ks false false
                  = Ok {| g_obj := d; g_keys := ks; g_sort := false;
                          g_as_index := false |}).
  { unfold pd_groupby. rewrite Harrs. simpl.
    destruct ks as [|k ks']; [|split; reflexivity].
    destruct Hne as [Hne | Hne]; [congruence|]. rewrite Hne. split; reflexivity. }
  destruct Hg as [Hg1 Hg2].
  set (gs := stable_sort group_leb (group_sizes (df_len d) arrs)).
  exists (groupby_of d ks).
  exists {| _series :=
              mk_series None np_int64 (map (fun p => CInt (Z.of_nat (snd p))) gs)
                (match arrs with
                 | [a] => LabelIndex (hd_error ks) (a_dtype a)
                                     (map (fun p => hd CNone (fst p)) gs)
                 | _ => MultiIndex (map Some ks) (map a_dtype arrs) (map fst gs)
                 end) |}.
  exists arrs.
  pose proof (group_sizes_tally (df_len d) arrs) as Ht.
  assert (Hperm : Permutation gs (group_sizes (df_len d) arrs))
    by apply stable_sort_perm.
  assert (Hlen : forall p, In p gs -> length (fst p) = length arrs).
  { intros [k n] Hp. apply (Permutation_in _ Hperm) in Hp.
    apply (tally_keys _ _ _ Ht) in Hp. apply in_map_iff in Hp as [i [<- _]].
    unfold row_key. simpl. apply length_map. }
  split; [|split; [|split]].
  - unfold PandasDataFrame.groupby, PandasDataFrame.get_column_names,
      PandasDataFrame.dataframe. fold d.
    rewrite (keys_all_present _ _ Hks).
    unfold PandasGroupBy__init__. rewrite Hg2. reflexivity.
  - unfold PandasGroupBy.size. simpl. rewrite Hg1. simpl.
    unfold groupby_size. simpl. rewrite Harrs. reflexivity.
  - exact Harrs.
  - simpl. unfold s_values. simpl. rewrite (size_index_entries _ _ arrs gs Hlen).
    split; [|split; [|split; [|split]]].
    + now rewrite !length_map.
    + intros i Hi Hnull.
      rewrite (filter_length_perm _ _ _ (Permutation_map fst Hperm)).
      apply (tally_one_key _ key_eqb_sym key_eqb_trans _ _ _ Ht).
      apply in_map. apply filter_In. split; [apply in_seq; lia|].
      now rewrite Hnull.
    + intros e v Hin. apply in_combine_maps in Hin as [[k n] [Hp [-> ->]]].
      simpl. exists n. split; [reflexivity|].
      apply (Permutation_in _ Hperm) in Hp. split.
      * exact (tally_positive _ key_eqb_refl _ _ _ _ Ht Hp).
      * rewrite (tally_count _ _ _ Ht k n Hp).
        pose proof (tally_keys _ _ _ Ht k n Hp) as Hk.
        apply in_map_iff in Hk as [i0 [Hk0 Hi0]].
        apply filter_In in Hi0 as [_ Hi0]. apply negb_true_iff in Hi0.
        unfold grouped_rows.
        apply (count_over_grouped_rows arrs k i0); [exact Hi0|].
        rewrite <- Hk0. apply key_eqb_refl.
    + rewrite (Series_sum_counts None _ gs).
      rewrite (list_sum_perm _ _ (Permutation_map snd Hperm)).
      rewrite (tally_sum _ _ _ Ht). now rewrite length_map.
    + intros Hall. rewrite (Series_sum_counts None _ gs).
      rewrite (list_sum_perm _ _ (Permutation_map snd Hperm)).
      rewrite (tally_sum _ _ _ Ht). rewrite length_map.
      rewrite (grouped_rows_all _ _ Hall). now rewrite length_seq.
Qed.

(** [groupby_size_counts] on [{a: [1, 2, 1], b: [5, 6, 7]}] grouped by
    [a]: no key is null, and the sizes add up to the three rows. *)
Lemma groupby_size_counts_witness :
  let D := wrap (frame_of 3 [named "a" (int64_array [1; 2; 1]);
                             named "b" (int64_array [5; 6; 7])]) in
  exists g C,
    PandasDataFrame.groupby D (KeysList [LStr "a"]) = Ok g
    /\ PandasGroupBy.size g = Ok C
    /\ Series_sum (_series C) = 3.
Proof.
  intros D.
  destruct (groupby_size_counts D [LStr "a"])
    as [g [C [arrs [H1 [H2 [H3 [_ [_ [_ [_ H5]]]]]]]]]].
  - exists (frame_of 3 [named "a" (int64_array [1; 2; 1]);
                        named "b" (int64_array [5; 6; 7])]).
    split; reflexivity.
  - repeat constructor.
  - left. discriminate.
  - exists g, C. split; [exact H1|]. split; [exact H2|].
    injection H3 as <-. apply H5.
    intros [|[|[|i]]] Hi; try reflexivity.
    unfold D in Hi. cbv in Hi. lia.
Defined.

(** C4 as stated fails: [{a: [1.0, NaN]}] grouped by [a] has the single
    group [1.0] of size 1, while the frame has 2 rows: the row with the
    null key is in no group. *)
Lemma groupby_size_skips_null_key :
  let D := wrap (frame_of 2 [named "a" {| a_dtype := np_float64;
                                          a_values := [CFloat 1; CNaN] |}]) in
  exists g C,
    PandasDataFrame.groupby D (KeysList [LStr "a"]) = Ok g
    /\ PandasGroupBy.size g = Ok C
    /\ s_values (_series C) = [CInt 1]
    /\ Series_sum (_series C) = 1
    /\ Z.of_nat (PandasDataFrame.__len__ D) = 2.
Proof. simpl. eexists. eexists. repeat split. Qed.

(** Keys are grouped by value: in [{a: [1, True, 1.0]}] (an object
    column) the three rows are one group, under the key met first. *)
Lemma groupby_size_keys_by_value :
  let D := wrap (frame_of 3 [named "a" {| a_dtype := np_object;
                                          a_values := [CInt 1; CBool true;
                                                       CFloat 1] |}]) in
  exists g C,
    PandasDataFrame.groupby D (KeysList [LStr "a"]) = Ok g
    /\ PandasGroupBy.size g = Ok C
    /\ s_values (_series C) = [CInt 3]
    /\ s_index (_series C) = LabelIndex (Some (LStr "a")) np_object [CInt 1].
Proof. simpl. eexists. eexists. repeat split. Qed.

(** ** The order on cells and on sort keys *)

Lemma string_compare_Gt (s t : string) :
  String_as_OT.compare s t = Gt -> String_as_OT.compare t s = Lt.
Proof.
  intros C. pose proof (String_as_OT.compare_spec s t) as H. rewrite C in H.
  now inversion H.
Qed.

Lemma string_compare_Eq (s t : string) :
  String_as_OT.compare s t = Eq -> s = t.
Proof.
  intros C. pose proof (String_as_OT.compare_spec s t) as H. rewrite C in H.
  now inversion H.
Qed.

Lemma string_compare_refl (s : string) : String_as_OT.compare s s = Eq.
Proof.
  destruct (String_as_OT.compare s s) eqn:C; [reflexivity| |].
  - exfalso. exact (StrictOrder_Irreflexive (R := String_as_OT.lt) s C).
  - apply string_compare_Gt in C.
    exfalso. exact (StrictOrder_Irreflexive (R := String_as_OT.lt) s C).
Qed.

Lemma string_leb_total (s t : string) :
  string_leb s t = false -> string_leb t s = true.
Proof.
  unfold string_leb. destruct (String_as_OT.compare s t) eqn:C; try discriminate.
  intros _. now rewrite (string_compare_Gt s t C).
Qed.

Lemma string_leb_trans (a b c : string) :
  string_leb a b = true -> string_leb b c = true -> string_leb a c = true.
Proof.
  unfold string_leb.
  destruct (String_as_OT.compare a b) eqn:C1; try discriminate;
    destruct (String_as_OT.compare b c) eqn:C2; try discriminate; intros _ _.
  - apply string_compare_Eq in C1, C2. subst. now rewrite string_compare_refl.
  - apply string_compare_Eq in C1. subst. now rewrite C2.
  - apply string_compare_Eq in C2. subst. now rewrite C1.
  - pose proof (StrictOrder_Transitive (R := String_as_OT.lt) a b c C1 C2) as L.
    unfold String_as_OT.lt in L. now rewrite L.
Qed.

Lemma Qle_bool_total (x y : Q) : Qle_bool x y = false -> Qle_bool y x = true.
Proof.
  intros H. apply Qle_bool_iff.
  destruct (Qlt_le_dec y x) as [L|L]; [now apply Qlt_le_weak|].
  apply Qle_bool_iff in L. congruence.
Qed.

Lemma Qle_bool_trans (x y z : Q) :
  Qle_bool x y = true -> Qle_bool y z = true -> Qle_bool x z = true.
Proof.
  intros H1 H2. apply Qle_bool_iff in H1, H2. apply Qle_bool_iff.
  now apply Qle_trans with y.
Qed.

Lemma cell_leb_total (a b : cell) : cell_leb a b = false -> cell_leb b a = true.
Proof.
  destruct a, b; unfold cell_leb; cbn [cell_number cell_rank Nat.leb];
    try discriminate; try reflexivity;
    try apply Qle_bool_total; apply string_leb_total.
Qed.

Lemma cell_leb_trans (a b c : cell) :
  cell_leb a b = true -> cell_leb b c = true -> cell_leb a c = true.
Proof.
  destruct a, b; unfold cell_leb; cbn [cell_number cell_rank Nat.leb];
    try discriminate; destruct c; cbn [cell_number cell_rank Nat.leb];
    try discriminate; try reflexivity;
    try apply Qle_bool_trans; apply string_leb_trans.
Qed.





(** ** The stable sort *)

Section SortFacts.

Context {A : Type} (leb : A -> A -> bool).
Hypothesis leb_total : forall a b, leb a b = false -> leb b a = true.
Hypothesis leb_trans :
  forall a b c, leb a b = true -> leb b c = true -> leb a c = true.

Let R (a b : A) : Prop := leb a b = true.

Lemma insert_sorted_sorted (x : A) (l : list A) :
  StronglySorted R l -> StronglySorted R (insert_sorted leb x l).
Proof.
  induction 1 as [|y l HS IH HF]; simpl.
  - repeat constructor.
  - destruct (leb x y) eqn:E.
    + constructor; [now constructor|]. constructor; [exact E|].
      rewrite Forall_forall in *. intros z Hz. apply leb_trans with y; auto.
      now apply HF.
    + constructor; [exact IH|].
      apply (Permutation_Forall (Permutation_sym (insert_sorted_perm leb x l))).
      constructor; [|exact HF]. now apply leb_total.
Qed.

Lemma stable_sort_sorted (l : list A) : StronglySorted R (stable_sort leb l).
Proof.
  induction l as [|x l IH]; simpl; [constructor|]. now apply insert_sorted_sorted.
Qed.



End SortFacts.

Lemma in_combine_seq {A} (d : A) (l : list A) (s : nat) (i : nat) (x : A) :
  In (i, x) (combine (seq s (length l)) l) -> (s <= i)%nat /\ nth (i - s) l d = x.
Proof.
  revert s. induction l as [|y l IH]; simpl; intros s H; [destruct H|].
  destruct H as [H|H].
  - injection H as <- <-. split; [lia|]. now rewrite Nat.sub_diag.
  - apply IH in H as [H1 H2]. split; [lia|].
    replace (i - s)%nat with (S (i - S s)) by lia. exact H2.
Qed.

Lemma map_fst_combine_seq {A} (l : list A) (s : nat) :
  map fst (combine (seq s (length l)) l) = seq s (length l).
Proof.
  revert s. induction l as [|y l IH]; simpl; intros s; [reflexivity|].
  now rewrite IH.
Qed.

Section ArgsortFacts.

Context {A : Type} (leb : A -> A -> bool) (d : A).
Hypothesis leb_total : forall a b, leb a b = false -> leb b a = true.
Hypothesis leb_trans :
  forall a b c, leb a b = true -> leb b c = true -> leb a c = true.

Lemma stable_argsort_perm (l : list A) :
  Permutation (stable_argsort leb l) (seq 0 (length l)).
Proof.
  unfold stable_argsort. rewrite <- (map_fst_combine_seq l 0) at 2.
  apply Permutation_map. apply stable_sort_perm.
Qed.

Lemma sorted_pairs_values (l : list A) (p : nat * A) :
  In p (stable_sort (fun p q => leb (snd p) (snd q)) (combine (seq 0 (length l)) l)) ->
  snd p = nth (fst p) l d.
Proof.
  intros H. apply (Permutation_in _ (stable_sort_perm _ _)) in H.
  destruct p as [i x]. apply (in_combine_seq d) in H as [_ H]. simpl.
  now rewrite Nat.sub_0_r in H.
Qed.

Lemma stable_argsort_sorted (l : list A) :
  StronglySorted (fun i j => leb (nth i l d) (nth j l d) = true)
                 (stable_argsort leb l).
Proof.
  unfold stable_argsort.
  pose proof (stable_sort_sorted (fun p q : nat * A => leb (snd p) (snd q))
                (fun a b => leb_total (snd a) (snd b))
                (fun a b c => leb_trans (snd a) (snd b) (snd c))
                (combine (seq 0 (length l)) l)) as HS.
  pose proof (sorted_pairs_values l) as HV.
  induction HS as [|p L HS IH HF]; simpl; [constructor|].
  constructor.
  - apply IH. intros q Hq. apply HV. now right.
  - rewrite Forall_forall in *. intros j Hj.
    apply in_map_iff in Hj as [q [<- Hq]].
    rewrite <- (HV p (or_introl eq_refl)), <- (HV q (or_intror Hq)).
    now apply HF.
Qed.


End ArgsortFacts.

(** ** Sorted lists *)

Lemma StronglySorted_in_impl {A} (R R' : A -> A -> Prop) (l : list A) :
  (forall a b, In a l -> In b l -> R a b -> R' a b) ->
  StronglySorted R l -> StronglySorted R' l.
Proof.
  intros H HS. induction HS as [|a l HS IH HF]; constructor.
  - apply IH. intros x y Hx Hy. apply H; now right.
  - rewrite Forall_forall in *. intros b Hb. apply H; [now left | now right | auto].
Qed.

Lemma StronglySorted_map {A B} (R : B -> B -> Prop) (g : A -> B) (l : list A) :
  StronglySorted (fun a b => R (g a) (g b)) l -> StronglySorted R (map g l).
Proof.
  induction 1 as [|a l HS IH HF]; simpl; constructor; [exact IH|].
  rewrite Forall_forall in *. intros b Hb. apply in_map_iff in Hb as [x [<- Hx]].
  now apply HF.
Qed.




Lemma map_nth_seq {A} (d : A) (l : list A) :
  map (fun j => nth j l d) (seq 0 (length l)) = l.
Proof.
  induction l as [|x l IH]; simpl; [reflexivity|]. f_equal.
  rewrite <- seq_shift, map_map. exact IH.
Qed.


(** ** nargsort *)

Section NargsortFacts.

Variable argsort : list cell -> list nat.
Hypothesis argsort_perm :
  forall l, comparable l = true -> Permutation (argsort l) (seq 0 (length l)).
Hypothesis argsort_sorted :
  forall l, comparable l = true ->
            StronglySorted
              (fun i j => cell_leb (nth i l CNone) (nth j l CNone) = true)
              (argsort l).











End NargsortFacts.

(** ** sortedIndices *)

Lemma constructed_wf (D : PandasDataFrame) :
  constructed D -> df_wf (_dataframe D) = true.
Proof.
  intros [raw [Hwf H]]. apply init_Ok in H as [_ [Hd Hi]].
  unfold df_wf, df_len in *. rewrite Hd.
  destruct Hi as [Hi | [Hi Hr]]; rewrite Hi.
  - simpl. now rewrite range_len_from_0.
  - now rewrite <- Hr.
Qed.

Lemma wf_length (d : DataFrame) (k : label) (a : Array) :
  df_wf d = true -> In (k, a) (df_data d) -> length (a_values a) = df_len d.
Proof.
  unfold df_wf. intros H Hin. rewrite forallb_forall in H.
  apply Nat.eqb_eq. exact (H _ Hin).
Qed.

Lemma key_array_lookup (d : DataFrame) (k : label) (a : Array) :
  key_array d k = Ok a -> lookup_label d k = [a].
Proof.
  unfold key_array. destruct (lookup_label d k) as [|a' [|b l]]; try discriminate.
  now intros [= ->].
Qed.

Lemma key_arrays_lookup (d : DataFrame) (ks : list label) (arrs : list Array) :
  mapM (key_array d) ks = Ok arrs ->
  Forall2 (fun k a => lookup_label d k = [a]) ks arrs.
Proof.
  revert arrs. induction ks as [|k ks IH]; simpl; intros arrs H.
  - injection H as <-. constructor.
  - apply bind_Ok in H as [a [Ha H]]. apply bind_Ok in H as [arrs' [Harrs H]].
    injection H as <-. constructor; [now apply key_array_lookup | now apply IH].
Qed.

Lemma lookup_label_holds (d : DataFrame) (k : label) (a : Array) :
  lookup_label d k = [a] -> In (k, a) (df_data d).
Proof.
  unfold lookup_label. intros H.
  assert (Hin : In a (map snd (filter (fun c => label_eqb (fst c) k) (df_data d))))
    by (rewrite H; now left).
  apply in_map_iff in Hin as [[k' a'] [Ha Hin]]. simpl in Ha. subst a'.
  apply filter_In in Hin as [Hin Hk]. simpl in Hk.
  apply label_eqb_eq in Hk. now subst.
Qed.

Lemma lookup_label_in (data : list (label * Array)) (idx : Index)
  (k : label) (a : Array) :
  NoDup (map fst data) -> In (k, a) data ->
  lookup_label {| df_data := data; df_index := idx |} k = [a].
Proof.
  intros Hnd Hin. apply in_split in Hin as [pre [post ->]].
  rewrite map_app in Hnd. simpl in Hnd. apply NoDup_remove_2 in Hnd.
  apply lookup_label_split.
  - intros H. apply Hnd. apply in_or_app. now left.
  - intros H. apply Hnd. apply in_or_app. now right.
Qed.

Lemma loc_data_keys (d : DataFrame) (ks : list label) (arrs : list Array) :
  Forall2 (fun k a => lookup_label d k = [a]) ks arrs ->
  loc_data d ks = Ok (combine ks arrs).
Proof.
  induction 1 as [|k a ks arrs Hk HF IH]; simpl; [reflexivity|].
  rewrite Hk, IH. reflexivity.
Qed.

Lemma map_fst_combine {A B} (l : list A) (l' : list B) :
  length l = length l' -> map fst (combine l l') = l.
Proof.
  revert l'. induction l as [|x l IH]; intros [|y l'] H; simpl in *;
    try discriminate; [reflexivity|]. f_equal. apply IH. lia.
Qed.



















(** The same label given as a tuple is one label to [sort_values], and
    no column has it: [sortedIndices(("a",))] on [{a: [2, 1]}] raises
    KeyError. *)
Lemma sorted_indices_tuple_key :
  PandasDataFrame.sorted_indices insertion_argsort
    (wrap (frame_of 2 [named "a" (int64_array [2; 1])]))
    (SortTuple [LStr "a"])
  = Raise (KeyError "sort key not found").
Proof. reflexivity. Qed.

(** A single key that holds a string beside a number does not sort:
    [sortedIndices(["a"])] on the object column [{a: [0, "x"]}] raises
    TypeError; numbers of different kinds sort by value, [0] before
    [True]. *)
Lemma sorted_indices_mixed_key :
  (exists m,
      PandasDataFrame.sorted_indices insertion_argsort
        (wrap (frame_of 2 [named "a" {| a_dtype := np_object;
                                        a_values := [CInt 0; CStr "x"] |}]))
        (SortList [LStr "a"])
      = Raise (TypeError m))
  /\ PandasDataFrame.sorted_indices insertion_argsort
       (wrap (frame_of 2 [named "a" {| a_dtype := np_object;
                                       a_values := [CBool true; CInt 0] |}]))
       (SortList [LStr "a"])
     = Ok (column_of_positions [1; 0]%nat).
Proof. split; [eexists|]; reflexivity. Qed.

(** *** The order among equal rows of one key is the kernel's *)

Lemma reversed_positions_perm (n : nat) (l : list nat) :
  Permutation l (seq 0 n) ->
  Permutation (map (fun i => (n - 1 - i)%nat) l) (seq 0 n).
Proof.
  intros H.
  apply Permutation_trans with (map (fun i => (n - 1 - i)%nat) (seq 0 n));
    [now apply Permutation_map|].
  apply NoDup_Permutation_bis.
  - apply NoDup_map_NoDup_ForallPairs; [|apply seq_NoDup].
    intros x y Hx Hy E. apply in_seq in Hx, Hy. lia.
  - now rewrite length_map.
  - intros x Hx. apply in_map_iff in Hx as [i [<- Hi]].
    apply in_seq in Hi. apply in_seq. lia.
Qed.

Lemma reversing_argsort_perm (l : list cell) :
  Permutation (reversing_argsort l) (seq 0 (length l)).
Proof.
  unfold reversing_argsort. apply reversed_positions_perm.
  rewrite <- (length_rev l). apply stable_argsort_perm.
Qed.

Lemma reversing_argsort_sorted (l : list cell) :
  StronglySorted (fun i j => cell_leb (nth i l CNone) (nth j l CNone) = true)
                 (reversing_argsort l).
Proof.
  unfold reversing_argsort. apply StronglySorted_map.
  apply StronglySorted_in_impl
    with (R := fun i j => cell_leb (nth i (rev l) CNone) (nth j (rev l) CNone)
                          = true).
  - intros i j Hi Hj H.
    pose proof (stable_argsort_perm cell_leb (rev l)) as P.
    apply (Permutation_in _ P) in Hi, Hj. apply in_seq in Hi, Hj.
    rewrite length_rev in Hi, Hj.
    rewrite !rev_nth in H by lia.
    replace (length l - S i)%nat with (length l - 1 - i)%nat in H by lia.
    replace (length l - S j)%nat with (length l - 1 - j)%nat in H by lia.
    exact H.
  - apply stable_argsort_sorted; [apply cell_leb_total | apply cell_leb_trans].
Qed.

(** A kernel that meets what the model asks of numpy's [argsort] may
    still reverse equal values: with it, [sortedIndices(["a"])] on
    [{a: [2, 1, 2]}] is [1, 2, 0], the two rows with [a = 2] swapped. *)
Lemma one_key_ties_follow_the_kernel :
  (forall l, Permutation (reversing_argsort l) (seq 0 (length l)))
  /\ (forall l, StronglySorted
                  (fun i j => cell_leb (nth i l CNone) (nth j l CNone) = true)
                  (reversing_argsort l))
  /\ PandasDataFrame.sorted_indices reversing_argsort
       (wrap (frame_of 3 [named "a" (int64_array [2; 1; 2])]))
       (SortList [LStr "a"])
     = Ok (column_of_positions [1; 2; 0]%nat).
Proof.
  split; [exact reversing_argsort_perm|].
  split; [exact reversing_argsort_sorted | reflexivity].
Qed.

(** * More of the adapter *)

(** ** The constructor *)

Lemma counter_no_repeat (cols : list label) :
  find (fun kc => Nat.ltb 1 (snd kc)) (Counter label_eqb cols) = None
  <-> NoDup cols.
Proof.
  split.
  - intros F.
    pose proof (Counter_label_tally cols) as [Hc _ _ Hv _].
    apply count_matching_label_NoDup. intros x Hx.
    destruct (Hv x Hx) as [k [n [Hin Hk]]]. apply label_eqb_eq in Hk. subst k.
    rewrite <- (Hc x n Hin).
    pose proof (find_none _ _ F _ Hin) as Hn. simpl in Hn.
    now apply Nat.ltb_ge in Hn.
  - intros Hnd.
    destruct (find _ (Counter label_eqb cols)) as [[k n]|] eqn:F; [|reflexivity].
    exfalso. pose proof (Counter_label_tally cols) as [Hc Hk _ _ _].
    apply find_some in F as [Hin Hn]. simpl in Hn. apply Nat.ltb_lt in Hn.
    rewrite (Hc k n Hin) in Hn.
    pose proof (proj1 (count_matching_label_NoDup cols) Hnd k (Hk k n Hin)). lia.
Qed.

Lemma validate_columns_repeated (cols : list label) :
  ~ NoDup cols ->
  exists m, PandasDataFrame._validate_columns cols = Raise (ValueError m).
Proof.
  intros H. unfold PandasDataFrame._validate_columns.
  destruct (find _ (Counter label_eqb cols)) eqn:F; [eauto|].
  exfalso. apply H. now apply counter_no_repeat.
Qed.

Lemma validate_columns_not_str (cols : list label) :
  NoDup cols -> ~ Forall (fun c => is_str c = true) cols ->
  exists m, PandasDataFrame._validate_columns cols = Raise (TypeError m).
Proof.
  intros Hnd H. unfold PandasDataFrame._validate_columns.
  rewrite (proj2 (counter_no_repeat cols) Hnd).
  destruct (find (fun col => negb (is_str col)) cols) eqn:G; [eauto|].
  exfalso. apply H. apply Forall_forall. intros c Hc.
  pose proof (find_none _ _ G _ Hc) as Hn. simpl in Hn. now destruct (is_str c).
Qed.

(** X1: the constructor accepts a frame exactly when its column labels
    are pairwise different strings; a repeated label is a ValueError
    (whether or not the labels are strings), and a label that is not a
    string, among labels that do not repeat, is a TypeError. *)
Theorem init_outcome (raw : DataFrame) :
  (NoDup (columns raw) -> Forall (fun c => is_str c = true) (columns raw) ->
   exists D, PandasDataFrame.__init__ raw = Ok D)
  /\ (~ NoDup (columns raw) ->
      exists m, PandasDataFrame.__init__ raw = Raise (ValueError m))
  /\ (NoDup (columns raw) -> ~ Forall (fun c => is_str c = true) (columns raw) ->
      exists m, PandasDataFrame.__init__ raw = Raise (TypeError m)).
Proof.
  unfold PandasDataFrame.__init__. split; [|split].
  - intros H1 H2. rewrite (proj2 (validate_columns_Ok _) (conj H1 H2)). simpl.
    destruct (match df_index raw with RangeIndex _ _ _ => _ | _ => _ end); eauto.
  - intros H. destruct (validate_columns_repeated _ H) as [m ->]. simpl. eauto.
  - intros H1 H2. destruct (validate_columns_not_str _ H1 H2) as [m ->]. simpl. eauto.
Qed.

(** [init_outcome] on the labels [a, b], on [a, a] and on [a, 0]. *)
Lemma init_outcome_witness :
  (exists D, PandasDataFrame.__init__
               (frame_of 1 [named "a" (int64_array [1]); named "b" (int64_array [2])])
             = Ok D)
  /\ (exists m, PandasDataFrame.__init__
                  (frame_of 1 [named "a" (int64_array [1]); named "a" (int64_array [2])])
                = Raise (ValueError m))
  /\ (exists m, PandasDataFrame.__init__
                  (frame_of 1 [named "a" (int64_array [1]); (LInt 0, int64_array [2])])
                = Raise (TypeError m)).
Proof.
  split; [|split].
  - apply (init_outcome
             (frame_of 1 [named "a" (int64_array [1]); named "b" (int64_array [2])])).
    + repeat constructor; simpl; intuition discriminate.
    + repeat constructor.
  - apply (init_outcome
             (frame_of 1 [named "a" (int64_array [1]); named "a" (int64_array [2])])).
    intros H. inversion H as [|? ? Hn _]. apply Hn. now left.
  - apply (init_outcome
             (frame_of 1 [named "a" (int64_array [1]); (LInt 0, int64_array [2])])).
    + repeat constructor; simpl; intuition discriminate.
    + intros H. inversion H as [|? ? _ H']. inversion H' as [|? ? E _].
      discriminate E.
Defined.

Lemma positional_entries (stop : Z) :
  Index_entries (RangeIndex 0 stop 1)
  = map (fun i => [CInt (Z.of_nat i)]) (seq 0 (range_len 0 stop 1)).
Proof.
  simpl. unfold range_values. rewrite map_map. apply map_ext.
  intros i. do 2 f_equal. lia.
Qed.

(** X2: a wrapper the constructor returns holds the frame's columns
    untouched, on the index [0 .. N-1] with [N] the number of rows of the
    frame; its columns all have [N] entries, and building a wrapper again
    from the frame it holds gives the same wrapper. *)
Theorem init_canonical_form (raw : DataFrame) (D : PandasDataFrame) :
  df_wf raw = true ->
  PandasDataFrame.__init__ raw = Ok D ->
  df_data (PandasDataFrame.dataframe D) = df_data raw
  /\ PandasDataFrame.__len__ D = df_len raw
  /\ Index_entries (df_index (PandasDataFrame.dataframe D))
     = map (fun i => [CInt (Z.of_nat i)]) (seq 0 (df_len raw))
  /\ df_wf (PandasDataFrame.dataframe D) = true
  /\ PandasDataFrame.__init__ (PandasDataFrame.dataframe D) = Ok D.
Proof.
  intros Hwf H.
  assert (HD : constructed D) by (exists raw; auto).
  pose proof (init_Ok raw D H) as [_ [Hd Hi]].
  assert (Hlen : df_len (_dataframe D) = df_len raw).
  { unfold df_len. destruct Hi as [Hi | [Hi Hr]]; rewrite Hi.
    - simpl. apply range_len_from_0.
    - now rewrite Hr. }
  unfold PandasDataFrame.dataframe, PandasDataFrame.__len__,
    PandasDataFrame.shape, shape. simpl.
  split; [exact Hd|]. split; [exact Hlen|]. split; [|split].
  - destruct (constructed_positional D HD) as [stop Hs]. rewrite Hs.
    rewrite positional_entries. f_equal. f_equal.
    rewrite <- Hlen. unfold df_len. now rewrite Hs.
  - now apply constructed_wf.
  - now apply init_idempotent.
Qed.

(** [init_canonical_form] on a frame indexed by the labels [7, 3]. *)
Lemma init_canonical_form_witness :
  let raw := {| df_data := [named "a" (int64_array [1; 2])];
                df_index := LabelIndex None np_int64 [CInt 7; CInt 3] |} in
  exists D,
    PandasDataFrame.__init__ raw = Ok D
    /\ Index_entries (df_index (PandasDataFrame.dataframe D)) = [[CInt 0]; [CInt 1]].
Proof.
  intros raw. eexists. split; [reflexivity|].
  apply (init_canonical_form raw); reflexivity.
Defined.

(** ** The alignment check, both ways *)

Lemma entries_Index_equals (i j : Index) :
  Index_entries i = Index_entries j -> Index_equals i j = true.
Proof.
  intros H. unfold Index_equals. rewrite <- H. apply Index_equals_refl.
Qed.

(** X3: the pre-check of the binary operators passes exactly on aligned
    operands (same shape, same labels in the same order, same index
    entries); on aligned operands an operator is the engine's operator
    on the two frames, its result wrapped by the constructor. *)
Theorem comparand_check_exact
  (frame_op : binop -> DataFrame -> DataFrame -> result DataFrame)
  (op : binop) (D1 D2 : PandasDataFrame) :
  constructed D1 ->
  (PandasDataFrame._validate_comparand D1 (PyDataFrame D2) = Ok tt
   <-> aligned D1 D2)
  /\ (aligned D1 D2 ->
      PandasDataFrame.binary_op frame_op op D1 (PyDataFrame D2)
      = bind (frame_op op (PandasDataFrame.dataframe D1)
                          (PandasDataFrame.dataframe D2))
             PandasDataFrame.__init__).
Proof.
  intros HD.
  assert (Hpass : aligned D1 D2 ->
                  PandasDataFrame._validate_comparand D1 (PyDataFrame D2) = Ok tt).
  { intros [Hs [Hc Hi]]. unfold PandasDataFrame._validate_comparand.
    rewrite (entries_Index_equals _ _ Hi). rewrite Hs, !Nat.eqb_refl.
    unfold PandasDataFrame.get_column_names in Hc.
    now rewrite (proj2 (labels_eqb_eq _ _) Hc). }
  split; [split|].
  - now apply validate_comparand_Ok.
  - exact Hpass.
  - intros Ha. unfold PandasDataFrame.binary_op. rewrite (Hpass Ha). reflexivity.
Qed.

(** [comparand_check_exact] on two frames with the column [a] and one
    row: [==] is the engine's. *)
Lemma comparand_check_exact_witness :
  let D1 := wrap (frame_of 1 [named "a" (int64_array [1])]) in
  let D2 := wrap (frame_of 1 [named "a" (int64_array [5])]) in
  PandasDataFrame.__eq__ accepting_frame_op D1 (PyDataFrame D2) = Ok D1.
Proof.
  intros D1 D2.
  destruct (comparand_check_exact accepting_frame_op OpEq D1 D2) as [_ H].
  - exists (frame_of 1 [named "a" (int64_array [1])]). split; reflexivity.
  - unfold PandasDataFrame.__eq__. rewrite H; [reflexivity|].
    repeat split.
Defined.

(** ** groupby: what it accepts *)

Lemma keys_some_absent (cols ks : list label) :
  ~ Forall (fun k => In k cols) ks ->
  exists k, find (fun key => negb (existsb (label_eqb key) cols)) ks = Some k.
Proof.
  intros H.
  destruct (find (fun key => negb (existsb (label_eqb key) cols)) ks) eqn:F;
    [eauto|].
  exfalso. apply H. apply Forall_forall. intros k Hk.
  pose proof (find_none _ _ F _ Hk) as Hn. simpl in Hn.
  apply negb_false_iff in Hn. apply existsb_exists in Hn as [y [Hy E]].
  apply label_eqb_eq in E. now subst.
Qed.

(** X4: [groupby] rejects a bare string and an object that is not a
    sequence with TypeError, a key list with a key that is not a column
    label with KeyError, and the empty key list on a frame with rows with
    ValueError; a list of column labels (not empty, unless the frame has
    no rows) gives the GroupBy of the frame over those keys. *)
Theorem groupby_outcome (D : PandasDataFrame) :
  constructed D ->
  (forall s, exists m, PandasDataFrame.groupby D (KeysStr s) = Raise (TypeError m))
  /\ (exists m, PandasDataFrame.groupby D KeysOther = Raise (TypeError m))
  /\ (forall l,
         ~ Forall (fun k => In k (PandasDataFrame.get_column_names D)) l ->
         exists m, PandasDataFrame.groupby D (KeysList l) = Raise (KeyError m))
  /\ (PandasDataFrame.__len__ D <> 0%nat ->
      exists m, PandasDataFrame.groupby D (KeysList []) = Raise (ValueError m))
  /\ (forall l,
         Forall (fun k => In k (PandasDataFrame.get_column_names D)) l ->
         l <> [] \/ PandasDataFrame.__len__ D = 0%nat ->
         PandasDataFrame.groupby D (KeysList l)
         = Ok (groupby_of (PandasDataFrame.dataframe D) l)).
Proof.
  intros HD. pose proof (constructed_labels D HD) as [Hnd _].
  unfold PandasDataFrame.groupby.
  split; [|split; [|split; [|split]]].
  - intros s. eauto.
  - eauto.
  - intros l Hl. destruct (keys_some_absent _ _ Hl) as [k Hk].
    unfold PandasDataFrame.get_column_names in *. rewrite Hk. eauto.
  - intros Hlen. simpl. unfold PandasGroupBy__init__, pd_groupby. simpl.
    unfold PandasDataFrame.__len__, PandasDataFrame.shape, shape,
      PandasDataFrame.dataframe in *. simpl in Hlen.
    destruct (df_len (_dataframe D)) eqn:E; [congruence|]. simpl. eauto.
  - intros l Hl Hne.
    rewrite (keys_all_present _ _ Hl).
    unfold PandasDataFrame.get_column_names, PandasDataFrame.dataframe in *.
    destruct (key_arrays_Ok _ l Hnd Hl) as [arrs Harrs].
    unfold PandasGroupBy__init__, pd_groupby. rewrite Harrs. simpl.
    unfold PandasDataFrame.__len__, PandasDataFrame.shape, shape in Hne.
    simpl in Hne.
    destruct l as [|k l']; [|reflexivity].
    destruct Hne as [Hne | Hne]; [congruence|].
    unfold PandasDataFrame.dataframe in Hne. now rewrite Hne.
Qed.

(** [groupby_outcome] on [{a: [1, 2]}]: the key list [["b"]], the empty
    key list and the key list [["a"]]. *)
Lemma groupby_outcome_witness :
  let D := wrap (frame_of 2 [named "a" (int64_array [1; 2])]) in
  (exists m, PandasDataFrame.groupby D (KeysList [LStr "b"]) = Raise (KeyError m))
  /\ (exists m, PandasDataFrame.groupby D (KeysList []) = Raise (ValueError m))
  /\ PandasDataFrame.groupby D (KeysList [LStr "a"])
     = Ok (groupby_of (PandasDataFrame.dataframe D) [LStr "a"]).
Proof.
  intros D.
  destruct (groupby_outcome D) as [_ [_ [H3 [H4 H5]]]].
  - exists (frame_of 2 [named "a" (int64_array [1; 2])]). split; reflexivity.
  - split; [|split].
    + apply H3. intros H. inversion H as [|? ? Hin _].
      destruct Hin as [E|[]]. discriminate E.
    + apply H4. discriminate.
    + apply H5.
      * constructor; [now left | constructor].
      * left. discriminate.
Defined.

(** ** Columns by name, dropped, inserted and set *)

Lemma constructed_canonical (D : PandasDataFrame) :
  constructed D ->
  df_index (_dataframe D)
  = RangeIndex 0 (Z.of_nat (df_len (_dataframe D))) 1
  \/ df_index (_dataframe D) = RangeIndex 0 (-1) 1.
Proof.
  intros HD. destruct (constructed_len D HD) as [H | [H _]]; auto.
Qed.

Lemma get_column_in (d : DataFrame) (l : label) (a : Array) :
  NoDup (columns d) -> is_str l = true -> In (l, a) (df_data d) ->
  PandasDataFrame.get_column_by_name (wrap d) l
  = Ok {| _series := {| s_name := Some l; s_array := a; s_index := df_index d |} |}.
Proof.
  intros Hnd Hs Hin. unfold PandasDataFrame.get_column_by_name. rewrite Hs. simpl.
  unfold loc_column, PandasDataFrame.dataframe, wrap. simpl.
  destruct d as [data idx]. unfold columns in Hnd. simpl in *.
  now rewrite (lookup_label_in data idx l a Hnd Hin).
Qed.

Lemma lookup_label_absent (d : DataFrame) (l : label) :
  ~ In l (columns d) -> lookup_label d l = [].
Proof.
  intros H. unfold lookup_label.
  rewrite (filter_label_absent (fun x => label_eqb x l)); [reflexivity|].
  now apply not_in_labels.
Qed.

Lemma wrap_dataframe (D : PandasDataFrame) : wrap (_dataframe D) = D.
Proof. now destruct D. Qed.

(** X5: [get_column_by_name] raises TypeError for a name that is not a
    string and KeyError for a string that is not a column label; for a
    label of the frame it returns the column stored under it, named by
    the label, on the frame's index. *)
Theorem get_column_by_name_outcome (D : PandasDataFrame) (name : label) :
  constructed D ->
  (is_str name = false ->
   exists m, PandasDataFrame.get_column_by_name D name = Raise (TypeError m))
  /\ (is_str name = true -> ~ In name (PandasDataFrame.get_column_names D) ->
      exists m, PandasDataFrame.get_column_by_name D name = Raise (KeyError m))
  /\ (forall a,
         In (name, a) (df_data (PandasDataFrame.dataframe D)) ->
         PandasDataFrame.get_column_by_name D name
         = Ok {| _series :=
                   {| s_name := Some name; s_array := a;
                      s_index := df_index (PandasDataFrame.dataframe D) |} |}).
Proof.
  intros HD. pose proof (constructed_labels D HD) as [Hnd Hstr].
  unfold PandasDataFrame.get_column_names, PandasDataFrame.dataframe.
  split; [|split].
  - intros Hs. unfold PandasDataFrame.get_column_by_name. rewrite Hs. simpl. eauto.
  - intros Hs Hn. unfold PandasDataFrame.get_column_by_name. rewrite Hs. simpl.
    unfold loc_column, PandasDataFrame.dataframe.
    rewrite (lookup_label_absent _ _ Hn). simpl. eauto.
  - intros a Hin. rewrite <- (wrap_dataframe D) at 1.
    apply get_column_in; [exact Hnd| |exact Hin].
    rewrite Forall_forall in Hstr. apply Hstr.
    apply in_map_iff. exists (name, a). auto.
Qed.

(** [get_column_by_name_outcome] on [{a: [1, 2]}]: the names [0], ["b"]
    and ["a"]. *)
Lemma get_column_by_name_outcome_witness :
  let D := wrap (frame_of 2 [named "a" (int64_array [1; 2])]) in
  (exists m, PandasDataFrame.get_column_by_name D (LInt 0) = Raise (TypeError m))
  /\ (exists m, PandasDataFrame.get_column_by_name D (LStr "b") = Raise (KeyError m))
  /\ (exists C, PandasDataFrame.get_column_by_name D (LStr "a") = Ok C
                /\ s_values (_series C) = [CInt 1; CInt 2]).
Proof.
  intros D.
  destruct (get_column_by_name_outcome D (LInt 0)) as [H1 _].
  { exists (frame_of 2 [named "a" (int64_array [1; 2])]). split; reflexivity. }
  destruct (get_column_by_name_outcome D (LStr "b")) as [_ [H2 _]].
  { exists (frame_of 2 [named "a" (int64_array [1; 2])]). split; reflexivity. }
  destruct (get_column_by_name_outcome D (LStr "a")) as [_ [_ H3]].
  { exists (frame_of 2 [named "a" (int64_array [1; 2])]). split; reflexivity. }
  split; [|split].
  - now apply H1.
  - apply H2; [reflexivity|]. simpl. intros [E|[]]. discriminate E.
  - eexists. split; [apply H3; now left | reflexivity].
Defined.

Lemma map_fst_filter {B} (f : label -> bool) (data : list (label * B)) :
  map fst (filter (fun c => f (fst c)) data) = filter f (map fst data).
Proof.
  induction data as [|c data IH]; simpl; [reflexivity|].
  destruct (f (fst c)); simpl; now rewrite IH.
Qed.

Lemma drop_column_present (D : PandasDataFrame) (l : label) :
  constructed D -> In l (columns (_dataframe D)) ->
  PandasDataFrame.drop_column D l
  = Ok (wrap {| df_data := filter (fun c => negb (label_eqb (fst c) l))
                                  (df_data (_dataframe D));
                df_index := df_index (_dataframe D) |}).
Proof.
  intros HD Hin. pose proof (constructed_labels D HD) as [Hnd Hstr].
  assert (Hs : is_str l = true) by (rewrite Forall_forall in Hstr; auto).
  unfold PandasDataFrame.drop_column. rewrite Hs. simpl.
  unfold df_drop, PandasDataFrame.dataframe.
  replace (existsb (label_eqb l) (columns (_dataframe D))) with true.
  2:{ symmetry. apply existsb_exists. exists l. split; [exact Hin|].
      apply label_eqb_refl. }
  simpl. apply init_canonical.
  - apply validate_columns_Ok. unfold columns in *. simpl.
    rewrite (map_fst_filter (fun x => negb (label_eqb x l))). split.
    + now apply NoDup_filter.
    + apply Forall_forall. intros x Hx. apply filter_In in Hx as [Hx _].
      rewrite Forall_forall in Hstr. auto.
  - unfold df_len. simpl. apply (constructed_canonical D HD).
Qed.

(** X7: [drop_column] raises TypeError for a label that is not a string
    and KeyError for a string that is not a column label; for a label of
    the frame it returns the frame without that column: the other
    columns in their order, the rows and the index as they were, and the
    dropped label no longer found. *)
Theorem drop_column_outcome (D : PandasDataFrame) (l : label) :
  constructed D ->
  (is_str l = false ->
   exists m, PandasDataFrame.drop_column D l = Raise (TypeError m))
  /\ (is_str l = true -> ~ In l (PandasDataFrame.get_column_names D) ->
      exists m, PandasDataFrame.drop_column D l = Raise (KeyError m))
  /\ (In l (PandasDataFrame.get_column_names D) ->
      exists D',
        PandasDataFrame.drop_column D l = Ok D'
        /\ df_data (PandasDataFrame.dataframe D')
           = filter (fun c => negb (label_eqb (fst c) l))
                    (df_data (PandasDataFrame.dataframe D))
        /\ df_index (PandasDataFrame.dataframe D')
           = df_index (PandasDataFrame.dataframe D)
        /\ ~ In l (PandasDataFrame.get_column_names D')
        /\ (exists m, PandasDataFrame.get_column_by_name D' l = Raise (KeyError m))).
Proof.
  intros HD. pose proof (constructed_labels D HD) as [Hnd Hstr].
  unfold PandasDataFrame.get_column_names, PandasDataFrame.dataframe.
  split; [|split].
  - intros Hs. unfold PandasDataFrame.drop_column. rewrite Hs. simpl. eauto.
  - intros Hs Hn. unfold PandasDataFrame.drop_column. rewrite Hs. simpl.
    unfold df_drop, PandasDataFrame.dataframe.
    replace (existsb (label_eqb l) (columns (_dataframe D))) with false; [simpl; eauto|].
    symmetry. destruct (existsb (label_eqb l) (columns (_dataframe D))) eqn:E;
      [|reflexivity].
    apply existsb_exists in E as [y [Hy E]]. apply label_eqb_eq in E. now subst.
  - intros Hin. eexists. split; [now apply drop_column_present|].
    simpl. split; [reflexivity|]. split; [reflexivity|].
    assert (Hn : ~ In l (columns
                   {| df_data := filter (fun c => negb (label_eqb (fst c) l))
                                        (df_data (_dataframe D));
                      df_index := df_index (_dataframe D) |})).
    { unfold columns. simpl. intros H. apply in_map_iff in H as [c [Hc H]].
      apply filter_In in H as [_ H]. rewrite Hc, label_eqb_refl in H.
      discriminate. }
    split; [exact Hn|].
    unfold PandasDataFrame.get_column_by_name.
    assert (Hs : is_str l = true) by (rewrite Forall_forall in Hstr; auto).
    rewrite Hs. simpl. unfold loc_column, PandasDataFrame.dataframe, wrap. simpl.
    rewrite (lookup_label_absent _ _ Hn). simpl. eauto.
Qed.

(** [drop_column_outcome] on [{a: [1], b: [2]}]: dropping [c] and [a]. *)
Lemma drop_column_outcome_witness :
  let D := wrap (frame_of 1 [named "a" (int64_array [1]); named "b" (int64_array [2])]) in
  (exists m, PandasDataFrame.drop_column D (LStr "c") = Raise (KeyError m))
  /\ (exists D', PandasDataFrame.drop_column D (LStr "a") = Ok D'
                 /\ PandasDataFrame.get_column_names D' = [LStr "b"]).
Proof.
  intros D.
  destruct (drop_column_outcome D (LStr "c")) as [_ [H2 _]].
  { exists (frame_of 1 [named "a" (int64_array [1]); named "b" (int64_array [2])]).
    split; reflexivity. }
  destruct (drop_column_outcome D (LStr "a")) as [_ [_ H3]].
  { exists (frame_of 1 [named "a" (int64_array [1]); named "b" (int64_array [2])]).
    split; reflexivity. }
  split.
  - apply H2; [reflexivity|]. simpl. intros [E|[E|[]]]; discriminate E.
  - destruct H3 as [D' [H [Hd _]]]; [simpl; auto|].
    exists D'. split; [exact H|].
    unfold PandasDataFrame.get_column_names, columns. now rewrite Hd.
Defined.

Lemma insert_as_init (d : DataFrame) (loc : Z) (l : label) (C : PandasColumn) :
  positional (df_index d) ->
  unnamed_positions (s_index (_series C)) = true ->
  Index_equals (df_index d) (s_index (_series C)) = true ->
  PandasDataFrame.insert (wrap d) loc l C
  = PandasDataFrame.__init__
      {| df_data :=
           firstn (slice_bound (length (df_data d)) loc) (df_data d)
           ++ (l, s_array (_series C))
              :: skipn (slice_bound (length (df_data d)) loc) (df_data d);
         df_index := df_index d |}.
Proof.
  intros Hpos Hun H. unfold PandasDataFrame.insert, PandasDataFrame._validate_index,
    PandasDataFrame.dataframe, wrap. cbn [_dataframe].
  rewrite (assert_index_equal_accepts _ _ Hpos Hun H). simpl.
  rewrite ?H, ?Index_equals_refl. simpl.
  now rewrite app_nil_r.
Qed.

Lemma spliced_labels (data : list (label * Array)) (b : nat) (l : label) (a : Array) :
  map fst (firstn b data ++ (l, a) :: skipn b data)
  = firstn b (map fst data) ++ l :: skipn b (map fst data).
Proof. rewrite map_app. simpl. now rewrite firstn_map, skipn_map. Qed.

Lemma spliced_perm {A} (l : list A) (b : nat) (x : A) :
  Permutation (firstn b l ++ x :: skipn b l) (x :: l).
Proof.
  rewrite <- (firstn_skipn b l) at 3. symmetry. apply Permutation_middle.
Qed.

Lemma insert_index_mismatch (d : DataFrame) (loc : Z) (l : label) (C : PandasColumn) :
  positional (df_index d) ->
  unnamed_positions (s_index (_series C)) = false
  \/ Index_equals (df_index d) (s_index (_series C)) = false ->
  exists m, PandasDataFrame.insert (wrap d) loc l C = Raise (AssertionError m).
Proof.
  intros Hpos H. unfold PandasDataFrame.insert, PandasDataFrame._validate_index,
    PandasDataFrame.dataframe, wrap. cbn [_dataframe].
  destruct (assert_index_equal_rejects _ _ Hpos H) as [m ->]. simpl. eauto.
Qed.

Lemma init_raises_repeated (raw : DataFrame) :
  ~ NoDup (columns raw) ->
  exists m, PandasDataFrame.__init__ raw = Raise (ValueError m).
Proof.
  intros H. unfold PandasDataFrame.__init__.
  destruct (validate_columns_repeated _ H) as [m ->]. simpl. eauto.
Qed.

Lemma init_raises_not_str (raw : DataFrame) :
  NoDup (columns raw) -> ~ Forall (fun c => is_str c = true) (columns raw) ->
  exists m, PandasDataFrame.__init__ raw = Raise (TypeError m).
Proof.
  intros H1 H2. unfold PandasDataFrame.__init__.
  destruct (validate_columns_not_str _ H1 H2) as [m ->]. simpl. eauto.
Qed.

(** X6: [insert] raises AssertionError when the column's index is not
    the frame's: when it has other entries, or is not an index of row
    positions without a name (a RangeIndex or an unnamed int64 Index).
    With a column on the frame's index it raises ValueError when the
    label is already a column label and TypeError when the new label is
    not a string; otherwise it returns the frame with the column spliced
    in at the position (clipped the way a slice bound is): the labels
    before and after keep their order, the new label gives back the
    inserted values, and the index is the frame's. *)
Theorem insert_outcome (D : PandasDataFrame) (loc : Z) (l : label)
  (C : PandasColumn) :
  constructed D ->
  let d := PandasDataFrame.dataframe D in
  let b := slice_bound (length (df_data d)) loc in
  (unnamed_positions (s_index (_series C)) = false
   \/ Index_equals (df_index d) (s_index (_series C)) = false ->
   exists m, PandasDataFrame.insert D loc l C = Raise (AssertionError m))
  /\ (unnamed_positions (s_index (_series C)) = true ->
      Index_equals (df_index d) (s_index (_series C)) = true ->
      In l (PandasDataFrame.get_column_names D) ->
      exists m, PandasDataFrame.insert D loc l C = Raise (ValueError m))
  /\ (unnamed_positions (s_index (_series C)) = true ->
      Index_equals (df_index d) (s_index (_series C)) = true ->
      ~ In l (PandasDataFrame.get_column_names D) -> is_str l = false ->
      exists m, PandasDataFrame.insert D loc l C = Raise (TypeError m))
  /\ (unnamed_positions (s_index (_series C)) = true ->
      Index_equals (df_index d) (s_index (_series C)) = true ->
      ~ In l (PandasDataFrame.get_column_names D) -> is_str l = true ->
      exists D',
        PandasDataFrame.insert D loc l C = Ok D'
        /\ PandasDataFrame.get_column_names D'
           = firstn b (PandasDataFrame.get_column_names D)
             ++ l :: skipn b (PandasDataFrame.get_column_names D)
        /\ df_index (PandasDataFrame.dataframe D') = df_index d
        /\ PandasDataFrame.get_column_by_name D' l
           = Ok {| _series := {| s_name := Some l; s_array := s_array (_series C);
                                 s_index := df_index d |} |}
        /\ (forall l' a, In (l', a) (df_data d) ->
            PandasDataFrame.get_column_by_name D' l'
            = PandasDataFrame.get_column_by_name D l')).
Proof.
  intros HD d b. pose proof (constructed_labels D HD) as [Hnd Hstr].
  pose proof (constructed_positional D HD) as Hpos.
  unfold PandasDataFrame.get_column_names. fold d.
  assert (Hd : D = wrap d) by (symmetry; apply wrap_dataframe).
  set (data' := firstn b (df_data d) ++ (l, s_array (_series C)) :: skipn b (df_data d)).
  assert (Hlab : columns {| df_data := data'; df_index := df_index d |}
                 = firstn b (columns d) ++ l :: skipn b (columns d))
    by apply spliced_labels.
  split; [|split; [|split]].
  - intros H. rewrite Hd. now apply insert_index_mismatch.
  - intros Hun H Hin. rewrite Hd, (insert_as_init d loc l C Hpos Hun H).
    fold b data'.
    apply init_raises_repeated. rewrite Hlab. intros Hn.
    apply (Permutation_NoDup (spliced_perm _ _ _)) in Hn.
    inversion Hn. contradiction.
  - intros Hun H Hn Hs. rewrite Hd, (insert_as_init d loc l C Hpos Hun H).
    fold b data'.
    apply init_raises_not_str; rewrite Hlab.
    + apply (Permutation_NoDup (Permutation_sym (spliced_perm _ _ _))).
      now constructor.
    + intros HF. apply (Permutation_Forall (spliced_perm _ _ _)) in HF.
      inversion HF. congruence.
  - intros Hun H Hn Hs.
    assert (Hnd' : NoDup (columns {| df_data := data'; df_index := df_index d |})).
    { rewrite Hlab.
      apply (Permutation_NoDup (Permutation_sym (spliced_perm _ _ _))).
      now constructor. }
    assert (Hstr' : Forall (fun c => is_str c = true)
                      (columns {| df_data := data'; df_index := df_index d |})).
    { rewrite Hlab.
      apply (Permutation_Forall (Permutation_sym (spliced_perm _ _ _))).
      now constructor. }
    exists (wrap {| df_data := data'; df_index := df_index d |}).
    split; [|split; [|split; [|split]]].
    + rewrite Hd at 1. rewrite (insert_as_init d loc l C Hpos Hun H).
      fold b data'.
      apply init_canonical.
      * apply validate_columns_Ok. auto.
      * unfold df_len. simpl. apply (constructed_canonical D HD).
    + exact Hlab.
    + reflexivity.
    + apply (get_column_in {| df_data := data'; df_index := df_index d |});
        [exact Hnd'|exact Hs|].
      simpl. unfold data'. apply in_or_app. right. now left.
    + intros l' a Hin.
      assert (Hs' : is_str l' = true).
      { rewrite Forall_forall in Hstr. apply Hstr.
        apply in_map_iff. exists (l', a). auto. }
      rewrite (get_column_in {| df_data := data'; df_index := df_index d |}
                 l' a Hnd' Hs').
      * rewrite Hd. now rewrite (get_column_in d l' a Hnd Hs' Hin).
      * simpl. unfold data'. rewrite <- (firstn_skipn b (df_data d)) in Hin.
        apply in_app_or in Hin as [Hin|Hin]; apply in_or_app; [now left|].
        right. now right.
Qed.

(** [insert_outcome] on [{a: [1]}] and the column [9]: inserted as [z]
    at position 0, and as [a]. *)
Lemma insert_outcome_witness :
  let D := wrap (frame_of 1 [named "a" (int64_array [1])]) in
  let C := column_of (int64_array [9]) in
  (exists D', PandasDataFrame.insert D 0 (LStr "z") C = Ok D'
              /\ PandasDataFrame.get_column_names D' = [LStr "z"; LStr "a"])
  /\ (exists m, PandasDataFrame.insert D 0 (LStr "a") C = Raise (ValueError m)).
Proof.
  intros D C.
  assert (HD : constructed D).
  { exists (frame_of 1 [named "a" (int64_array [1])]). split; reflexivity. }
  split.
  - destruct (insert_outcome D 0 (LStr "z") C HD) as [_ [_ [_ H]]].
    destruct H as [D' [H1 [H2 _]]]; [reflexivity|reflexivity| |reflexivity|].
    + simpl. intros [E|[]]. discriminate E.
    + exists D'. split; [exact H1 | exact H2].
  - destruct (insert_outcome D 0 (LStr "a") C HD) as [_ [H _]].
    apply H; [reflexivity | reflexivity | simpl; auto].
Defined.

(** X8: with a column on the frame's index (an index of row positions
    without a name, a RangeIndex or an unnamed int64 Index, with the
    frame's entries) and a string label, [set_column] on a label of the
    frame replaces that column where it stands (the labels and their
    order are unchanged), and on a new label appends the column as the
    last one; either way the label then gives back the new values and
    every other column is as it was. *)
Theorem set_column_outcome (D : PandasDataFrame) (l : label) (C : PandasColumn) :
  constructed D ->
  unnamed_positions (s_index (_series C)) = true ->
  Index_equals (df_index (PandasDataFrame.dataframe D)) (s_index (_series C)) = true ->
  is_str l = true ->
  exists D',
    PandasDataFrame.set_column D l C = Ok D'
    /\ PandasDataFrame.get_column_names D'
       = (if existsb (label_eqb l) (PandasDataFrame.get_column_names D)
          then PandasDataFrame.get_column_names D
          else PandasDataFrame.get_column_names D ++ [l])
    /\ PandasDataFrame.get_column_by_name D' l
       = Ok {| _series := {| s_name := Some l; s_array := s_array (_series C);
                             s_index := df_index (PandasDataFrame.dataframe D) |} |}
    /\ (forall l' a, l' <> l ->
        In (l', a) (df_data (PandasDataFrame.dataframe D)) ->
        PandasDataFrame.get_column_by_name D' l'
        = PandasDataFrame.get_column_by_name D l').
Proof.
  intros HD Hun Hidx Hs.
  pose proof (constructed_labels D HD) as [Hnd Hstr].
  pose proof (constructed_canonical D HD) as Hcan.
  pose proof (constructed_positional D HD) as Hpos.
  unfold PandasDataFrame.set_column, PandasDataFrame.get_column_names,
    PandasDataFrame.dataframe in *.
  destruct D as [[data idx]]. unfold columns in *. simpl in *.
  destruct (existsb (label_eqb l) (map fst data)) eqn:E.
  - (* the label is replaced *)
    apply existsb_exists in E as [y [Hy E]]. apply label_eqb_eq in E. subst y.
    destruct (split_at_label data l Hnd Hy) as [pre [a0 [post [-> [Hpre Hpost]]]]].
    assert (HD1 : PandasDataFrame.drop_column
                    {| _dataframe := {| df_data := pre ++ (l, a0) :: post;
                                        df_index := idx |} |} l
                  = Ok (wrap {| df_data := pre ++ post; df_index := idx |})).
    { rewrite (drop_column_present _ l HD); [|unfold columns; simpl; exact Hy].
      simpl. now rewrite drop_label_split. }
    rewrite HD1. simpl.
    rewrite (insert_as_init {| df_data := pre ++ post; df_index := idx |} _ l C
               Hpos Hun Hidx).
    simpl. rewrite map_app. simpl. rewrite list_index_split by exact Hpre.
    rewrite length_map, slice_bound_prefix by (rewrite length_app; lia).
    rewrite firstn_app, Nat.sub_diag, firstn_all. simpl. rewrite app_nil_r.
    rewrite skipn_app, Nat.sub_diag, skipn_all. simpl.
    set (d' := {| df_data := pre ++ (l, s_array (_series C)) :: post;
                  df_index := idx |}).
    assert (Hlab : columns d' = map fst pre ++ l :: map fst post).
    { unfold columns, d'. simpl. now rewrite map_app. }
    assert (Hnd' : NoDup (columns d'))
      by (rewrite Hlab; rewrite map_app in Hnd; exact Hnd).
    assert (Hstr' : Forall (fun c => is_str c = true) (columns d'))
      by (rewrite Hlab; rewrite map_app in Hstr; exact Hstr).
    exists (wrap d'). split; [|split; [|split]].
    + apply init_canonical.
      * apply validate_columns_Ok. auto.
      * unfold df_len in *. simpl in *. exact Hcan.
    + exact Hlab.
    + apply (get_column_in d'); [exact Hnd'|exact Hs|].
      simpl. apply in_or_app. right. now left.
    + intros l' a Hne Hin.
      assert (Hs' : is_str l' = true).
      { rewrite Forall_forall in Hstr. apply Hstr.
        apply in_map_iff. exists (l', a). auto. }
      rewrite (get_column_in d' l' a Hnd' Hs').
      * symmetry.
        apply (get_column_in {| df_data := pre ++ (l, a0) :: post; df_index := idx |});
          auto.
      * simpl. apply in_app_or in Hin as [Hin | [Hin | Hin]].
        -- apply in_or_app. now left.
        -- injection Hin as <- _. congruence.
        -- apply in_or_app. right. now right.
  - (* the label is new *)
    assert (Hn : ~ In l (map fst data)).
    { intros H. assert (existsb (label_eqb l) (map fst data) = true); [|congruence].
      apply existsb_exists. exists l. split; [exact H | apply label_eqb_refl]. }
    change {| _dataframe := {| df_data := data; df_index := idx |} |}
      with (wrap {| df_data := data; df_index := idx |}).
    rewrite (insert_as_init {| df_data := data; df_index := idx |} _ l C
               Hpos Hun Hidx).
    simpl. rewrite length_map, slice_bound_prefix by lia.
    rewrite firstn_all, skipn_all. simpl.
    set (d' := {| df_data := data ++ [(l, s_array (_series C))]; df_index := idx |}).
    assert (Hlab : columns d' = map fst data ++ [l]).
    { unfold columns, d'. simpl. now rewrite map_app. }
    assert (Hnd' : NoDup (columns d')).
    { rewrite Hlab. apply (Permutation_NoDup (Permutation_cons_append _ _)).
      now constructor. }
    exists (wrap d'). split; [|split; [|split]].
    + apply init_canonical.
      * apply validate_columns_Ok. rewrite Hlab. split; [now rewrite <- Hlab|].
        apply Forall_app. split; [exact Hstr | now constructor].
      * unfold df_len in *. simpl in *. exact Hcan.
    + exact Hlab.
    + apply (get_column_in d'); [exact Hnd'|exact Hs|].
      simpl. apply in_or_app. right. now left.
    + intros l' a Hne Hin.
      assert (Hs' : is_str l' = true).
      { rewrite Forall_forall in Hstr. apply Hstr.
        apply in_map_iff. exists (l', a). auto. }
      rewrite (get_column_in d' l' a Hnd' Hs').
      * symmetry. apply (get_column_in {| df_data := data; df_index := idx |}); auto.
      * simpl. apply in_or_app. now left.
Qed.

(** [set_column_outcome] on [{a: [1], b: [2]}] and the column [9]: set
    as [a] and as [c]. *)
Lemma set_column_outcome_witness :
  let D := wrap (frame_of 1 [named "a" (int64_array [1]); named "b" (int64_array [2])]) in
  let C := column_of (int64_array [9]) in
  (exists D', PandasDataFrame.set_column D (LStr "a") C = Ok D'
              /\ PandasDataFrame.get_column_names D' = [LStr "a"; LStr "b"])
  /\ (exists D', PandasDataFrame.set_column D (LStr "c") C = Ok D'
                 /\ PandasDataFrame.get_column_names D'
                    = [LStr "a"; LStr "b"; LStr "c"]).
Proof.
  intros D C.
  assert (HD : constructed D).
  { exists (frame_of 1 [named "a" (int64_array [1]); named "b" (int64_array [2])]).
    split; reflexivity. }
  split.
  - destruct (set_column_outcome D (LStr "a") C HD eq_refl eq_refl eq_refl)
      as [D' [H1 [H2 _]]].
    exists D'. split; [exact H1 | exact H2].
  - destruct (set_column_outcome D (LStr "c") C HD eq_refl eq_refl eq_refl)
      as [D' [H1 [H2 _]]].
    exists D'. split; [exact H1 | exact H2].
Defined.

(** ** isnull and isnan on a frame *)

Lemma mapM_map_in {A B C} (f : B -> result C) (h : A -> B) (g : A -> C)
  (l : list A) :
  (forall a, In a l -> f (h a) = Ok (g a)) ->
  mapM f (map h l) = Ok (map g l).
Proof.
  induction l as [|a l IH]; simpl; intros H; [reflexivity|].
  rewrite (H a (or_introl eq_refl)). simpl. rewrite IH; [reflexivity|].
  intros x Hx. apply H. now right.
Qed.

Lemma concat_columns_named (f : label * Array -> Series) (data : list (label * Array))
  (num : Z) :
  (forall c, s_name (f c) = Some (fst c)) ->
  concat_columns (map (fun c => NDSeries (f c)) data) num
  = map (fun c => (fst c, s_array (f c))) data.
Proof.
  intros H. induction data as [|c data IH]; simpl; [reflexivity|].
  now rewrite H, IH.
Qed.

Lemma init_valid (raw : DataFrame) :
  NoDup (columns raw) -> Forall (fun c => is_str c = true) (columns raw) ->
  exists D, PandasDataFrame.__init__ raw = Ok D
            /\ df_data (_dataframe D) = df_data raw
            /\ df_len (_dataframe D) = df_len raw.
Proof.
  intros H1 H2. unfold PandasDataFrame.__init__.
  rewrite (proj2 (validate_columns_Ok _) (conj H1 H2)). simpl.
  destruct (match df_index raw with RangeIndex _ _ _ => _ | _ => _ end);
    eexists; (split; [reflexivity|]); split; try reflexivity.
  unfold df_len. simpl. apply range_len_from_0.
Qed.

Lemma loc_column_in (d : DataFrame) (l : label) (a : Array) :
  NoDup (columns d) -> In (l, a) (df_data d) ->
  loc_column d l = Ok {| s_name := Some l; s_array := a; s_index := df_index d |}.
Proof.
  intros Hnd Hin. unfold loc_column. destruct d as [data idx].
  unfold columns in Hnd. simpl in *.
  now rewrite (lookup_label_in data idx l a Hnd Hin).
Qed.

Lemma positional_equals_range (i : Index) (n : nat) :
  positional i -> Index_len i = n ->
  Index_entries i = Index_entries (RangeIndex 0 (Z.of_nat n) 1).
Proof.
  intros [stop ->] H. simpl in H. rewrite !positional_entries.
  now rewrite range_len_from_0, H.
Qed.

Lemma entries_len (i j : Index) :
  Index_entries i = Index_entries j -> Index_len i = Index_len j.
Proof.
  intros Hij. apply (f_equal (@length _)) in Hij.
  destruct i, j; simpl in *; unfold range_values in *;
    rewrite ?length_map, ?length_seq in Hij; exact Hij.
Qed.

(** [pd.concat(..., axis=1)] of named Series that share their index
    entries: one column per Series, under its name. *)
Lemma concat_axis1_named (f : label * Array -> Series) (data : list (label * Array))
  (E : list (list cell)) :
  data <> [] ->
  (forall c, s_name (f c) = Some (fst c)) ->
  (forall c, Index_entries (s_index (f c)) = E) ->
  exists i,
    concat_axis1 (map (fun c => NDSeries (f c)) data)
    = Ok {| df_data := map (fun c => (fst c, s_array (f c))) data; df_index := i |}
    /\ Index_entries i = E
    /\ (forall c rest, data = c :: rest -> i = s_index (f c)).
Proof.
  intros Hne Hname Hidx. destruct data as [|c data]; [congruence|].
  exists (s_index (f c)).
  split; [|split; [apply Hidx | intros c0 rest [= <- _]; reflexivity]].
  unfold concat_axis1.
  change (map (fun c0 => NDSeries (f c0)) (c :: data))
    with (NDSeries (f c) :: map (fun c0 => NDSeries (f c0)) data).
  cbv iota beta.
  replace (forallb (fun o' => Index_equals (nd_index (NDSeries (f c))) (nd_index o'))
                   (map (fun c0 => NDSeries (f c0)) data)) with true.
  - change (NDSeries (f c) :: map (fun c0 => NDSeries (f c0)) data)
      with (map (fun c0 => NDSeries (f c0)) (c :: data)).
    now rewrite (concat_columns_named f _ 0 Hname).
  - symmetry. apply forallb_forall. intros o Ho.
    apply in_map_iff in Ho as [c' [<- _]]. simpl.
    apply entries_Index_equals. now rewrite !Hidx.
Qed.

(** X9: on a frame with at least one column, [isnull] is the Column-level
    [isnull] column by column: the same labels in the same order, each
    holding what [isnull] gives on that column, over the same number of
    rows; on a frame without columns it raises ValueError. *)
Theorem isnull_columnwise_eq (D : PandasDataFrame) :
  constructed D ->
  (PandasDataFrame.get_column_names D <> [] ->
   exists R, PandasDataFrame.isnull D = Ok R
             /\ df_data (PandasDataFrame.dataframe R) = isnull_columnwise D
             /\ PandasDataFrame.__len__ R = PandasDataFrame.__len__ D)
  /\ (PandasDataFrame.get_column_names D = [] ->
      exists m, PandasDataFrame.isnull D = Raise (ValueError m)).
Proof.
  intros HD.
  pose proof (constructed_labels D HD) as [Hnd Hstr].
  pose proof (constructed_wf D HD) as Hwf.
  pose proof (constructed_positional D HD) as Hpos.
  unfold PandasDataFrame.isnull, PandasDataFrame.get_column_names,
    PandasDataFrame.__len__, PandasDataFrame.shape, shape, isnull_columnwise,
    PandasDataFrame.dataframe in *. simpl.
  set (d := _dataframe D) in *.
  set (f := fun c : label * Array =>
              if is_extension_array_dtype (a_dtype (snd c))
              then Series_isna {| s_name := Some (fst c); s_array := snd c;
                                  s_index := df_index d |}
              else Series_of_falses (df_len d) (Some (fst c))).
  assert (HM : mapM (fun column =>
                       s <- loc_column d column ;;
                       if is_extension_array_dtype (s_dtype s)
                       then Ok (NDSeries (Series_isna s))
                       else Ok (NDSeries (Series_of_falses (df_len d) (Some column))))
                    (columns d)
               = Ok (map (fun c => NDSeries (f c)) (df_data d))).
  { unfold columns. apply mapM_map_in. intros [l a] Hin.
    simpl. rewrite (loc_column_in d l a Hnd Hin). simpl. unfold f, s_dtype. simpl.
    now destruct (is_extension_array_dtype (a_dtype a)). }
  rewrite HM. simpl.
  split.
  - intros Hne.
    destruct (concat_axis1_named f (df_data d)
                (Index_entries (RangeIndex 0 (Z.of_nat (df_len d)) 1)))
      as [i [Hcat [Hi _]]].
    + intros E. apply Hne. unfold columns. now rewrite E.
    + intros c'. unfold f.
      destruct (is_extension_array_dtype (a_dtype (snd c'))); reflexivity.
    + intros c'. unfold f.
      destruct (is_extension_array_dtype (a_dtype (snd c'))); simpl s_index.
      * now apply positional_equals_range.
      * reflexivity.
    + rewrite Hcat. simpl bind.
      set (raw := {| df_data := map (fun c0 => (fst c0, s_array (f c0))) (df_data d);
                     df_index := i |}).
      assert (Hcols : columns raw = columns d).
      { unfold columns, raw. cbn [df_data]. rewrite map_map. reflexivity. }
      destruct (init_valid raw) as [R [HR [HRd HRl]]].
      * now rewrite Hcols.
      * now rewrite Hcols.
      * exists R. split; [exact HR|]. split.
        -- rewrite HRd. unfold raw. cbn [df_data]. apply map_ext_in.
           intros [l a] Hin. unfold f, PandasColumn.isnull, s_dtype. simpl.
           destruct (is_extension_array_dtype (a_dtype a)); [reflexivity|].
           simpl. unfold PandasColumn.__len__, Series_len, s_values. simpl.
           now rewrite (wf_length d l a Hwf Hin).
        -- rewrite HRl. unfold df_len at 1. unfold raw. cbn [df_index].
           rewrite (entries_len _ _ Hi). simpl. apply range_len_from_0.
  - intros He. unfold columns in He. apply map_eq_nil in He. rewrite He. simpl.
    eauto.
Qed.

(** [isnull_columnwise_eq] on [{a: [1, NA] (Int64), b: [1, 2] (int64)}]. *)
Lemma isnull_columnwise_eq_witness :
  let D := wrap (frame_of 2 [named "a" {| a_dtype := Int64Dtype;
                                          a_values := [CInt 1; CNA] |};
                             named "b" (int64_array [1; 2])]) in
  exists R, PandasDataFrame.isnull D = Ok R
            /\ df_data (PandasDataFrame.dataframe R)
               = [named "a" {| a_dtype := np_bool;
                               a_values := [CBool false; CBool true] |};
                  named "b" {| a_dtype := np_bool;
                               a_values := [CBool false; CBool false] |}].
Proof.
  intros D.
  destruct (isnull_columnwise_eq D) as [H _].
  - exists (frame_of 2 [named "a" {| a_dtype := Int64Dtype;
                                     a_values := [CInt 1; CNA] |};
                        named "b" (int64_array [1; 2])]).
    split; reflexivity.
  - destruct H as [R [H1 [H2 _]]]; [discriminate|].
    exists R. split; [exact H1|]. rewrite H2. reflexivity.
Defined.

(** X10: on a frame with at least one column and no column of
    extension (nullable) dtype, [isnan] is the Column-level [isnan]
    column by column, on the frame's labels and index; on a frame
    without columns it raises ValueError. *)
Theorem isnan_columnwise_numpy (D : PandasDataFrame) :
  constructed D ->
  (PandasDataFrame.get_column_names D <> [] ->
   (forall c, In c (df_data (PandasDataFrame.dataframe D)) ->
              is_extension_array_dtype (a_dtype (snd c)) = false) ->
   PandasDataFrame.isnan D = Ok (wrap (isnan_columnwise D)))
  /\ (PandasDataFrame.get_column_names D = [] ->
      exists m, PandasDataFrame.isnan D = Raise (ValueError m)).
Proof.
  intros HD.
  pose proof (constructed_labels D HD) as [Hnd Hstr].
  pose proof (constructed_canonical D HD) as Hcan.
  unfold PandasDataFrame.isnan, PandasDataFrame.get_column_names,
    isnan_columnwise, PandasDataFrame.dataframe in *. simpl.
  set (d := _dataframe D) in *.
  set (f := fun c : label * Array =>
              Series_isna {| s_name := Some (fst c); s_array := snd c;
                             s_index := df_index d |}).
  split.
  - intros Hne Hnum.
    assert (HM : mapM (fun column =>
                         s <- loc_column d column ;;
                         if is_extension_array_dtype (s_dtype s)
                         then m <- np_isnan_masked s ;;
                              b <- Series_astype_bool (Series_replace_NA_False m) ;;
                              Ok (NDSeries b)
                         else Ok (NDSeries (Series_isna s)))
                      (columns d)
                 = Ok (map (fun c => NDSeries (f c)) (df_data d))).
    { unfold columns. apply mapM_map_in. intros [l a] Hin.
      simpl. rewrite (loc_column_in d l a Hnd Hin). simpl. unfold s_dtype. simpl.
      pose proof (Hnum _ Hin) as En. simpl in En. now rewrite En. }
    rewrite HM. simpl.
    destruct (concat_axis1_named f (df_data d) (Index_entries (df_index d)))
      as [i [Hcat [_ Hi]]]; try reflexivity.
    + intros E. apply Hne. unfold columns. now rewrite E.
    + rewrite Hcat. simpl bind.
      assert (Ei : i = df_index d).
      { destruct (df_data d) as [|c rest] eqn:Ed.
        - exfalso. apply Hne. unfold columns. now rewrite Ed.
        - now rewrite (Hi c rest eq_refl). }
      subst i. apply init_canonical.
      * apply validate_columns_Ok. unfold columns in *. simpl.
        rewrite map_map. simpl. auto.
      * unfold df_len in *. simpl. exact Hcan.
  - intros He. unfold columns in He. apply map_eq_nil in He.
    unfold columns. rewrite He. simpl. eauto.
Qed.

(** [isnan_columnwise_numpy] on [{a: [1.5, NaN]}]. *)
Lemma isnan_columnwise_numpy_witness :
  let D := wrap (frame_of 2 [named "a" {| a_dtype := np_float64;
                                          a_values := [CFloat 1.5; CNaN] |}]) in
  PandasDataFrame.isnan D
  = Ok (wrap (frame_of 2 [named "a" {| a_dtype := np_bool;
                                       a_values := [CBool false; CBool true] |}])).
Proof.
  intros D.
  destruct (isnan_columnwise_numpy D) as [H _].
  - exists (frame_of 2 [named "a" {| a_dtype := np_float64;
                                     a_values := [CFloat 1.5; CNaN] |}]).
    split; reflexivity.
  - rewrite H; [reflexivity | discriminate |].
    intros c [<-|[]]. reflexivity.
Defined.

(** ** concat without operands *)

Lemma concat_single_data (data : list (label * Array)) (idx : Index) (s : nat)
  (all : list (label * Array)) :
  (forall k c, nth_error data k = Some c -> nth_error all (s + k) = Some c) ->
  map (fun kc => (fst (snd kc),
                  {| a_dtype := a_dtype (snd (snd kc));
                     a_values := concat_rows [{| df_data := all; df_index := idx |}]
                                   (fst kc) |}))
      (combine (seq s (length data)) data)
  = data.
Proof.
  revert s. induction data as [|[l a] data IH]; intros s H; simpl; [reflexivity|].
  f_equal.
  - f_equal. specialize (H 0%nat (l, a) eq_refl). rewrite Nat.add_0_r in H.
    simpl. rewrite H. simpl. rewrite app_nil_r. now destruct a.
  - apply IH. intros k c Hk. specialize (H (S k) c Hk).
    now replace (S s + k)%nat with (s + S k)%nat by lia.
Qed.

Lemma concat_axis0_single (d : DataFrame) :
  concat_axis0 [d]
  = Ok {| df_data := df_data d;
          df_index := RangeIndex 0 (Z.of_nat (df_len d + 0)) 1 |}.
Proof.
  destruct d as [data idx]. unfold concat_axis0.
  cbn [forallb df_data list_sum map fold_right].
  now rewrite (concat_single_data data idx 0 data) by (intros k c H; exact H).
Qed.

(** X11: [concat] of no operand succeeds and returns the frame's columns
    and rows unchanged, on the index [0 .. N-1]. *)
Theorem concat_no_operand (D : PandasDataFrame) :
  constructed D ->
  exists R,
    PandasDataFrame.concat D [] = Ok R
    /\ df_data (PandasDataFrame.dataframe R) = df_data (PandasDataFrame.dataframe D)
    /\ df_index (PandasDataFrame.dataframe R)
       = RangeIndex 0 (Z.of_nat (PandasDataFrame.__len__ D)) 1.
Proof.
  intros HD. pose proof (constructed_labels D HD) as [Hnd Hstr].
  unfold PandasDataFrame.concat, PandasDataFrame.__len__, PandasDataFrame.shape,
    shape, PandasDataFrame.dataframe.
  cbn [PandasDataFrame.concat_check map bind fst].
  rewrite concat_axis0_single. cbn [bind]. rewrite Nat.add_0_r.
  destruct D as [[data idx]]. unfold columns in *. simpl in Hnd, Hstr.
  cbn [_dataframe df_data].
  set (n := df_len {| df_data := data; df_index := idx |}).
  exists (wrap {| df_data := data; df_index := RangeIndex 0 (Z.of_nat n) 1 |}).
  split; [|split; reflexivity].
  apply init_canonical.
  - apply validate_columns_Ok. auto.
  - left. unfold df_len. simpl. now rewrite range_len_from_0.
Qed.

(** [concat_no_operand] on [{a: [1, 2]}]. *)
Lemma concat_no_operand_witness :
  let D := wrap (frame_of 2 [named "a" (int64_array [1; 2])]) in
  PandasDataFrame.concat D [] = Ok D.
Proof.
  intros D.
  destruct (concat_no_operand D) as [R [H1 [H2 H3]]].
  - exists (frame_of 2 [named "a" (int64_array [1; 2])]). split; reflexivity.
  - rewrite H1. f_equal. destruct R as [[data idx]]. simpl in *. now subst.
Defined.

(** ** GroupBy: what any and all ask of the dtypes *)

Lemma dtype_eqb_eq (a b : dtype) : dtype_eqb a b = true <-> a = b.
Proof. destruct a, b; simpl; split; intros H; try discriminate; reflexivity. Qed.

Lemma drop_columns_present (d : DataFrame) (ks : list label) :
  Forall (fun k => In k (columns d)) ks ->
  df_drop_columns d ks
  = Ok {| df_data := filter (fun c => negb (existsb (label_eqb (fst c)) ks)) (df_data d);
          df_index := df_index d |}.
Proof.
  intros H. unfold df_drop_columns.
  replace (forallb (fun l => existsb (label_eqb l) (columns d)) ks) with true;
    [reflexivity|].
  symmetry. apply forallb_forall. intros k Hk. rewrite Forall_forall in H.
  apply existsb_exists. exists k. split; [now apply H | apply label_eqb_refl].
Qed.

Lemma existsb_label_in (l : label) (ks : list label) :
  existsb (label_eqb l) ks = true <-> In l ks.
Proof.
  rewrite existsb_exists. split.
  - intros [y [Hy E]]. apply label_eqb_eq in E. now subst.
  - intros H. exists l. split; [exact H | apply label_eqb_refl].
Qed.

(** X12: [any] and [all] of a GroupBy whose keys are columns of the
    grouped frame run the engine's reduction only when every column
    that is not a key has dtype bool; if some such column has another
    dtype they raise ValueError, whatever the engine would return. *)
Theorem groupby_any_all_boolean
  (grouped_agg : aggregation -> DataFrameGroupBy -> result DataFrame)
  (f : aggregation) (g : PandasGroupBy) :
  f = AggAny \/ f = AggAll ->
  Forall (fun k => In k (columns (df g))) (keys g) ->
  ((forall c, In c (df_data (df g)) -> ~ In (fst c) (keys g) ->
              a_dtype (snd c) = np_bool) ->
   PandasGroupBy.precheck f g = Ok tt)
  /\ ((exists c, In c (df_data (df g)) /\ ~ In (fst c) (keys g)
                 /\ a_dtype (snd c) <> np_bool) ->
      exists m, PandasGroupBy.aggregate grouped_agg f g = Raise (ValueError m)).
Proof.
  intros Hf Hk.
  assert (Hpre : PandasGroupBy.precheck f g = PandasGroupBy._expect_boolean g)
    by (destruct Hf as [-> | ->]; reflexivity).
  unfold PandasGroupBy.aggregate. rewrite Hpre.
  unfold PandasGroupBy._expect_boolean. rewrite (drop_columns_present _ _ Hk).
  simpl. unfold dtypes_all_bool, dtypes. simpl.
  split.
  - intros Hall.
    replace (forallb _ _) with true; [reflexivity|].
    symmetry. apply forallb_forall. intros p Hp.
    apply in_map_iff in Hp as [c [<- Hc]]. simpl.
    apply filter_In in Hc as [Hc Hn]. apply dtype_eqb_eq. apply Hall; [exact Hc|].
    intros Hin. apply existsb_label_in in Hin. rewrite Hin in Hn. discriminate.
  - intros [c [Hc [Hn Hd]]].
    replace (forallb _ _) with false; [simpl; eauto|].
    symmetry. apply not_true_is_false. intros H.
    rewrite forallb_forall in H.
    specialize (H (fst c, a_dtype (snd c))). simpl in H.
    apply Hd. apply dtype_eqb_eq. apply H.
    apply in_map_iff. exists c. split; [reflexivity|].
    apply filter_In. split; [exact Hc|].
    apply negb_true_iff. destruct (existsb (label_eqb (fst c)) (keys g)) eqn:E;
      [|reflexivity].
    apply existsb_label_in in E. contradiction.
Qed.

(** [groupby_any_all_boolean] on [{k: [1, 1], v: [10, 20]}] grouped by
    [k]: [any] raises, the value column being int64. *)
Lemma groupby_any_all_boolean_witness :
  let d := frame_of 2 [named "k" (int64_array [1; 1]);
                       named "v" (int64_array [10; 20])] in
  exists m, PandasGroupBy.any first_value_agg (groupby_of d [LStr "k"])
            = Raise (ValueError m).
Proof.
  intros d.
  destruct (groupby_any_all_boolean first_value_agg AggAny (groupby_of d [LStr "k"]))
    as [_ H].
  - now left.
  - constructor; [left; reflexivity | constructor].
  - apply H. exists (named "v" (int64_array [10; 20])).
    split; [right; left; reflexivity|]. split.
    + simpl. intros [E|[]]. discriminate E.
    + discriminate.
Defined.

(** ** sortedIndices: an unknown key *)

Lemma loc_data_absent (d : DataFrame) (ks : list label) :
  ~ Forall (fun k => In k (columns d)) ks ->
  exists m, loc_data d ks = Raise (KeyError m).
Proof.
  induction ks as [|k ks IH]; intros H.
  - exfalso. apply H. constructor.
  - simpl. destruct (lookup_label d k) as [|a arrs] eqn:E; [eauto|].
    destruct IH as [m Hm].
    + intros HF. apply H. constructor; [|exact HF].
      assert (Ha : In a (lookup_label d k)) by (rewrite E; now left).
      unfold lookup_label in Ha. apply in_map_iff in Ha as [c [_ Hc]].
      apply filter_In in Hc as [Hc Hl]. apply label_eqb_eq in Hl. subst k.
      apply in_map_iff. exists c. auto.
    + rewrite Hm. simpl. eauto.
Qed.

(** X13: [sorted_indices] with a key that is not a column label raises
    KeyError, whatever the sort kernel, and whether the keys come as a
    list, as a tuple or as the characters of a [str]. *)
Theorem sorted_indices_unknown_key (argsort : list cell -> list nat)
  (D : PandasDataFrame) (ks : sort_keys_arg) :
  ~ Forall (fun k => In k (PandasDataFrame.get_column_names D))
           (PandasDataFrame.list_of_keys ks) ->
  exists m, PandasDataFrame.sorted_indices argsort D ks = Raise (KeyError m).
Proof.
  intros H. unfold PandasDataFrame.sorted_indices, loc_columns.
  destruct (loc_data_absent _ _ H) as [m Hm]. rewrite Hm. simpl. eauto.
Qed.

(** [sorted_indices_unknown_key] on [{a: [2, 1]}] sorted by [["a", "b"]]. *)
Lemma sorted_indices_unknown_key_witness :
  exists m,
    PandasDataFrame.sorted_indices insertion_argsort
      (wrap (frame_of 2 [named "a" (int64_array [2; 1])]))
      (SortList [LStr "a"; LStr "b"])
    = Raise (KeyError m).
Proof.
  apply sorted_indices_unknown_key.
  intros H. inversion H as [|? ? _ H']. inversion H' as [|? ? Hin _].
  destruct Hin as [E|[]]. discriminate E.
Defined.

(** ** Columns selected by name *)

Lemma loc_data_present (d : DataFrame) (ks : list label) :
  NoDup (columns d) -> Forall (fun k => In k (columns d)) ks ->
  exists arrs,
    loc_data d ks = Ok (combine ks arrs)
    /\ Forall2 (fun k a => In (k, a) (df_data d)) ks arrs.
Proof.
  intros Hnd Hin. destruct (key_arrays_Ok d ks Hnd Hin) as [arrs H].
  apply key_arrays_lookup in H. exists arrs. split.
  - now apply loc_data_keys.
  - clear Hin. induction H; constructor; auto using lookup_label_holds.
Qed.

Lemma Forall2_combine_in {A B} (P : A -> B -> Prop) (l : list A) (l' : list B) :
  Forall2 P l l' -> forall a b, In (a, b) (combine l l') -> P a b.
Proof.
  induction 1; simpl; intros a b Hin; [contradiction|].
  destruct Hin as [E | Hin]; [now inversion E; subst | auto].
Qed.

Lemma Forall2_length_eq {A B} (P : A -> B -> Prop) (l : list A) (l' : list B) :
  Forall2 P l l' -> length l = length l'.
Proof. induction 1; simpl; congruence. Qed.

Lemma Forall2_in_left {A B} (P : A -> B -> Prop) (l : list A) (l' : list B) :
  Forall2 P l l' -> forall a, In a l -> exists b, In (a, b) (combine l l').
Proof.
  induction 1; simpl; intros a Hin; [contradiction|].
  destruct Hin as [-> | Hin]; [eauto|].
  destruct (IHForall2 a Hin) as [b' Hb]. eauto.
Qed.

Lemma selected_frame (D : PandasDataFrame) (names : list label) :
  constructed D -> NoDup names ->
  Forall (fun k => In k (columns (_dataframe D))) names ->
  exists arrs,
    PandasDataFrame.get_columns_by_name D (NamesList names)
    = Ok (wrap {| df_data := combine names arrs;
                  df_index := df_index (_dataframe D) |})
    /\ Forall2 (fun k a => In (k, a) (df_data (_dataframe D))) names arrs.
Proof.
  intros HD Hnd Hin. pose proof (constructed_labels D HD) as [HndD HstrD].
  assert (Hstr : Forall (fun c => is_str c = true) names).
  { rewrite Forall_forall in *. intros k Hk. apply HstrD. now apply Hin. }
  destruct (loc_data_present _ names HndD Hin) as [arrs [Hloc Hall]].
  exists arrs. split; [|exact Hall].
  unfold PandasDataFrame.get_columns_by_name.
  rewrite (proj2 (validate_columns_Ok names) (conj Hnd Hstr)). simpl.
  unfold loc_columns, PandasDataFrame.dataframe. rewrite Hloc. simpl.
  pose proof (Forall2_length_eq _ _ _ Hall) as Hlen.
  apply init_canonical.
  - unfold columns. simpl. rewrite map_fst_combine by exact Hlen.
    now apply validate_columns_Ok.
  - unfold df_len. simpl. destruct (constructed_len D HD) as [H | [H _]]; auto.
Qed.

(** X14: [get_columns_by_name] raises TypeError for a bare string,
    ValueError for a list with a repeated name, TypeError for a list
    with a name that is not a string, and KeyError for a list with a
    string that is not a column label; for a list of labels of the frame
    that do not repeat it returns a Dataframe with exactly those labels in
    the order asked for, the same number of rows, and under each label the
    column the original holds. *)
Theorem get_columns_by_name_outcome (D : PandasDataFrame) (names : list label) :
  constructed D ->
  (forall s, exists m,
      PandasDataFrame.get_columns_by_name D (NamesStr s) = Raise (TypeError m))
  /\ (~ NoDup names ->
      exists m,
        PandasDataFrame.get_columns_by_name D (NamesList names)
        = Raise (ValueError m))
  /\ (NoDup names -> ~ Forall (fun c => is_str c = true) names ->
      exists m,
        PandasDataFrame.get_columns_by_name D (NamesList names)
        = Raise (TypeError m))
  /\ (NoDup names -> Forall (fun c => is_str c = true) names ->
      ~ Forall (fun k => In k (PandasDataFrame.get_column_names D)) names ->
      exists m,
        PandasDataFrame.get_columns_by_name D (NamesList names)
        = Raise (KeyError m))
  /\ (NoDup names ->
      Forall (fun k => In k (PandasDataFrame.get_column_names D)) names ->
      exists R,
        PandasDataFrame.get_columns_by_name D (NamesList names) = Ok R
        /\ PandasDataFrame.get_column_names R = names
        /\ PandasDataFrame.__len__ R = PandasDataFrame.__len__ D
        /\ forall name, In name names ->
             PandasDataFrame.get_column_by_name R name
             = PandasDataFrame.get_column_by_name D name).
Proof.
  intros HD. pose proof (constructed_labels D HD) as [HndD HstrD].
  unfold PandasDataFrame.get_column_names, PandasDataFrame.dataframe.
  split; [|split; [|split; [|split]]].
  - intros s. simpl. eauto.
  - intros H. simpl. destruct (validate_columns_repeated _ H) as [m ->].
    simpl. eauto.
  - intros H1 H2. simpl. destruct (validate_columns_not_str _ H1 H2) as [m ->].
    simpl. eauto.
  - intros H1 H2 H3. simpl.
    rewrite (proj2 (validate_columns_Ok names) (conj H1 H2)). simpl.
    unfold loc_columns, PandasDataFrame.dataframe.
    destruct (loc_data_absent _ _ H3) as [m ->]. simpl. eauto.
  - intros Hnd Hin.
    destruct (selected_frame D names HD Hnd Hin) as [arrs [HR Hall]].
    pose proof (Forall2_length_eq _ _ _ Hall) as Hlen.
    eexists. split; [exact HR|]. split; [|split].
    + unfold columns, wrap. simpl. now apply map_fst_combine.
    + reflexivity.
    + intros name Hname.
      destruct (Forall2_in_left _ _ _ Hall name Hname) as [a Ha].
      pose proof (Forall2_combine_in _ _ _ Hall _ _ Ha) as HaD.
      assert (Hs : is_str name = true).
      { rewrite Forall_forall in HstrD, Hin. apply HstrD. now apply Hin. }
      rewrite get_column_in with (a := a);
        [|unfold columns; simpl; now rewrite map_fst_combine|exact Hs|exact Ha].
      rewrite <- (wrap_dataframe D) at 2.
      now rewrite get_column_in with (a := a).
Qed.

(** [get_columns_by_name_outcome] on [{a: [1, 2], b: [3, 4]}]: the names
    [["b", "b"]], [["c"]] and [["b", "a"]]. *)
Lemma get_columns_by_name_outcome_witness :
  let D := wrap (frame_of 2 [named "a" (int64_array [1; 2]);
                             named "b" (int64_array [3; 4])]) in
  (exists m, PandasDataFrame.get_columns_by_name D (NamesList [LStr "b"; LStr "b"])
             = Raise (ValueError m))
  /\ (exists m, PandasDataFrame.get_columns_by_name D (NamesList [LStr "c"])
                = Raise (KeyError m))
  /\ (exists R, PandasDataFrame.get_columns_by_name D (NamesList [LStr "b"; LStr "a"])
                = Ok R
                /\ PandasDataFrame.get_column_names R = [LStr "b"; LStr "a"]).
Proof.
  intros D.
  assert (HD : constructed D).
  { exists (frame_of 2 [named "a" (int64_array [1; 2]);
                        named "b" (int64_array [3; 4])]). split; reflexivity. }
  split; [|split].
  - apply (get_columns_by_name_outcome D [LStr "b"; LStr "b"] HD).
    intros H. inversion H as [|? ? Hn _]. apply Hn. now left.
  - apply (get_columns_by_name_outcome D [LStr "c"] HD).
    + repeat constructor; simpl; intuition discriminate.
    + repeat constructor.
    + intros H. inversion H as [|? ? Hin _].
      simpl in Hin. intuition discriminate.
  - destruct (get_columns_by_name_outcome D [LStr "b"; LStr "a"] HD)
      as [_ [_ [_ [_ H]]]].
    assert (Hnd : NoDup [LStr "b"; LStr "a"])
      by (repeat constructor; simpl; intuition discriminate).
    assert (Hin : Forall (fun k => In k (PandasDataFrame.get_column_names D))
                         [LStr "b"; LStr "a"])
      by (repeat constructor; simpl; auto).
    destruct (H Hnd Hin) as [R [HR [Hn _]]].
    exists R. auto.
Defined.

Lemma loc_data_ext (d d' : DataFrame) (ks : list label) :
  (forall k, In k ks -> lookup_label d' k = lookup_label d k) ->
  loc_data d' ks = loc_data d ks.
Proof.
  induction ks as [|k ks IH]; intros H; [reflexivity|].
  simpl. rewrite (H k) by now left.
  rewrite IH by (intros k' Hk'; apply H; now right). reflexivity.
Qed.

Lemma loc_data_own (d : DataFrame) :
  NoDup (columns d) -> loc_data d (columns d) = Ok (df_data d).
Proof.
  intros Hnd.
  transitivity (Ok (A := list (label * Array))
                  (combine (columns d) (map snd (df_data d)))); [|f_equal].
  - apply loc_data_keys. unfold columns.
    assert (H : forall c, In c (df_data d) -> lookup_label d (fst c) = [snd c]).
    { intros [k a] Hc. destruct d as [data idx]. now apply lookup_label_in. }
    induction (df_data d) as [|c l IH]; simpl; constructor.
    + apply H. now left.
    + apply IH. intros c' Hc'. apply H. now right.
  - unfold columns. induction (df_data d) as [|[k a] l IH]; simpl; [|rewrite IH];
      reflexivity.
Qed.

(** X15: selecting all of a Dataframe's own column names, in its own
    order, gives the Dataframe back; and selecting [inner] from the
    selection of [outer] is selecting [inner] from the original, whenever
    [outer] is a list of labels of the frame that do not repeat and every
    name of [inner] is in [outer] (errors of [inner] included). *)
Theorem get_columns_by_name_compose (D : PandasDataFrame) (outer inner : list label) :
  constructed D ->
  PandasDataFrame.get_columns_by_name D
    (NamesList (PandasDataFrame.get_column_names D)) = Ok D
  /\ (NoDup outer ->
      Forall (fun k => In k (PandasDataFrame.get_column_names D)) outer ->
      Forall (fun k => In k outer) inner ->
      bind (PandasDataFrame.get_columns_by_name D (NamesList outer))
           (fun R => PandasDataFrame.get_columns_by_name R (NamesList inner))
      = PandasDataFrame.get_columns_by_name D (NamesList inner)).
Proof.
  intros HD. pose proof (constructed_labels D HD) as [HndD HstrD].
  unfold PandasDataFrame.get_column_names, PandasDataFrame.dataframe.
  split.
  - unfold PandasDataFrame.get_columns_by_name.
    rewrite (proj2 (validate_columns_Ok _) (conj HndD HstrD)). simpl.
    unfold loc_columns, PandasDataFrame.dataframe.
    rewrite (loc_data_own _ HndD). simpl.
    replace {| df_data := df_data (_dataframe D);
               df_index := df_index (_dataframe D) |} with (_dataframe D)
      by now destruct (_dataframe D).
    now apply init_idempotent.
  - intros Hnd Hin Hsub.
    destruct (selected_frame D outer HD Hnd Hin) as [arrs [-> Hall]].
    pose proof (Forall2_length_eq _ _ _ Hall) as Hlen.
    simpl. unfold PandasDataFrame.get_columns_by_name.
    destruct (PandasDataFrame._validate_columns inner); [|reflexivity].
    simpl. unfold loc_columns, PandasDataFrame.dataframe, wrap. simpl.
    rewrite (loc_data_ext (_dataframe D)); [reflexivity|].
    intros k Hk. rewrite Forall_forall in Hsub.
    destruct (Forall2_in_left _ _ _ Hall k (Hsub k Hk)) as [arr Ha].
    pose proof (Forall2_combine_in _ _ _ Hall _ _ Ha) as HaD.
    rewrite (lookup_label_in (combine outer arrs) _ k arr);
      [|now rewrite map_fst_combine|exact Ha].
    destruct (_dataframe D) as [data idx].
    symmetry. now apply lookup_label_in.
Qed.

(** [get_columns_by_name_compose] on [{a: [1], b: [2], c: [3]}]:
    [["c"]] out of [["c", "a"]]. *)
Lemma get_columns_by_name_compose_witness :
  let D := wrap (frame_of 1 [named "a" (int64_array [1]);
                             named "b" (int64_array [2]);
                             named "c" (int64_array [3])]) in
  bind (PandasDataFrame.get_columns_by_name D (NamesList [LStr "c"; LStr "a"]))
       (fun R => PandasDataFrame.get_columns_by_name R (NamesList [LStr "c"]))
  = PandasDataFrame.get_columns_by_name D (NamesList [LStr "c"]).
Proof.
  intros D.
  assert (HD : constructed D).
  { exists (frame_of 1 [named "a" (int64_array [1]);
                        named "b" (int64_array [2]);
                        named "c" (int64_array [3])]). split; reflexivity. }
  destruct (get_columns_by_name_compose D [LStr "c"; LStr "a"] [LStr "c"] HD)
    as [_ H].
  apply H.
  - repeat constructor; simpl; intuition discriminate.
  - repeat (apply Forall_cons || apply Forall_nil); simpl; auto.
  - repeat (apply Forall_cons || apply Forall_nil); simpl; auto.
Defined.

(** ** Rows selected by position *)

Lemma iloc_position_Some (n : nat) (i : Z) :
  - Z.of_nat n <= i < Z.of_nat n ->
  exists p, iloc_position n i = Some p /\ (p < n)%nat
            /\ Z.of_nat p = if i <? 0 then i + Z.of_nat n else i.
Proof.
  intros H. unfold iloc_position.
  destruct (i <? - Z.of_nat n) eqn:E1; [apply Z.ltb_lt in E1; lia|].
  destruct (Z.of_nat n <=? i) eqn:E2; [apply Z.leb_le in E2; lia|].
  simpl. eexists. split; [reflexivity|].
  destruct (i <? 0) eqn:E3; [apply Z.ltb_lt in E3 | apply Z.ltb_ge in E3]; lia.
Qed.

Lemma iloc_position_None (n : nat) (i : Z) :
  ~ (- Z.of_nat n <= i < Z.of_nat n) -> iloc_position n i = None.
Proof.
  intros H. unfold iloc_position.
  destruct (i <? - Z.of_nat n) eqn:E1; [reflexivity|].
  destruct (Z.of_nat n <=? i) eqn:E2; [reflexivity|].
  apply Z.ltb_ge in E1. apply Z.leb_gt in E2. lia.
Qed.

Lemma iloc_position_nonneg (n i : nat) :
  (i < n)%nat -> iloc_position n (Z.of_nat i) = Some i.
Proof.
  intros H. unfold iloc_position.
  destruct (Z.of_nat i <? - Z.of_nat n) eqn:E1; [apply Z.ltb_lt in E1; lia|].
  destruct (Z.of_nat n <=? Z.of_nat i) eqn:E2; [apply Z.leb_le in E2; lia|].
  simpl. destruct (Z.of_nat i <? 0) eqn:E3; [apply Z.ltb_lt in E3; lia|].
  now rewrite Nat2Z.id.
Qed.

Lemma iloc_positions_Ok (n : nat) (l : list Z) :
  Forall (fun i => - Z.of_nat n <= i < Z.of_nat n) l ->
  exists ps,
    iloc_positions n l = Ok ps
    /\ Forall2 (fun i p => iloc_position n i = Some p) l ps.
Proof.
  induction 1 as [|i l Hi _ [ps [IH1 IH2]]]; simpl.
  - exists []. split; [reflexivity | constructor].
  - destruct (iloc_position_Some n i Hi) as [p [Hp _]]. rewrite Hp, IH1. simpl.
    exists (p :: ps). split; [reflexivity | now constructor].
Qed.

Lemma iloc_positions_out_of_bounds (n : nat) (l : list Z) :
  ~ Forall (fun i => - Z.of_nat n <= i < Z.of_nat n) l ->
  exists m, iloc_positions n l = Raise (IndexError m).
Proof.
  induction l as [|i l IH]; intros H.
  - exfalso. apply H. constructor.
  - simpl. destruct (iloc_position n i) as [p|] eqn:E; [|eauto].
    destruct IH as [m ->]; [|simpl; eauto].
    intros Hl. apply H. constructor; [|exact Hl].
    destruct (Z_lt_dec i (- Z.of_nat n)) as [Hlt|Hge];
      [rewrite iloc_position_None in E by lia; discriminate|].
    destruct (Z_lt_dec i (Z.of_nat n)) as [Hlt|Hge'];
      [lia | rewrite iloc_position_None in E by lia; discriminate].
Qed.

Lemma take_columns (d : DataFrame) (ps : list nat) :
  columns (df_take d ps) = columns d.
Proof. unfold columns, df_take. simpl. rewrite map_map. reflexivity. Qed.

Lemma take_len (d : DataFrame) (ps : list nat) :
  df_len (df_take d ps) = length ps.
Proof.
  unfold df_len, df_take. simpl.
  destruct (df_index d); simpl; now rewrite length_map.
Qed.

(** The constructor on a gather of a valid frame. *)
Lemma init_take (D : PandasDataFrame) (ps : list nat) :
  constructed D ->
  PandasDataFrame.__init__ (df_take (_dataframe D) ps)
  = Ok (wrap {| df_data := map (fun c => (fst c, Array_take (snd c) ps))
                               (df_data (_dataframe D));
                df_index := RangeIndex 0 (Z.of_nat (length ps)) 1 |}).
Proof.
  intros HD. pose proof (constructed_labels D HD) as Hlab.
  unfold PandasDataFrame.__init__. rewrite take_columns.
  rewrite (proj2 (validate_columns_Ok _) Hlab). simpl.
  unfold reset_index_drop. rewrite take_len.
  destruct (df_index (_dataframe D)); reflexivity.
Qed.

Lemma entry_at (d : DataFrame) (name : label) (a : Array) (row : Z) (p : nat) :
  NoDup (columns d) -> is_str name = true -> In (name, a) (df_data d) ->
  iloc_position (length (a_values a)) row = Some p ->
  entry (wrap d) name row = Ok (nth p (a_values a) CNone).
Proof.
  intros Hnd Hs Hin Hp. unfold entry.
  rewrite (get_column_in d name a Hnd Hs Hin). simpl.
  unfold PandasColumn.__getitem__, Series_iloc, Series_len, s_values. simpl.
  unfold iloc_position in Hp.
  destruct ((row <? - Z.of_nat (length (a_values a)))
            || (Z.of_nat (length (a_values a)) <=? row)) eqn:E; [discriminate|].
  inversion Hp as [Hp']. clear Hp.
  apply orb_false_iff in E as [E1 E2].
  apply Z.ltb_ge in E1. apply Z.leb_gt in E2.
  assert (Hlt : (p < length (a_values a))%nat).
  { rewrite <- Hp'.
    destruct (row <? 0) eqn:E3; [apply Z.ltb_lt in E3 | apply Z.ltb_ge in E3]; lia. }
  rewrite Hp'.
  destruct (nth_error (a_values a) p) as [c|] eqn:En.
  - f_equal. symmetry. now apply nth_error_nth.
  - apply nth_error_None in En. lia.
Qed.

Lemma in_taken (data : list (label * Array)) (ps : list nat)
  (name : label) (a : Array) :
  In (name, a) data ->
  In (name, Array_take a ps) (map (fun c => (fst c, Array_take (snd c) ps)) data).
Proof.
  intros H. apply in_map_iff. exists (name, a). auto.
Qed.

Lemma Forall2_nth {A B} (P : A -> B -> Prop) (l : list A) (l' : list B)
  (da : A) (db : B) :
  Forall2 P l l' -> forall j, (j < length l)%nat -> P (nth j l da) (nth j l' db).
Proof.
  induction 1; simpl; intros j Hj; [lia|].
  destruct j; [assumption | apply IHForall2; lia].
Qed.

Lemma constructed_column (D : PandasDataFrame) (name : label) :
  constructed D -> In name (columns (_dataframe D)) ->
  exists a, In (name, a) (df_data (_dataframe D))
            /\ length (a_values a) = df_len (_dataframe D)
            /\ is_str name = true.
Proof.
  intros HD Hin. pose proof (constructed_labels D HD) as [_ Hstr].
  unfold columns in Hin. apply in_map_iff in Hin as [[k a] [E Hin]].
  simpl in E. subst k. exists a. split; [exact Hin|]. split.
  - apply (wf_length _ name a (constructed_wf D HD) Hin).
  - rewrite Forall_forall in Hstr. apply Hstr.
    apply in_map_iff. exists (name, a). auto.
Qed.

(** The value at [row] of a gather is the value at the gathered
    position. *)
Lemma entry_taken (D : PandasDataFrame) (ps : list nat) (name : label) (j : nat) :
  constructed D -> In name (columns (_dataframe D)) ->
  (j < length ps)%nat ->
  Forall (fun p => (p < df_len (_dataframe D))%nat) ps ->
  entry (wrap {| df_data := map (fun c => (fst c, Array_take (snd c) ps))
                                (df_data (_dataframe D));
                 df_index := RangeIndex 0 (Z.of_nat (length ps)) 1 |})
        name (Z.of_nat j)
  = entry D name (Z.of_nat (nth j ps 0%nat)).
Proof.
  intros HD Hin Hj Hps. pose proof (constructed_labels D HD) as [Hnd _].
  destruct (constructed_column D name HD Hin) as [a [Ha [Hlen Hs]]].
  rewrite (entry_at _ name (Array_take a ps) (Z.of_nat j) j).
  - rewrite <- (wrap_dataframe D) at 1.
    rewrite (entry_at _ name a (Z.of_nat (nth j ps 0%nat)) (nth j ps 0%nat));
      auto.
    + simpl. f_equal.
      rewrite nth_indep with (d' := nth 0%nat (a_values a) CNone)
        by now rewrite length_map.
      now rewrite (map_nth (fun k => nth k (a_values a) CNone)).
    + apply iloc_position_nonneg. rewrite Hlen.
      rewrite Forall_forall in Hps. apply Hps. now apply nth_In.
  - unfold columns. simpl. rewrite map_map. exact Hnd.
  - exact Hs.
  - simpl. now apply in_taken.
  - apply iloc_position_nonneg. simpl. now rewrite length_map.
Qed.

(** X16: [get_rows] raises TypeError for an object that is not a
    sequence and IndexError for a list with an integer outside
    [[-N, N)], [N] the number of rows; for a list [l] of integers in
    range it returns a Dataframe with the same column names and
    [len(l)] rows whose row [j] is the row [l[j]] of the original (a
    negative [l[j]] counting from the end): the two hold the same value
    in every column. *)
Theorem get_rows_outcome (D : PandasDataFrame) (l : list Z) :
  constructed D ->
  (exists m, PandasDataFrame.get_rows D IndicesOther = Raise (TypeError m))
  /\ (~ Forall (fun i => - Z.of_nat (PandasDataFrame.__len__ D) <= i
                         < Z.of_nat (PandasDataFrame.__len__ D)) l ->
      exists m, PandasDataFrame.get_rows D (IndicesList l) = Raise (IndexError m))
  /\ (Forall (fun i => - Z.of_nat (PandasDataFrame.__len__ D) <= i
                       < Z.of_nat (PandasDataFrame.__len__ D)) l ->
      exists R,
        PandasDataFrame.get_rows D (IndicesList l) = Ok R
        /\ PandasDataFrame.get_column_names R = PandasDataFrame.get_column_names D
        /\ PandasDataFrame.__len__ R = length l
        /\ forall name j,
             In name (PandasDataFrame.get_column_names D) ->
             (j < length l)%nat ->
             entry R name (Z.of_nat j) = entry D name (nth j l 0)).
Proof.
  intros HD.
  unfold PandasDataFrame.__len__, PandasDataFrame.shape, shape,
    PandasDataFrame.get_column_names, PandasDataFrame.dataframe. simpl fst.
  split; [|split].
  - simpl. eauto.
  - intros H. simpl. unfold df_iloc_rows, PandasDataFrame.dataframe.
    destruct (iloc_positions_out_of_bounds _ _ H) as [m ->]. simpl. eauto.
  - intros H. simpl. unfold df_iloc_rows, PandasDataFrame.dataframe.
    destruct (iloc_positions_Ok _ _ H) as [ps [-> Hps]]. simpl.
    pose proof (Forall2_length_eq _ _ _ Hps) as Hlen.
    rewrite (init_take D ps HD).
    eexists. split; [reflexivity|]. split; [|split].
    + unfold columns, wrap. simpl. now rewrite map_map.
    + unfold wrap, df_len. simpl. rewrite range_len_from_0. auto.
    + intros name j Hname Hj.
      assert (Hin : Forall (fun p => (p < df_len (_dataframe D))%nat) ps).
      { clear - H Hps. induction Hps as [|i p l ps Hp _ IH]; constructor.
        - inversion H as [|? ? Hi _]; subst.
          destruct (iloc_position_Some _ _ Hi) as [p' [Hp' [Hlt _]]].
          congruence.
        - apply IH. now inversion H. }
      rewrite entry_taken; auto; [|lia].
      pose proof (Forall2_nth _ _ _ 0 0%nat Hps j Hj) as Hp.
      destruct (constructed_column D name HD Hname) as [a [Ha [Hla Hs]]].
      pose proof (constructed_labels D HD) as [Hnd _].
      rewrite <- (wrap_dataframe D).
      rewrite (entry_at _ name a (nth j l 0) (nth j ps 0%nat)); auto;
        [|now rewrite Hla].
      apply entry_at; auto.
      apply iloc_position_nonneg. rewrite Hla.
      rewrite Forall_forall in Hin. apply Hin. apply nth_In. lia.
Qed.

(** [get_rows_outcome] on [{a: [10, 20, 30]}]: the indices [[3]] and
    [[-1, 0]]. *)
Lemma get_rows_outcome_witness :
  let D := wrap (frame_of 3 [named "a" (int64_array [10; 20; 30])]) in
  (exists m, PandasDataFrame.get_rows D (IndicesList [3]) = Raise (IndexError m))
  /\ (exists R, PandasDataFrame.get_rows D (IndicesList [-1; 0]) = Ok R
                /\ entry R (LStr "a") 0 = entry D (LStr "a") (-1)).
Proof.
  intros D.
  assert (HD : constructed D).
  { exists (frame_of 3 [named "a" (int64_array [10; 20; 30])]).
    split; reflexivity. }
  split.
  - apply (get_rows_outcome D [3] HD).
    intros H. inversion H as [|? ? Hi _]. cbv in Hi. destruct Hi as [_ Hi].
    discriminate Hi.
  - destruct (get_rows_outcome D [-1; 0] HD) as [_ [_ H]].
    destruct H as [R [HR [_ [_ He]]]].
    + repeat (apply Forall_cons || apply Forall_nil); cbv;
        (split; [discriminate | reflexivity]).
    + exists R. split; [exact HR|].
      apply (He (LStr "a") 0%nat); [now left | simpl; lia].
Defined.

Lemma iloc_positions_map {A} (n : nat) (f : A -> Z) (g : A -> nat) (xs : list A) :
  (forall x, In x xs -> iloc_position n (f x) = Some (g x)) ->
  iloc_positions n (map f xs) = Ok (map g xs).
Proof.
  induction xs as [|x xs IH]; intros H; [reflexivity|].
  simpl. rewrite (H x) by now left.
  rewrite IH by (intros y Hy; apply H; now right). reflexivity.
Qed.

Lemma taken_constructed (D : PandasDataFrame) (ps : list nat) :
  constructed D ->
  constructed
    (wrap {| df_data := map (fun c => (fst c, Array_take (snd c) ps))
                            (df_data (_dataframe D));
             df_index := RangeIndex 0 (Z.of_nat (length ps)) 1 |}).
Proof.
  intros HD. exists (df_take (_dataframe D) ps). split.
  - unfold df_wf. rewrite take_len. apply forallb_forall.
    intros c Hc. unfold df_take in Hc. simpl in Hc.
    apply in_map_iff in Hc as [c' [<- _]]. simpl. rewrite length_map.
    apply Nat.eqb_refl.
  - now apply init_take.
Qed.

Lemma take_take (a : Array) (ps qs : list nat) :
  Forall (fun q => (q < length ps)%nat) qs ->
  Array_take (Array_take a ps) qs
  = Array_take a (map (fun q => nth q ps 0%nat) qs).
Proof.
  intros H. unfold Array_take. simpl. f_equal. rewrite map_map.
  apply map_ext_in. intros q Hq. rewrite Forall_forall in H.
  rewrite nth_indep with (d' := nth 0%nat (a_values a) CNone)
    by (rewrite length_map; now apply H).
  now rewrite (map_nth (fun k => nth k (a_values a) CNone)).
Qed.

Lemma take_all (a : Array) :
  Array_take a (seq 0 (length (a_values a))) = a.
Proof.
  unfold Array_take. rewrite map_nth_seq. now destruct a.
Qed.

(** X17: [get_rows] with the positions [0 .. N-1] keeps every column as
    it is; and a gather of a gather is one gather: taking the rows
    [inner] of the rows [outer] is taking the rows [outer[i]] for [i] in
    [inner], for [outer] in range for the frame and [inner] a list of
    positions of [outer]. *)
Theorem get_rows_compose (D : PandasDataFrame) (outer inner : list Z) :
  constructed D ->
  PandasDataFrame.get_rows D
    (IndicesList (map Z.of_nat (seq 0 (PandasDataFrame.__len__ D))))
  = Ok (wrap (frame_of (PandasDataFrame.__len__ D)
                       (df_data (PandasDataFrame.dataframe D))))
  /\ (Forall (fun i => - Z.of_nat (PandasDataFrame.__len__ D) <= i
                       < Z.of_nat (PandasDataFrame.__len__ D)) outer ->
      Forall (fun i => 0 <= i < Z.of_nat (length outer)) inner ->
      bind (PandasDataFrame.get_rows D (IndicesList outer))
           (fun R => PandasDataFrame.get_rows R (IndicesList inner))
      = PandasDataFrame.get_rows D
          (IndicesList (map (fun i => nth (Z.to_nat i) outer 0) inner))).
Proof.
  intros HD.
  unfold PandasDataFrame.__len__, PandasDataFrame.shape, shape,
    PandasDataFrame.dataframe. simpl fst.
  split.
  - simpl. unfold df_iloc_rows, PandasDataFrame.dataframe.
    rewrite (iloc_positions_map _ Z.of_nat (fun i => i))
      by (intros i Hi; apply in_seq in Hi; apply iloc_position_nonneg; lia).
    rewrite map_id. simpl. rewrite (init_take D _ HD).
    rewrite length_seq. unfold frame_of. do 3 f_equal.
    rewrite <- (map_id (df_data (_dataframe D))) at 2.
    apply map_ext_in. intros [k a] Hin. simpl. f_equal.
    rewrite <- (wf_length _ k a (constructed_wf D HD) Hin). apply take_all.
  - intros Ho Hi. simpl. unfold df_iloc_rows, PandasDataFrame.dataframe.
    destruct (iloc_positions_Ok _ _ Ho) as [ps [-> Hps]]. simpl.
    pose proof (Forall2_length_eq _ _ _ Hps) as Hlen.
    rewrite (init_take D ps HD). simpl.
    unfold df_iloc_rows, PandasDataFrame.dataframe.
    rewrite <- (map_id inner) at 1.
    rewrite (iloc_positions_map _ (fun i => i) Z.to_nat).
    2:{ intros i Hin. rewrite Forall_forall in Hi. specialize (Hi i Hin).
        rewrite <- (Z2Nat.id i) at 1 by lia.
        apply iloc_position_nonneg. unfold df_len, wrap. simpl.
        rewrite range_len_from_0. lia. }
    simpl. rewrite (init_take _ _ (taken_constructed D ps HD)).
    rewrite (iloc_positions_map _ _ (fun i => nth (Z.to_nat i) ps 0%nat)).
    2:{ intros i Hin. rewrite Forall_forall in Hi. specialize (Hi i Hin).
        apply (Forall2_nth _ _ _ 0 0%nat Hps). lia. }
    simpl. rewrite (init_take D _ HD). rewrite !length_map.
    do 3 f_equal. unfold wrap. simpl. rewrite map_map. apply map_ext.
    intros [k a]. simpl. f_equal. rewrite take_take.
    + now rewrite map_map.
    + apply Forall_forall. intros q Hq. apply in_map_iff in Hq as [i [<- Hin]].
      rewrite Forall_forall in Hi. specialize (Hi i Hin). lia.
Qed.

(** [get_rows_compose] on [{a: [10, 20, 30]}]: the rows [[1, 0]] of the
    rows [[-1, 0]] are the rows [[0, -1]]. *)
Lemma get_rows_compose_witness :
  let D := wrap (frame_of 3 [named "a" (int64_array [10; 20; 30])]) in
  bind (PandasDataFrame.get_rows D (IndicesList [-1; 0]))
       (fun R => PandasDataFrame.get_rows R (IndicesList [1; 0]))
  = PandasDataFrame.get_rows D (IndicesList [0; -1]).
Proof.
  intros D.
  assert (HD : constructed D).
  { exists (frame_of 3 [named "a" (int64_array [10; 20; 30])]).
    split; reflexivity. }
  destruct (get_rows_compose D [-1; 0] [1; 0] HD) as [_ H].
  apply H.
  - repeat (apply Forall_cons || apply Forall_nil); cbv;
      (split; [discriminate | reflexivity]).
  - repeat (apply Forall_cons || apply Forall_nil); cbv;
      (split; [discriminate | reflexivity]).
Defined.

(** ** Rows selected by a slice *)

Lemma range_len_positive (s e k : Z) (i : nat) :
  0 < k -> (i < range_len s e k)%nat -> s + Z.of_nat i * k < e.
Proof.
  intros Hk Hi. unfold range_len in Hi.
  destruct (0 <? k) eqn:E; [|apply Z.ltb_ge in E; lia].
  destruct (s <? e) eqn:E'; [apply Z.ltb_lt in E' | simpl in Hi; lia].
  assert (H : Z.of_nat i <= (e - s - 1) / k).
  { pose proof (Z.div_pos (e - s - 1) k). lia. }
  pose proof (Z.mul_div_le (e - s - 1) k Hk). nia.
Qed.

Lemma range_len_negative (s e k : Z) (i : nat) :
  k < 0 -> (i < range_len s e k)%nat -> e < s + Z.of_nat i * k.
Proof.
  intros Hk Hi. unfold range_len in Hi.
  destruct (0 <? k) eqn:E; [apply Z.ltb_lt in E; lia|].
  destruct (k <? 0) eqn:E0; [|apply Z.ltb_ge in E0; lia].
  destruct (e <? s) eqn:E'; [apply Z.ltb_lt in E' | simpl in Hi; lia].
  assert (H : Z.of_nat i <= (s - e - 1) / (- k)).
  { pose proof (Z.div_pos (s - e - 1) (- k)). lia. }
  assert (Hk' : 0 < - k) by lia.
  pose proof (Z.mul_div_le (s - e - 1) (- k) Hk'). nia.
Qed.

Lemma slice_clip_bounds (n lo hi k : Z) :
  lo <= hi -> n - 1 <= hi -> lo <= 0 -> lo <= slice_clip n lo hi k <= hi.
Proof.
  intros H1 H2 H3. unfold slice_clip.
  destruct (k <? 0) eqn:E; [apply Z.ltb_lt in E | apply Z.ltb_ge in E].
  - destruct (k + n <? lo) eqn:E'; [apply Z.ltb_lt in E' | apply Z.ltb_ge in E'];
      lia.
  - destruct (hi <? k) eqn:E'; [apply Z.ltb_lt in E' | apply Z.ltb_ge in E']; lia.
Qed.

(** The first and the last bound of Python for a slice over [n] rows. *)
Lemma slice_positions_Ok (n : nat) (start stop step : Z) :
  step <> 0 ->
  exists s e,
    s = slice_clip (Z.of_nat n) (if 0 <? step then 0 else -1)
                   (if 0 <? step then Z.of_nat n else Z.of_nat n - 1) start
    /\ e = slice_clip (Z.of_nat n) (if 0 <? step then 0 else -1)
                      (if 0 <? step then Z.of_nat n else Z.of_nat n - 1) stop
    /\ slice_positions n start stop step
       = Ok (map (fun i => Z.to_nat (s + Z.of_nat i * step))
                 (seq 0 (range_len s e step)))
    /\ forall i, (i < range_len s e step)%nat ->
                 0 <= s + Z.of_nat i * step < Z.of_nat n.
Proof.
  intros Hstep. eexists. eexists. split; [reflexivity|]. split; [reflexivity|].
  split.
  - unfold slice_positions. destruct (step =? 0) eqn:E;
      [apply Z.eqb_eq in E; contradiction|].
    cbv zeta. unfold range_values. now rewrite map_map.
  - intros i Hi.
    destruct (0 <? step) eqn:E; [apply Z.ltb_lt in E | apply Z.ltb_ge in E].
    + pose proof (range_len_positive _ _ _ _ E Hi) as Hlt.
      pose proof (slice_clip_bounds (Z.of_nat n) 0 (Z.of_nat n) start
                    ltac:(lia) ltac:(lia) ltac:(lia)) as Hs.
      pose proof (slice_clip_bounds (Z.of_nat n) 0 (Z.of_nat n) stop
                    ltac:(lia) ltac:(lia) ltac:(lia)) as He.
      nia.
    + assert (E' : step < 0) by lia.
      pose proof (range_len_negative _ _ _ _ E' Hi) as Hlt.
      destruct n as [|n'].
      * exfalso. revert Hi. unfold range_len, slice_clip. simpl.
        destruct (0 <? step) eqn:E0; [apply Z.ltb_lt in E0; lia|].
        destruct (step <? 0); [|lia].
        repeat match goal with
               | |- context [if ?b then _ else _] => destruct b eqn:?
               end; simpl; try lia;
          repeat match goal with
                 | H : (_ <? _) = true |- _ => apply Z.ltb_lt in H
                 | H : (_ <? _) = false |- _ => apply Z.ltb_ge in H
                 end; lia.
      * pose proof (slice_clip_bounds (Z.of_nat (S n')) (-1)
                      (Z.of_nat (S n') - 1) start
                      ltac:(lia) ltac:(lia) ltac:(lia)) as Hs.
        pose proof (slice_clip_bounds (Z.of_nat (S n')) (-1)
                      (Z.of_nat (S n') - 1) stop
                      ltac:(lia) ltac:(lia) ltac:(lia)) as He.
        nia.
Qed.

Lemma sliced_frame (D : PandasDataFrame) (start stop step : Z) :
  constructed D -> step <> 0 ->
  exists s e,
    s = slice_clip (Z.of_nat (df_len (_dataframe D)))
          (if 0 <? step then 0 else -1)
          (if 0 <? step then Z.of_nat (df_len (_dataframe D))
           else Z.of_nat (df_len (_dataframe D)) - 1) start
    /\ e = slice_clip (Z.of_nat (df_len (_dataframe D)))
             (if 0 <? step then 0 else -1)
             (if 0 <? step then Z.of_nat (df_len (_dataframe D))
              else Z.of_nat (df_len (_dataframe D)) - 1) stop
    /\ exists R,
         PandasDataFrame.slice_rows D start stop step = Ok R
         /\ PandasDataFrame.get_column_names R = PandasDataFrame.get_column_names D
         /\ PandasDataFrame.__len__ R = range_len s e step
         /\ forall name j,
              In name (PandasDataFrame.get_column_names D) ->
              (j < range_len s e step)%nat ->
              entry R name (Z.of_nat j) = entry D name (s + Z.of_nat j * step).
Proof.
  intros HD Hstep.
  destruct (slice_positions_Ok (df_len (_dataframe D)) start stop step Hstep)
    as [s [e [Hs [He [Hps Hin]]]]].
  exists s, e. split; [exact Hs|]. split; [exact He|].
  unfold PandasDataFrame.slice_rows, df_iloc_slice, PandasDataFrame.dataframe.
  rewrite Hps. simpl. rewrite (init_take D _ HD).
  set (ps := map (fun i => Z.to_nat (s + Z.of_nat i * step))
                 (seq 0 (range_len s e step))).
  assert (Hlen : length ps = range_len s e step)
    by (unfold ps; now rewrite length_map, length_seq).
  eexists. split; [reflexivity|].
  unfold PandasDataFrame.get_column_names, PandasDataFrame.__len__,
    PandasDataFrame.shape, shape, PandasDataFrame.dataframe.
  split; [|split].
  - unfold columns, wrap. simpl. now rewrite map_map.
  - unfold wrap, df_len. simpl. now rewrite range_len_from_0.
  - intros name j Hname Hj.
    rewrite entry_taken; auto.
    + f_equal. unfold ps.
      rewrite nth_indep with (d' := Z.to_nat (s + Z.of_nat 0 * step))
        by now rewrite length_map, length_seq.
      rewrite (map_nth (fun i => Z.to_nat (s + Z.of_nat i * step))).
      rewrite seq_nth by exact Hj. simpl (0 + j)%nat.
      rewrite Z2Nat.id; [reflexivity|]. apply Hin. exact Hj.
    + now rewrite Hlen.
    + apply Forall_forall. intros p Hp. apply in_map_iff in Hp as [i [<- Hi]].
      apply in_seq in Hi. specialize (Hin i ltac:(lia)). lia.
Qed.

(** X18: [slice_rows] raises ValueError for the step 0.  For a positive
    step and bounds with [0 <= start <= N] and [0 <= stop <= N] it
    returns the rows [start, start + step, ...] below [stop], in that
    order, under the same column names; bounds outside that range are
    first clipped as Python does (a negative bound counts from the end,
    then both are clamped to [[0, N]]); and the step [-1] from [N - 1]
    down to [-N - 1] gives the rows in reverse order. *)
Theorem slice_rows_outcome (D : PandasDataFrame) (start stop step : Z) :
  constructed D ->
  let N := Z.of_nat (PandasDataFrame.__len__ D) in
  let clamp := fun i => Z.max 0 (Z.min N (if i <? 0 then i + N else i)) in
  (exists m, PandasDataFrame.slice_rows D start stop 0 = Raise (ValueError m))
  /\ (0 < step -> 0 <= start <= N -> 0 <= stop <= N ->
      exists R,
        PandasDataFrame.slice_rows D start stop step = Ok R
        /\ PandasDataFrame.get_column_names R = PandasDataFrame.get_column_names D
        /\ PandasDataFrame.__len__ R = range_len start stop step
        /\ forall name j,
             In name (PandasDataFrame.get_column_names D) ->
             (j < range_len start stop step)%nat ->
             entry R name (Z.of_nat j)
             = entry D name (start + Z.of_nat j * step))
  /\ (0 < step ->
      PandasDataFrame.slice_rows D start stop step
      = PandasDataFrame.slice_rows D (clamp start) (clamp stop) step)
  /\ (exists R,
        PandasDataFrame.slice_rows D (N - 1) (- N - 1) (-1) = Ok R
        /\ PandasDataFrame.get_column_names R = PandasDataFrame.get_column_names D
        /\ PandasDataFrame.__len__ R = PandasDataFrame.__len__ D
        /\ forall name j,
             In name (PandasDataFrame.get_column_names D) ->
             (j < PandasDataFrame.__len__ D)%nat ->
             entry R name (Z.of_nat j) = entry D name (N - 1 - Z.of_nat j)).
Proof.
  intros HD N clamp.
  assert (HN : N = Z.of_nat (df_len (_dataframe D))) by reflexivity.
  split; [|split; [|split]].
  - unfold PandasDataFrame.slice_rows, df_iloc_slice, slice_positions. simpl.
    eauto.
  - intros Hstep Hs He.
    destruct (sliced_frame D start stop step HD ltac:(lia))
      as [s [e [Es [Ee HR]]]].
    assert (Hpos : (0 <? step) = true) by (apply Z.ltb_lt; lia).
    rewrite Hpos, <- HN in Es, Ee.
    assert (Es' : s = start).
    { rewrite Es. unfold slice_clip.
      destruct (start <? 0) eqn:E1; [apply Z.ltb_lt in E1; lia|].
      destruct (N <? start) eqn:E2; [apply Z.ltb_lt in E2; lia | reflexivity]. }
    assert (Ee' : e = stop).
    { rewrite Ee. unfold slice_clip.
      destruct (stop <? 0) eqn:E1; [apply Z.ltb_lt in E1; lia|].
      destruct (N <? stop) eqn:E2; [apply Z.ltb_lt in E2; lia | reflexivity]. }
    rewrite Es', Ee' in HR. exact HR.
  - intros Hstep.
    unfold PandasDataFrame.slice_rows, df_iloc_slice, slice_positions,
      PandasDataFrame.dataframe.
    destruct (step =? 0) eqn:E0; [reflexivity|]. cbv zeta.
    assert (Hpos : (0 <? step) = true) by (apply Z.ltb_lt; lia).
    rewrite Hpos, <- HN.
    assert (Hc : forall k, slice_clip N 0 N (clamp k) = slice_clip N 0 N k).
    { intros k. unfold slice_clip, clamp.
      assert (0 <= N) by (rewrite HN; lia).
      destruct (k <? 0) eqn:E1; [apply Z.ltb_lt in E1 | apply Z.ltb_ge in E1].
      - destruct (k + N <? 0) eqn:E2;
          [apply Z.ltb_lt in E2 | apply Z.ltb_ge in E2].
        + rewrite Z.max_l by lia. simpl.
          destruct (N <? 0) eqn:E3; [apply Z.ltb_lt in E3; lia | reflexivity].
        + rewrite Z.max_r by lia. rewrite Z.min_r by lia.
          destruct (k + N <? 0) eqn:E3; [apply Z.ltb_lt in E3; lia|].
          destruct (N <? k + N) eqn:E4; [apply Z.ltb_lt in E4; lia | reflexivity].
      - destruct (N <? k) eqn:E2;
          [apply Z.ltb_lt in E2 | apply Z.ltb_ge in E2].
        + rewrite Z.min_l by lia. rewrite Z.max_r by lia.
          destruct (N <? 0) eqn:E3; [apply Z.ltb_lt in E3; lia|].
          destruct (N <? N) eqn:E4; [apply Z.ltb_lt in E4; lia | reflexivity].
        + rewrite Z.min_r by lia. rewrite Z.max_r by lia.
          destruct (k <? 0) eqn:E3; [apply Z.ltb_lt in E3; lia|].
          destruct (N <? k) eqn:E4; [apply Z.ltb_lt in E4; lia | reflexivity]. }
    now rewrite !Hc.
  - destruct (sliced_frame D (N - 1) (- N - 1) (-1) HD ltac:(lia))
      as [s [e [Es [Ee HR]]]].
    change (0 <? -1) with false in Es, Ee. cbv iota in Es, Ee.
    rewrite <- !HN in Es, Ee.
    assert (H0 : 0 <= N) by (rewrite HN; lia).
    assert (Es' : s = N - 1).
    { rewrite Es. unfold slice_clip.
      destruct (N - 1 <? 0) eqn:E1; [apply Z.ltb_lt in E1 | apply Z.ltb_ge in E1].
      - destruct (N - 1 + N <? -1) eqn:E2;
          [apply Z.ltb_lt in E2 | apply Z.ltb_ge in E2]; lia.
      - destruct (N - 1 <? N - 1) eqn:E2; [apply Z.ltb_lt in E2; lia | reflexivity]. }
    assert (Ee' : e = -1).
    { rewrite Ee. unfold slice_clip.
      destruct (- N - 1 <? 0) eqn:E1; [|apply Z.ltb_ge in E1; lia].
      destruct (- N - 1 + N <? -1) eqn:E2;
        [apply Z.ltb_lt in E2 | apply Z.ltb_ge in E2]; lia. }
    assert (Hlen : range_len s e (-1) = PandasDataFrame.__len__ D).
    { rewrite Es', Ee'. unfold range_len.
      change (0 <? -1) with false. change (-1 <? 0) with true. cbv iota.
      destruct (-1 <? N - 1) eqn:E1; [apply Z.ltb_lt in E1 | apply Z.ltb_ge in E1].
      - simpl (- -1). rewrite Z.div_1_r. unfold N. lia.
      - assert (N = 0) by lia. unfold N in *. lia. }
    destruct HR as [R [HR [Hn [Hl He]]]].
    exists R. split; [exact HR|]. split; [exact Hn|]. split; [congruence|].
    intros name j Hname Hj. rewrite He; [|exact Hname|now rewrite Hlen].
    f_equal. rewrite Es'. lia.
Qed.

(** [slice_rows_outcome] on [{a: [10, 20, 30, 40]}]: the slice [1:3:1]
    has 2 rows, and the slice [-3:9:1] is the slice [1:4:1]. *)
Lemma slice_rows_outcome_witness :
  let D := wrap (frame_of 4 [named "a" (int64_array [10; 20; 30; 40])]) in
  (exists R, PandasDataFrame.slice_rows D 1 3 1 = Ok R
             /\ PandasDataFrame.__len__ R = 2%nat)
  /\ PandasDataFrame.slice_rows D (-3) 9 1 = PandasDataFrame.slice_rows D 1 4 1.
Proof.
  intros D.
  assert (HD : constructed D).
  { exists (frame_of 4 [named "a" (int64_array [10; 20; 30; 40])]).
    split; reflexivity. }
  split.
  - destruct (slice_rows_outcome D 1 3 1 HD) as [_ [H _]].
    destruct H as [R [HR [_ [Hl _]]]]; [lia | cbv; intuition discriminate
                                       | cbv; intuition discriminate |].
    exists R. split; [exact HR | exact Hl].
  - destruct (slice_rows_outcome D (-3) 9 1 HD) as [_ [_ [H _]]].
    apply H. lia.
Defined.

(** ** Rows selected by a mask *)

Lemma filter_map_comm {A B} (f : B -> bool) (g : A -> B) (l : list A) :
  filter f (map g l) = map g (filter (fun x => f (g x)) l).
Proof.
  induction l as [|x l IH]; simpl; [reflexivity|].
  destruct (f (g x)); simpl; now rewrite IH.
Qed.

Lemma filter_by_position {A B} (p : B -> bool) (d : A) (d' : B)
  (l : list A) (m : list B) :
  length l = length m ->
  map (fun k => nth k l d) (filter (fun i => p (nth i m d')) (seq 0 (length l)))
  = map fst (filter (fun x => p (snd x)) (combine l m)).
Proof.
  revert m. induction l as [|x l IH]; intros [|y m] Hlen; simpl in Hlen;
    try discriminate; [reflexivity|].
  change (seq 0 (length (x :: l))) with (0%nat :: seq 1 (length l)).
  rewrite <- seq_shift. simpl filter.
  rewrite filter_map_comm.
  specialize (IH m ltac:(lia)). simpl in IH.
  destruct (p y); simpl; rewrite map_map; simpl; now rewrite IH.
Qed.

Lemma count_by_position {B} (p : B -> bool) (d' : B) (m : list B) :
  length (filter (fun i => p (nth i m d')) (seq 0 (length m)))
  = length (filter p m).
Proof.
  induction m as [|y m IH]; [reflexivity|].
  change (seq 0 (length (y :: m))) with (0%nat :: seq 1 (length m)).
  rewrite <- seq_shift. simpl filter.
  rewrite filter_map_comm. simpl.
  destruct (p y); simpl; rewrite length_map; now rewrite IH.
Qed.

Lemma where_all (a : Array) (m : list cell) :
  length (a_values a) = length m -> Forall (fun c => c = CBool true) m ->
  Array_where a m = a.
Proof.
  intros Hlen Hall. unfold Array_where. destruct a as [dt vals]. simpl in *.
  f_equal. revert m Hlen Hall.
  induction vals as [|v vals IH]; intros [|y m] Hlen Hall; simpl in *;
    try discriminate; [reflexivity|].
  inversion Hall as [|? ? Hy Hm]; subst. simpl. f_equal. apply IH; [lia | exact Hm].
Qed.

Lemma take_where (a : Array) (mask : Series) :
  length (a_values a) = length (s_values mask) ->
  Array_take a (mask_positions (length (a_values a)) mask)
  = Array_where a (s_values mask).
Proof.
  intros Hlen. unfold Array_take, Array_where, mask_positions. f_equal.
  apply (filter_by_position selects CNone CNone _ _ Hlen).
Qed.

(** X19: [get_rows_by_mask] raises AssertionError when the mask is not
    on the Dataframe's index: when its index has other entries, or is not
    an index of row positions without a name (a RangeIndex or an unnamed
    int64 Index).  For a bool mask on that index (numpy or
    nullable) it returns a Dataframe with the same column names whose
    columns hold, in the original order, exactly the values at the rows
    where the mask is [True] (a missing mask value selects nothing); it
    has as many rows as the mask has [True] values, and a mask that is
    [True] everywhere keeps every column whole. *)
Theorem get_rows_by_mask_outcome (D : PandasDataFrame) (mask : PandasColumn) :
  constructed D ->
  (unnamed_positions (s_index (_series mask)) = false
   \/ Index_equals (df_index (PandasDataFrame.dataframe D))
                   (s_index (_series mask)) = false ->
   exists m, PandasDataFrame.get_rows_by_mask D mask = Raise (AssertionError m))
  /\ (unnamed_positions (s_index (_series mask)) = true ->
      Index_equals (df_index (PandasDataFrame.dataframe D))
                   (s_index (_series mask)) = true ->
      s_dtype (_series mask) = np_bool \/ s_dtype (_series mask) = BooleanDtype ->
      PandasColumn.__len__ mask = PandasDataFrame.__len__ D ->
      exists R,
        PandasDataFrame.get_rows_by_mask D mask = Ok R
        /\ PandasDataFrame.get_column_names R = PandasDataFrame.get_column_names D
        /\ PandasDataFrame.__len__ R
           = length (filter selects (s_values (_series mask)))
        /\ df_data (PandasDataFrame.dataframe R)
           = map (fun c => (fst c, Array_where (snd c) (s_values (_series mask))))
                 (df_data (PandasDataFrame.dataframe D))
        /\ (Forall (fun c => c = CBool true) (s_values (_series mask)) ->
            df_data (PandasDataFrame.dataframe R)
            = df_data (PandasDataFrame.dataframe D))).
Proof.
  intros HD. pose proof (constructed_positional D HD) as Hpos.
  unfold PandasDataFrame.get_rows_by_mask, PandasDataFrame._validate_index,
    PandasColumn.__len__, Series_len,
    PandasDataFrame.__len__, PandasDataFrame.shape, shape,
    PandasDataFrame.get_column_names, PandasDataFrame.dataframe.
  simpl fst. cbv zeta.
  split.
  - intros H. destruct (assert_index_equal_rejects _ _ Hpos H) as [m ->].
    simpl. eauto.
  - intros Hun Hidx Hdt Hlen.
    rewrite (assert_index_equal_accepts _ _ Hpos Hun Hidx). simpl.
    assert (Hloc : df_loc_mask (_dataframe D) (_series mask)
                   = Ok (df_take (_dataframe D)
                           (mask_positions (df_len (_dataframe D)) (_series mask)))).
    { unfold df_loc_mask. destruct Hdt as [-> | ->]; reflexivity. }
    rewrite Hloc. simpl. rewrite (init_take D _ HD).
    assert (Hdata :
              map (fun c => (fst c,
                             Array_take (snd c)
                               (mask_positions (df_len (_dataframe D))
                                               (_series mask))))
                  (df_data (_dataframe D))
              = map (fun c => (fst c,
                               Array_where (snd c) (s_values (_series mask))))
                    (df_data (_dataframe D))).
    { apply map_ext_in. intros [k a] Hin. cbn [fst snd]. f_equal.
      pose proof (wf_length _ k a (constructed_wf D HD) Hin) as Hl.
      rewrite <- Hl. apply take_where. congruence. }
    eexists. split; [reflexivity|]. split; [|split; [|split]].
    + unfold columns, wrap. simpl. now rewrite map_map.
    + change (range_len 0
                (Z.of_nat (length (mask_positions (df_len (_dataframe D))
                                                  (_series mask)))) 1
              = length (filter selects (s_values (_series mask)))).
      rewrite range_len_from_0.
      unfold mask_positions. rewrite <- Hlen.
      apply (count_by_position selects CNone).
    + unfold wrap. simpl. exact Hdata.
    + intros Hall. unfold wrap. simpl. rewrite Hdata.
      rewrite <- (map_id (df_data (_dataframe D))) at 2.
      apply map_ext_in. intros [k a] Hin. simpl. f_equal.
      apply where_all; [|exact Hall].
      rewrite (wf_length _ k a (constructed_wf D HD) Hin). now rewrite Hlen.
Qed.

(** [get_rows_by_mask_outcome] on [{a: [10, 20, 30]}] and the mask
    [[True, False, True]], on the default index and on the object index
    [[0, 1, 2]]. *)
Lemma get_rows_by_mask_outcome_witness :
  let D := wrap (frame_of 3 [named "a" (int64_array [10; 20; 30])]) in
  let mask := column_of (bool_array [true; false; true]) in
  let other :=
    {| _series := {| s_name := None;
                     s_array := bool_array [true; false; true];
                     s_index := LabelIndex None np_object
                                  [CInt 0; CInt 1; CInt 2] |} |} in
  (exists R,
      PandasDataFrame.get_rows_by_mask D mask = Ok R
      /\ df_data (PandasDataFrame.dataframe R) = [named "a" (int64_array [10; 30])])
  /\ (exists m, PandasDataFrame.get_rows_by_mask D other = Raise (AssertionError m)).
Proof.
  intros D mask other.
  assert (HD : constructed D).
  { exists (frame_of 3 [named "a" (int64_array [10; 20; 30])]).
    split; reflexivity. }
  split.
  - destruct (get_rows_by_mask_outcome D mask HD) as [_ H].
    destruct (H eq_refl eq_refl (or_introl eq_refl) eq_refl)
      as [R [HR [_ [_ [Hd _]]]]].
    exists R. split; [exact HR | exact Hd].
  - destruct (get_rows_by_mask_outcome D other HD) as [H _].
    apply H. left. reflexivity.
Defined.

(** ** Columns renamed *)

Lemma rename_columns_labels (d : DataFrame) (items : list (label * label)) :
  columns (df_rename d items) = map (dict_get items) (columns d).
Proof. unfold columns, df_rename. simpl. now rewrite !map_map. Qed.

Lemma renamed_frame (D : PandasDataFrame) (items : list (label * label)) :
  constructed D ->
  NoDup (map (dict_get items) (columns (_dataframe D))) ->
  Forall (fun c => is_str c = true)
         (map (dict_get items) (columns (_dataframe D))) ->
  PandasDataFrame.rename_columns D (MappingDict items)
  = Ok (wrap (df_rename (_dataframe D) items)).
Proof.
  intros HD Hnd Hstr. unfold PandasDataFrame.rename_columns.
  apply init_canonical.
  - rewrite rename_columns_labels. now apply validate_columns_Ok.
  - unfold df_rename, df_len. simpl.
    destruct (constructed_len D HD) as [H | [H _]]; auto.
Qed.

Lemma dict_get_no_key (items : list (label * label)) (l : label) :
  Forall (fun kv => fst kv <> l) items -> dict_get items l = l.
Proof.
  induction 1 as [|[k v] items Hk _ IH]; simpl; [reflexivity|].
  destruct (label_eqb k l) eqn:E; [|exact IH].
  apply label_eqb_eq in E. simpl in Hk. contradiction.
Qed.

Lemma rename_ext (d : DataFrame) (items : list (label * label)) :
  (forall l, In l (columns d) -> dict_get items l = l) ->
  df_rename d items = d.
Proof.
  intros H. unfold df_rename. destruct d as [data idx]. simpl. f_equal.
  rewrite <- (map_id data) at 2. apply map_ext_in. intros [k a] Hin. simpl.
  f_equal. apply H. unfold columns. simpl. apply in_map_iff. exists (k, a). auto.
Qed.

(** X20: [rename_columns] raises TypeError for an object that is not a
    mapping.  For a dict, every column label that is a key is replaced by
    the value under it and the other labels stay; the result is rejected
    with ValueError when two of the new labels coincide and with
    TypeError when a new label is not a string; otherwise it is a
    Dataframe with the new labels in the original order, the same number
    of rows, and under each new label the column the old label held. *)
Theorem rename_columns_outcome (D : PandasDataFrame) (items : list (label * label)) :
  constructed D ->
  let renamed := map (dict_get items) (PandasDataFrame.get_column_names D) in
  (exists m, PandasDataFrame.rename_columns D MappingOther = Raise (TypeError m))
  /\ (~ NoDup renamed ->
      exists m,
        PandasDataFrame.rename_columns D (MappingDict items) = Raise (ValueError m))
  /\ (NoDup renamed -> ~ Forall (fun c => is_str c = true) renamed ->
      exists m,
        PandasDataFrame.rename_columns D (MappingDict items) = Raise (TypeError m))
  /\ (NoDup renamed -> Forall (fun c => is_str c = true) renamed ->
      exists R,
        PandasDataFrame.rename_columns D (MappingDict items) = Ok R
        /\ PandasDataFrame.get_column_names R = renamed
        /\ PandasDataFrame.__len__ R = PandasDataFrame.__len__ D
        /\ forall name a,
             In (name, a) (df_data (PandasDataFrame.dataframe D)) ->
             In (dict_get items name, a) (df_data (PandasDataFrame.dataframe R))).
Proof.
  intros HD renamed. unfold renamed.
  unfold PandasDataFrame.get_column_names, PandasDataFrame.dataframe.
  split; [|split; [|split]].
  - simpl. eauto.
  - intros H. unfold PandasDataFrame.rename_columns.
    apply init_raises_repeated. now rewrite rename_columns_labels.
  - intros H1 H2. unfold PandasDataFrame.rename_columns.
    apply init_raises_not_str; now rewrite rename_columns_labels.
  - intros H1 H2. rewrite (renamed_frame D items HD H1 H2).
    eexists. split; [reflexivity|]. split; [|split].
    + apply rename_columns_labels.
    + reflexivity.
    + intros name a Hin. unfold wrap, df_rename. simpl.
      apply in_map_iff. exists (name, a). auto.
Qed.

(** [rename_columns_outcome] on [{a: [1], b: [2]}]: the mapping
    [{a: b}] and the mapping [{a: c, z: y}]. *)
Lemma rename_columns_outcome_witness :
  let D := wrap (frame_of 1 [named "a" (int64_array [1]);
                             named "b" (int64_array [2])]) in
  (exists m, PandasDataFrame.rename_columns D
               (MappingDict [(LStr "a", LStr "b")]) = Raise (ValueError m))
  /\ (exists R, PandasDataFrame.rename_columns D
                  (MappingDict [(LStr "a", LStr "c"); (LStr "z", LStr "y")]) = Ok R
                /\ PandasDataFrame.get_column_names R = [LStr "c"; LStr "b"]).
Proof.
  intros D.
  assert (HD : constructed D).
  { exists (frame_of 1 [named "a" (int64_array [1]);
                        named "b" (int64_array [2])]). split; reflexivity. }
  split.
  - apply (rename_columns_outcome D [(LStr "a", LStr "b")] HD).
    intros H. inversion H as [|? ? Hn _]. apply Hn. now left.
  - destruct (rename_columns_outcome D
                [(LStr "a", LStr "c"); (LStr "z", LStr "y")] HD)
      as [_ [_ [_ H]]].
    assert (Hnd : NoDup [LStr "c"; LStr "b"])
      by (repeat constructor; simpl; intuition discriminate).
    assert (Hstr : Forall (fun c => is_str c = true) [LStr "c"; LStr "b"])
      by (repeat (apply Forall_cons || apply Forall_nil); reflexivity).
    destruct (H Hnd Hstr) as [R [HR [Hn _]]].
    exists R. split; [exact HR | exact Hn].
Defined.

(** X21: a mapping none of whose keys is a column label changes nothing
    (the empty mapping in particular); and renaming a column to a fresh
    name and back gives the Dataframe back. *)
Theorem rename_columns_round_trip (D : PandasDataFrame)
  (items : list (label * label)) (old new : label) :
  constructed D ->
  (Forall (fun kv => ~ In (fst kv) (PandasDataFrame.get_column_names D)) items ->
   PandasDataFrame.rename_columns D (MappingDict items) = Ok D)
  /\ (is_str new = true ->
      ~ In new (PandasDataFrame.get_column_names D) ->
      bind (PandasDataFrame.rename_columns D (MappingDict [(old, new)]))
           (fun R => PandasDataFrame.rename_columns R (MappingDict [(new, old)]))
      = Ok D).
Proof.
  intros HD. pose proof (constructed_labels D HD) as [Hnd Hstr].
  unfold PandasDataFrame.get_column_names, PandasDataFrame.dataframe.
  split.
  - intros H. unfold PandasDataFrame.rename_columns.
    rewrite rename_ext; [now apply init_idempotent|].
    intros l Hl. apply dict_get_no_key. rewrite Forall_forall in *.
    intros kv Hkv E. apply (H kv Hkv). now rewrite E.
  - intros Hs Hfresh.
    assert (Hinj : forall x y,
               In x (columns (_dataframe D)) -> In y (columns (_dataframe D)) ->
               dict_get [(old, new)] x = dict_get [(old, new)] y -> x = y).
    { intros x y Hx Hy. simpl.
      destruct (label_eqb old x) eqn:Ex, (label_eqb old y) eqn:Ey; intros E.
      - apply label_eqb_eq in Ex, Ey. congruence.
      - exfalso. apply Hfresh. now rewrite E.
      - exfalso. apply Hfresh. now rewrite <- E.
      - exact E. }
    rewrite renamed_frame; [|exact HD| |].
    + simpl. unfold PandasDataFrame.rename_columns, PandasDataFrame.dataframe, wrap.
      cbn [_dataframe].
      assert (Hback : df_rename (df_rename (_dataframe D) [(old, new)])
                                [(new, old)] = _dataframe D).
      { unfold df_rename. cbn [df_data df_index]. rewrite map_map.
        destruct (_dataframe D) as [data idx] eqn:Ed. cbn [df_data df_index].
        f_equal. rewrite <- (map_id data) at 2. apply map_ext_in.
        intros [k a] Hin. cbn [fst snd dict_get]. f_equal.
        destruct (label_eqb old k) eqn:Ek.
        - rewrite label_eqb_refl. now apply label_eqb_eq.
        - destruct (label_eqb new k) eqn:En; [|reflexivity].
          exfalso. apply Hfresh. apply label_eqb_eq in En. subst k.
          unfold columns. simpl. apply in_map_iff. exists (new, a). auto. }
      rewrite Hback. now apply init_idempotent.
    + apply NoDup_map_NoDup_ForallPairs; [|exact Hnd].
      intros x y Hx Hy. now apply Hinj.
    + apply Forall_forall. intros l Hl. apply in_map_iff in Hl as [x [<- Hx]].
      simpl. destruct (label_eqb old x); [exact Hs|].
      rewrite Forall_forall in Hstr. now apply Hstr.
Qed.

(** [rename_columns_round_trip] on [{a: [1], b: [2]}]: [a] to [c] and
    back. *)
Lemma rename_columns_round_trip_witness :
  let D := wrap (frame_of 1 [named "a" (int64_array [1]);
                             named "b" (int64_array [2])]) in
  bind (PandasDataFrame.rename_columns D (MappingDict [(LStr "a", LStr "c")]))
       (fun R => PandasDataFrame.rename_columns R
                   (MappingDict [(LStr "c", LStr "a")]))
  = Ok D.
Proof.
  intros D.
  assert (HD : constructed D).
  { exists (frame_of 1 [named "a" (int64_array [1]);
                        named "b" (int64_array [2])]). split; reflexivity. }
  destruct (rename_columns_round_trip D [] (LStr "a") (LStr "c") HD) as [_ H].
  apply H; [reflexivity|]. simpl. intuition discriminate.
Defined.

(** ** Reductions of bool frames *)

Lemma forallb_map_comp {A B} (f : B -> bool) (g : A -> B) (l : list A) :
  forallb f (map g l) = forallb (fun x => f (g x)) l.
Proof. induction l as [|x l IH]; simpl; [reflexivity | now rewrite IH]. Qed.

Lemma booleanness_Ok (D : PandasDataFrame) :
  Forall (fun c => a_dtype (snd c) = np_bool) (df_data (_dataframe D)) ->
  PandasDataFrame._validate_booleanness D = Ok tt.
Proof.
  intros H. unfold PandasDataFrame._validate_booleanness,
    PandasDataFrame.dataframe, dtypes_all_bool, dtypes.
  rewrite forallb_map_comp.
  replace (forallb _ _) with true; [reflexivity|].
  symmetry. apply forallb_forall. intros c Hc. simpl.
  rewrite Forall_forall in H. rewrite (H c Hc). reflexivity.
Qed.

Lemma booleanness_raises (D : PandasDataFrame) :
  ~ Forall (fun c => a_dtype (snd c) = np_bool) (df_data (_dataframe D)) ->
  PandasDataFrame._validate_booleanness D = Raise NotImplementedError.
Proof.
  intros H. unfold PandasDataFrame._validate_booleanness,
    PandasDataFrame.dataframe, dtypes_all_bool, dtypes.
  rewrite forallb_map_comp.
  destruct (forallb _ _) eqn:E; [|reflexivity].
  exfalso. apply H. apply Forall_forall. intros c Hc.
  rewrite forallb_forall in E. apply dtype_eqb_eq. apply (E c Hc).
Qed.

Lemma reduced_frame (reduce : list cell -> bool) (D : PandasDataFrame) :
  constructed D ->
  PandasDataFrame.__init__ (df_reduce_frame reduce (_dataframe D))
  = Ok (wrap {| df_data :=
                  map (fun c => (fst c,
                                 {| a_dtype := np_bool;
                                    a_values := [CBool (reduce (a_values (snd c)))] |}))
                      (df_data (_dataframe D));
                df_index := RangeIndex 0 1 1 |}).
Proof.
  intros HD. pose proof (constructed_labels D HD) as Hlab.
  unfold PandasDataFrame.__init__.
  replace (columns (df_reduce_frame reduce (_dataframe D)))
    with (columns (_dataframe D))
    by (unfold columns, df_reduce_frame; simpl; now rewrite map_map).
  rewrite (proj2 (validate_columns_Ok _) Hlab). reflexivity.
Qed.

Lemma reduced_entry (reduce : list cell -> bool) (D : PandasDataFrame)
  (name : label) (a : Array) :
  constructed D -> In (name, a) (df_data (_dataframe D)) ->
  entry (wrap {| df_data :=
                   map (fun c => (fst c,
                                  {| a_dtype := np_bool;
                                     a_values := [CBool (reduce (a_values (snd c)))] |}))
                       (df_data (_dataframe D));
                 df_index := RangeIndex 0 1 1 |}) name 0
  = Ok (CBool (reduce (a_values a))).
Proof.
  intros HD Hin. pose proof (constructed_labels D HD) as [Hnd Hstr].
  rewrite (entry_at _ name {| a_dtype := np_bool;
                              a_values := [CBool (reduce (a_values a))] |} 0 0%nat).
  - reflexivity.
  - unfold columns. simpl. now rewrite map_map.
  - rewrite Forall_forall in Hstr. apply Hstr.
    apply in_map_iff. exists (name, a). auto.
  - simpl. apply in_map_iff. exists (name, a). auto.
  - reflexivity.
Qed.

Lemma existsb_Exists_true {A} (f : A -> bool) (l : list A) :
  existsb f l = true <-> Exists (fun c => f c = true) l.
Proof.
  rewrite existsb_exists, Exists_exists. reflexivity.
Qed.

Lemma forallb_Forall_true {A} (f : A -> bool) (l : list A) :
  forallb f l = true <-> Forall (fun c => f c = true) l.
Proof.
  rewrite forallb_forall, Forall_forall. reflexivity.
Qed.

(** X22: the Dataframe's [any] and [all] raise NotImplementedError as
    soon as one column is not of the numpy bool dtype.  On a frame of
    bool columns (a frame without columns included) each returns a
    Dataframe of one row under the same column names; the value under a
    name is [True] for [any] exactly when the column holds a true value,
    and for [all] exactly when all its values are true. *)
Theorem frame_any_all_outcome (D : PandasDataFrame) :
  constructed D ->
  (~ Forall (fun c => a_dtype (snd c) = np_bool)
            (df_data (PandasDataFrame.dataframe D)) ->
   PandasDataFrame.any D = Raise NotImplementedError
   /\ PandasDataFrame.all D = Raise NotImplementedError)
  /\ (Forall (fun c => a_dtype (snd c) = np_bool)
             (df_data (PandasDataFrame.dataframe D)) ->
      exists A B,
        PandasDataFrame.any D = Ok A /\ PandasDataFrame.all D = Ok B
        /\ PandasDataFrame.get_column_names A = PandasDataFrame.get_column_names D
        /\ PandasDataFrame.get_column_names B = PandasDataFrame.get_column_names D
        /\ PandasDataFrame.__len__ A = 1%nat /\ PandasDataFrame.__len__ B = 1%nat
        /\ forall name a,
             In (name, a) (df_data (PandasDataFrame.dataframe D)) ->
             exists x y,
               entry A name 0 = Ok (CBool x) /\ entry B name 0 = Ok (CBool y)
               /\ (x = true <-> Exists (fun c => truthy c = true) (a_values a))
               /\ (y = true <-> Forall (fun c => truthy c = true) (a_values a))).
Proof.
  intros HD. unfold PandasDataFrame.dataframe. split.
  - intros H. unfold PandasDataFrame.any, PandasDataFrame.all.
    rewrite (booleanness_raises D H). split; reflexivity.
  - intros H. unfold PandasDataFrame.any, PandasDataFrame.all.
    rewrite (booleanness_Ok D H). simpl. unfold PandasDataFrame.dataframe.
    rewrite !(reduced_frame _ D HD).
    eexists. eexists. split; [reflexivity|]. split; [reflexivity|].
    split; [|split; [|split; [|split]]].
    + unfold PandasDataFrame.get_column_names, columns, wrap. simpl.
      now rewrite map_map.
    + unfold PandasDataFrame.get_column_names, columns, wrap. simpl.
      now rewrite map_map.
    + reflexivity.
    + reflexivity.
    + intros name a Hin.
      exists (existsb truthy (a_values a)), (forallb truthy (a_values a)).
      split; [now apply reduced_entry|]. split; [now apply reduced_entry|].
      split; [apply existsb_Exists_true | apply forallb_Forall_true].
Qed.

(** [frame_any_all_outcome] on [{a: [1]}] and on
    [{p: [False, True]}]. *)
Lemma frame_any_all_outcome_witness :
  PandasDataFrame.any (wrap (frame_of 1 [named "a" (int64_array [1])]))
  = Raise NotImplementedError
  /\ exists A,
      PandasDataFrame.any
        (wrap (frame_of 2 [named "p" (bool_array [false; true])])) = Ok A
      /\ PandasDataFrame.__len__ A = 1%nat.
Proof.
  split.
  - apply (frame_any_all_outcome (wrap (frame_of 1 [named "a" (int64_array [1])]))).
    + exists (frame_of 1 [named "a" (int64_array [1])]). split; reflexivity.
    + intros H. inversion H as [|? ? E _]. discriminate E.
  - destruct (frame_any_all_outcome
                (wrap (frame_of 2 [named "p" (bool_array [false; true])])))
      as [_ H].
    + exists (frame_of 2 [named "p" (bool_array [false; true])]).
      split; reflexivity.
    + destruct H as [A [B [HA [_ [_ [_ [Hl _]]]]]]].
      * repeat (apply Forall_cons || apply Forall_nil). reflexivity.
      * exists A. split; [exact HA | exact Hl].
Defined.

Lemma getitem_at (s : Series) (i : nat) :
  (i < length (s_values s))%nat ->
  Series_iloc s (Z.of_nat i) = Ok (nth i (s_values s) CNone).
Proof.
  intros Hi. unfold Series_iloc, Series_len.
  destruct (Z.of_nat i <? - Z.of_nat (length (s_values s))) eqn:E1;
    [apply Z.ltb_lt in E1; lia|].
  destruct (Z.of_nat (length (s_values s)) <=? Z.of_nat i) eqn:E2;
    [apply Z.leb_le in E2; lia|].
  simpl. destruct (Z.of_nat i <? 0) eqn:E3; [apply Z.ltb_lt in E3; lia|].
  rewrite Nat2Z.id.
  destruct (nth_error (s_values s) i) as [c|] eqn:En.
  - f_equal. symmetry. now apply nth_error_nth.
  - apply nth_error_None in En. lia.
Qed.

Lemma reduced_row (reduce : list cell -> bool) (d : DataFrame) (i : nat) :
  (i < df_len d)%nat ->
  Series_iloc (df_reduce_rows reduce d) (Z.of_nat i)
  = Ok (CBool (reduce (df_row d i))).
Proof.
  intros Hi. rewrite getitem_at.
  - unfold df_reduce_rows, mk_series, s_values. simpl. f_equal.
    rewrite nth_indep with (d' := CBool (reduce (df_row d 0%nat)))
      by now rewrite length_map, length_seq.
    rewrite (map_nth (fun j => CBool (reduce (df_row d j)))).
    now rewrite seq_nth.
  - unfold df_reduce_rows, mk_series, s_values. simpl.
    now rewrite length_map, length_seq.
Qed.

(** X23: [any_rowwise] and [all_rowwise] raise NotImplementedError as
    soon as one column is not of the numpy bool dtype.  On a frame of
    bool columns each returns a Column on the Dataframe's index with one
    value per row: for [any_rowwise] it is [True] exactly when some
    column is true in that row, for [all_rowwise] exactly when every
    column is; and the Column [any_rowwise] returns has a true value
    exactly when some column of the Dataframe has one. *)
Theorem rowwise_any_all_outcome (D : PandasDataFrame) :
  constructed D ->
  (~ Forall (fun c => a_dtype (snd c) = np_bool)
            (df_data (PandasDataFrame.dataframe D)) ->
   PandasDataFrame.any_rowwise D = Raise NotImplementedError
   /\ PandasDataFrame.all_rowwise D = Raise NotImplementedError)
  /\ (Forall (fun c => a_dtype (snd c) = np_bool)
             (df_data (PandasDataFrame.dataframe D)) ->
      exists C1 C2,
        PandasDataFrame.any_rowwise D = Ok C1
        /\ PandasDataFrame.all_rowwise D = Ok C2
        /\ PandasColumn.__len__ C1 = PandasDataFrame.__len__ D
        /\ PandasColumn.__len__ C2 = PandasDataFrame.__len__ D
        /\ s_index (_series C1) = df_index (PandasDataFrame.dataframe D)
        /\ s_index (_series C2) = df_index (PandasDataFrame.dataframe D)
        /\ (forall i, (i < PandasDataFrame.__len__ D)%nat ->
              exists x y,
                PandasColumn.__getitem__ C1 (Z.of_nat i) = Ok (CBool x)
                /\ PandasColumn.__getitem__ C2 (Z.of_nat i) = Ok (CBool y)
                /\ (x = true <->
                    exists name a,
                      In (name, a) (df_data (PandasDataFrame.dataframe D))
                      /\ truthy (nth i (a_values a) CNone) = true)
                /\ (y = true <->
                    forall name a,
                      In (name, a) (df_data (PandasDataFrame.dataframe D)) ->
                      truthy (nth i (a_values a) CNone) = true))
        /\ (PandasColumn.any C1 = true <->
            exists name a,
              In (name, a) (df_data (PandasDataFrame.dataframe D))
              /\ Exists (fun c => truthy c = true) (a_values a))).
Proof.
  intros HD. unfold PandasDataFrame.dataframe. split.
  - intros H. unfold PandasDataFrame.any_rowwise, PandasDataFrame.all_rowwise.
    rewrite (booleanness_raises D H). split; reflexivity.
  - intros H. unfold PandasDataFrame.any_rowwise, PandasDataFrame.all_rowwise.
    rewrite (booleanness_Ok D H). simpl. unfold PandasDataFrame.dataframe.
    assert (Hrow_any : forall i,
               existsb truthy (df_row (_dataframe D) i) = true <->
               exists name a,
                 In (name, a) (df_data (_dataframe D))
                 /\ truthy (nth i (a_values a) CNone) = true).
    { intros i. unfold df_row. rewrite existsb_exists. split.
      - intros [c [Hc Ht]]. apply in_map_iff in Hc as [[k a] [<- Hin]].
        exists k, a. auto.
      - intros [k [a [Hin Ht]]]. exists (nth i (a_values a) CNone).
        split; [|exact Ht]. apply in_map_iff. exists (k, a). auto. }
    assert (Hrow_all : forall i,
               forallb truthy (df_row (_dataframe D) i) = true <->
               forall name a,
                 In (name, a) (df_data (_dataframe D)) ->
                 truthy (nth i (a_values a) CNone) = true).
    { intros i. unfold df_row. rewrite forallb_forall. split.
      - intros Hall k a Hin. apply Hall. apply in_map_iff. exists (k, a). auto.
      - intros Hall c Hc. apply in_map_iff in Hc as [[k a] [<- Hin]].
        now apply (Hall k a). }
    eexists. eexists. split; [reflexivity|]. split; [reflexivity|].
    unfold PandasColumn.__len__, PandasColumn.__getitem__, PandasColumn.any,
      PandasDataFrame.__len__, PandasDataFrame.shape, shape,
      PandasDataFrame.dataframe, Series_len.
    cbn [_series fst].
    split; [|split; [|split; [|split; [|split]]]].
    + unfold df_reduce_rows, mk_series, s_values. simpl.
      now rewrite length_map, length_seq.
    + unfold df_reduce_rows, mk_series, s_values. simpl.
      now rewrite length_map, length_seq.
    + reflexivity.
    + reflexivity.
    + intros i Hi.
      exists (existsb truthy (df_row (_dataframe D) i)),
             (forallb truthy (df_row (_dataframe D) i)).
      split; [now apply reduced_row|]. split; [now apply reduced_row|].
      split; [apply Hrow_any | apply Hrow_all].
    + unfold Series_any, df_reduce_rows, mk_series, s_values, s_dtype. simpl.
      rewrite existsb_exists. split.
      * intros [c [Hc Ht]]. apply in_map_iff in Hc as [i [<- Hi]].
        simpl in Ht. apply Hrow_any in Ht as [k [a [Hin Ht]]].
        exists k, a. split; [exact Hin|].
        apply Exists_exists. exists (nth i (a_values a) CNone).
        split; [|exact Ht]. apply nth_In.
        rewrite (wf_length _ k a (constructed_wf D HD) Hin).
        apply in_seq in Hi. lia.
      * intros [k [a [Hin Hex]]]. apply Exists_exists in Hex as [c [Hc Ht]].
        destruct (In_nth _ _ CNone Hc) as [i [Hi Hn]].
        exists (CBool (existsb truthy (df_row (_dataframe D) i))). split.
        -- apply in_map_iff. exists i. split; [reflexivity|].
           apply in_seq.
           rewrite (wf_length _ k a (constructed_wf D HD) Hin) in Hi. lia.
        -- simpl. apply Hrow_any. exists k, a. split; [exact Hin|].
           now rewrite Hn.
Qed.

(** [rowwise_any_all_outcome] on
    [{p: [False, True], q: [False, False]}]: row 1 has a true value and
    is not all true. *)
Lemma rowwise_any_all_outcome_witness :
  let D := wrap (frame_of 2 [named "p" (bool_array [false; true]);
                             named "q" (bool_array [false; false])]) in
  exists C1 C2,
    PandasDataFrame.any_rowwise D = Ok C1
    /\ PandasDataFrame.all_rowwise D = Ok C2
    /\ PandasColumn.__len__ C1 = 2%nat.
Proof.
  intros D.
  destruct (rowwise_any_all_outcome D) as [_ H].
  - exists (frame_of 2 [named "p" (bool_array [false; true]);
                        named "q" (bool_array [false; false])]).
    split; reflexivity.
  - destruct H as [C1 [C2 [H1 [H2 [Hl _]]]]].
    + repeat (apply Forall_cons || apply Forall_nil); reflexivity.
    + exists C1, C2. split; [exact H1|]. split; [exact H2 | exact Hl].
Defined.

(** ** A Dataframe from a dict of Columns *)

Lemma dict_frame (k : label) (c : PandasColumn) (rest : list (label * PandasColumn)) :
  Forall (fun it => Index_entries (s_index (_series (snd it)))
                    = Index_entries (s_index (_series c))) rest ->
  DataFrame_of_dict
    (map (fun it => (fst it, _series (snd it))) ((k, c) :: rest))
  = Ok {| df_data := map (fun it => (fst it, s_array (_series (snd it))))
                         ((k, c) :: rest);
          df_index := s_index (_series c) |}.
Proof.
  intros H. cbn [map DataFrame_of_dict fst snd].
  replace (forallb _ _) with true.
  - cbn [map fst snd]. rewrite map_map. reflexivity.
  - symmetry. apply forallb_forall. intros it Hit.
    apply in_map_iff in Hit as [it' [<- Hit']]. simpl.
    apply entries_Index_equals. rewrite Forall_forall in H.
    symmetry. now apply H.
Qed.

(** X24: a Dataframe with at least one column is rebuilt by [from_dict]
    from its own Columns: the dict that maps every column name to the
    Column [get_column_by_name] returns for it gives the Dataframe
    back. *)
Theorem from_dict_round_trip (D : PandasDataFrame) :
  constructed D ->
  PandasDataFrame.get_column_names D <> [] ->
  exists cols,
    columns_dict D = Ok cols
    /\ map fst cols = PandasDataFrame.get_column_names D
    /\ PandasDataFrame.from_dict cols = Ok D.
Proof.
  intros HD Hne. pose proof (constructed_labels D HD) as [Hnd Hstr].
  set (col := fun c : label * Array =>
                (fst c, {| _series := {| s_name := Some (fst c); s_array := snd c;
                                         s_index := df_index (_dataframe D) |} |})).
  exists (map col (df_data (_dataframe D))). split; [|split].
  - unfold columns_dict, PandasDataFrame.get_column_names,
      PandasDataFrame.dataframe, columns.
    apply mapM_map_in. intros [k a] Hin. cbn [fst].
    rewrite <- (wrap_dataframe D).
    rewrite (get_column_in _ k a Hnd); [reflexivity| |exact Hin].
    rewrite Forall_forall in Hstr. apply Hstr.
    apply in_map_iff. exists (k, a). auto.
  - unfold PandasDataFrame.get_column_names, PandasDataFrame.dataframe, columns.
    rewrite map_map. reflexivity.
  - unfold PandasDataFrame.from_dict.
    unfold PandasDataFrame.get_column_names, PandasDataFrame.dataframe,
      columns in Hne.
    destruct (df_data (_dataframe D)) as [|[k a] data] eqn:Ed;
      [contradiction Hne; reflexivity|].
    change (map col ((k, a) :: data))
      with ((k, {| _series := {| s_name := Some k; s_array := a;
                                 s_index := df_index (_dataframe D) |} |})
            :: map col data).
    rewrite dict_frame.
    + cbn [bind map fst snd _series s_array s_index].
      replace (map (fun it => (fst it, s_array (_series (snd it)))) (map col data))
        with data
        by (rewrite map_map; unfold col; simpl; rewrite <- (map_id data) at 1;
            apply map_ext; now intros [k' a']).
      rewrite <- Ed.
      replace {| df_data := df_data (_dataframe D);
                 df_index := df_index (_dataframe D) |} with (_dataframe D)
        by now destruct (_dataframe D).
      now apply init_idempotent.
    + apply Forall_forall. intros it Hit.
      apply in_map_iff in Hit as [c [<- _]]. reflexivity.
Qed.

(** [from_dict_round_trip] on [{a: [1, 2], b: [3, 4]}]. *)
Lemma from_dict_round_trip_witness :
  let D := wrap (frame_of 2 [named "a" (int64_array [1; 2]);
                             named "b" (int64_array [3; 4])]) in
  exists cols, columns_dict D = Ok cols /\ PandasDataFrame.from_dict cols = Ok D.
Proof.
  intros D.
  destruct (from_dict_round_trip D) as [cols [H1 [_ H2]]].
  - exists (frame_of 2 [named "a" (int64_array [1; 2]);
                        named "b" (int64_array [3; 4])]). split; reflexivity.
  - discriminate.
  - exists cols. split; [exact H1 | exact H2].
Defined.



(** ** Distinct values of a Column *)

Lemma existsb_hash_congr (x c : cell) (seen : list cell) :
  hash_eqb x c = true -> existsb (hash_eqb c) seen = existsb (hash_eqb x) seen.
Proof.
  intros H. induction seen as [|s seen IH]; simpl; [reflexivity|].
  rewrite IH. f_equal.
  destruct (hash_eqb c s) eqn:E1, (hash_eqb x s) eqn:E2; try reflexivity.
  - rewrite (hash_eqb_trans x c s H E1) in E2. discriminate.
  - rewrite hash_eqb_sym in H. rewrite (hash_eqb_trans c x s H E2) in E1.
    discriminate.
Qed.

(** The walk keeps position [i] exactly when no equal value comes
    before it. *)
Lemma hashtable_unique_first (pre seen l : list cell) :
  (forall x, existsb (hash_eqb x) seen = existsb (hash_eqb x) pre) ->
  hashtable_unique seen l
  = seen
    ++ map (fun i => nth i (pre ++ l) CNone)
         (filter (fun i => negb (existsb (hash_eqb (nth i (pre ++ l) CNone))
                                         (firstn i (pre ++ l))))
                 (seq (length pre) (length l))).
Proof.
  revert pre seen. induction l as [|c l IH]; intros pre seen Hinv.
  - simpl. now rewrite app_nil_r.
  - cbn [hashtable_unique length seq filter].
    assert (Hhead : nth (length pre) (pre ++ c :: l) CNone = c)
      by (rewrite app_nth2, Nat.sub_diag by lia; reflexivity).
    rewrite Hhead.
    rewrite firstn_app, Nat.sub_diag, firstn_all. cbn [firstn].
    rewrite app_nil_r. rewrite <- (Hinv c).
    assert (Hassoc : pre ++ c :: l = (pre ++ [c]) ++ l)
      by now rewrite <- app_assoc.
    assert (Hlen : S (length pre) = length (pre ++ [c]))
      by (rewrite length_app; simpl; lia).
    destruct (existsb (hash_eqb c) seen) eqn:E; cbn [negb].
    + rewrite Hassoc, Hlen. apply IH.
      intros x. rewrite existsb_app. simpl. rewrite orb_false_r, <- Hinv.
      destruct (hash_eqb x c) eqn:Ex; [|now rewrite orb_false_r].
      rewrite orb_true_r. now rewrite <- (existsb_hash_congr x c seen Ex).
    + cbn [map]. rewrite Hhead, Hassoc, Hlen.
      rewrite (IH (pre ++ [c]) (seen ++ [c])).
      * rewrite <- (app_assoc seen [c]). reflexivity.
      * intros x. rewrite !existsb_app. now rewrite Hinv.
Qed.

Lemma FOP_snoc {A} (R : A -> A -> Prop) (l : list A) (c : A) :
  ForallOrdPairs R l -> Forall (fun x => R x c) l -> ForallOrdPairs R (l ++ [c]).
Proof.
  induction 1 as [|a l Ha _ IH]; intros Hc; simpl.
  - constructor; constructor.
  - inversion Hc; subst. constructor.
    + apply Forall_app. split; [exact Ha | now constructor].
    + now apply IH.
Qed.

Lemma hashtable_unique_distinct (seen l : list cell) :
  ForallOrdPairs (fun x y => hash_eqb x y = false) seen ->
  ForallOrdPairs (fun x y => hash_eqb x y = false) (hashtable_unique seen l).
Proof.
  revert seen. induction l as [|c l IH]; intros seen H; simpl; [exact H|].
  destruct (existsb (hash_eqb c) seen) eqn:E; [now apply IH|].
  apply IH. apply FOP_snoc; [exact H|].
  apply Forall_forall. intros s Hs. rewrite hash_eqb_sym.
  destruct (hash_eqb c s) eqn:E'; [|reflexivity].
  assert (existsb (hash_eqb c) seen = true) by (apply existsb_exists; eauto).
  congruence.
Qed.

Lemma hashtable_unique_distinct_input (seen l : list cell) :
  ForallOrdPairs (fun x y => hash_eqb x y = false) (seen ++ l) ->
  hashtable_unique seen l = seen ++ l.
Proof.
  revert seen. induction l as [|c l IH]; intros seen H; simpl.
  - now rewrite app_nil_r.
  - assert (E : existsb (hash_eqb c) seen = false).
    { destruct (existsb (hash_eqb c) seen) eqn:E; [|reflexivity].
      apply existsb_exists in E as [s [Hs Hc]].
      apply in_split in Hs as [l1 [l2 ->]].
      rewrite <- app_assoc in H. simpl in H.
      clear - H Hc. induction l1 as [|a l1 IH1]; simpl in H.
      - inversion H as [|? ? Ha _]; subst. rewrite Forall_forall in Ha.
        rewrite hash_eqb_sym in Hc. rewrite Ha in Hc; [discriminate|].
        apply in_or_app. right. now left.
      - inversion H; subst. now apply IH1. }
    rewrite E. rewrite IH; rewrite <- app_assoc; [reflexivity | exact H].
Qed.

Lemma hashtable_unique_keeps (seen l : list cell) (s : cell) :
  In s seen -> In s (hashtable_unique seen l).
Proof.
  revert seen. induction l as [|x l IH]; intros seen Hin; simpl; [exact Hin|].
  destruct (existsb (hash_eqb x) seen); apply IH; [exact Hin|].
  apply in_or_app. now left.
Qed.

Lemma hashtable_unique_covers (seen l : list cell) (c : cell) :
  In c (seen ++ l) ->
  exists u, In u (hashtable_unique seen l) /\ hash_eqb c u = true.
Proof.
  revert seen. induction l as [|x l IH]; intros seen Hin; simpl.
  - rewrite app_nil_r in Hin. exists c. split; [exact Hin | apply hash_eqb_refl].
  - destruct (existsb (hash_eqb x) seen) eqn:E.
    + apply in_app_or in Hin as [Hin | [<- | Hin]].
      * apply IH. apply in_or_app. now left.
      * apply existsb_exists in E as [s [Hs Hx]].
        exists s. split; [now apply hashtable_unique_keeps | exact Hx].
      * apply IH. apply in_or_app. now right.
    + apply IH. rewrite <- app_assoc. exact Hin.
Qed.

Lemma hashtable_unique_in (seen l : list cell) (u : cell) :
  In u (hashtable_unique seen l) -> In u (seen ++ l).
Proof.
  revert seen. induction l as [|x l IH]; intros seen Hin; simpl in Hin.
  - now rewrite app_nil_r.
  - destruct (existsb (hash_eqb x) seen).
    + apply IH in Hin. apply in_app_or in Hin as [Hin | Hin];
        apply in_or_app; [now left | right; now right].
    + apply IH in Hin. now rewrite <- app_assoc in Hin.
Qed.

(** X26: [unique] returns a Column of the same dtype, without a name,
    on the index [0 .. n-1], that holds the values of the Column at the
    positions no equal value comes before, in their original order: its
    values are pairwise different, each of them is a value of the
    Column, and every value of the Column is equal to one of them (values
    compare as in a hash table: numbers by value, each missing value
    with itself).  It has at most as many values as the Column, and
    [unique] of the result is the result. *)
Theorem column_unique (C : PandasColumn) :
  let vals := s_values (_series C) in
  let U := PandasColumn.unique C in
  s_values (_series U)
  = map (fun i => nth i vals CNone)
        (filter (fun i => negb (existsb (hash_eqb (nth i vals CNone))
                                        (firstn i vals)))
                (seq 0 (length vals)))
  /\ ForallOrdPairs (fun x y => hash_eqb x y = false) (s_values (_series U))
  /\ (forall u, In u (s_values (_series U)) -> In u vals)
  /\ (forall c, In c vals ->
        exists u, In u (s_values (_series U)) /\ hash_eqb c u = true)
  /\ (PandasColumn.__len__ U <= PandasColumn.__len__ C)%nat
  /\ s_dtype (_series U) = s_dtype (_series C)
  /\ s_name (_series U) = None
  /\ s_index (_series U) = RangeIndex 0 (Z.of_nat (PandasColumn.__len__ U)) 1
  /\ PandasColumn.unique U = U.
Proof.
  intros vals U.
  assert (Hv : s_values (_series U) = hashtable_unique [] vals) by reflexivity.
  assert (Hfirst : s_values (_series U)
                   = map (fun i => nth i vals CNone)
                       (filter (fun i => negb (existsb (hash_eqb (nth i vals CNone))
                                                       (firstn i vals)))
                               (seq 0 (length vals)))).
  { rewrite Hv. now rewrite (hashtable_unique_first [] [] vals). }
  assert (Hdist : ForallOrdPairs (fun x y => hash_eqb x y = false)
                                 (s_values (_series U))).
  { rewrite Hv. apply hashtable_unique_distinct. constructor. }
  split; [exact Hfirst|]. split; [exact Hdist|].
  split; [|split; [|split; [|split; [|split; [|split]]]]].
  - intros u Hu. rewrite Hv in Hu. now apply hashtable_unique_in in Hu.
  - intros c Hc. rewrite Hv. now apply hashtable_unique_covers.
  - unfold PandasColumn.__len__, Series_len. fold vals. rewrite Hfirst.
    rewrite length_map.
    etransitivity; [apply filter_length_le|]. now rewrite length_seq.
  - reflexivity.
  - reflexivity.
  - reflexivity.
  - unfold PandasColumn.unique at 1. unfold Series_unique. rewrite Hv.
    rewrite (hashtable_unique_distinct_input [] (hashtable_unique [] vals))
      by (simpl; rewrite <- Hv; exact Hdist).
    reflexivity.
Qed.

(** ** Masks: [~], [&] and the rows they select *)

Lemma masked_frame (D : PandasDataFrame) (mask : PandasColumn) :
  constructed D ->
  unnamed_positions (s_index (_series mask)) = true ->
  Index_equals (df_index (_dataframe D)) (s_index (_series mask)) = true ->
  s_dtype (_series mask) = np_bool \/ s_dtype (_series mask) = BooleanDtype ->
  length (s_values (_series mask)) = df_len (_dataframe D) ->
  exists R,
    PandasDataFrame.get_rows_by_mask D mask = Ok R
    /\ df_len (_dataframe R) = length (filter selects (s_values (_series mask))).
Proof.
  intros HD Hun Hidx Hdt Hlen.
  unfold PandasDataFrame.get_rows_by_mask, PandasDataFrame._validate_index,
    PandasDataFrame.dataframe. cbv zeta.
  rewrite (assert_index_equal_accepts _ _ (constructed_positional D HD) Hun Hidx).
  cbn [bind].
  assert (Hloc : df_loc_mask (_dataframe D) (_series mask)
                 = Ok (df_take (_dataframe D)
                         (mask_positions (df_len (_dataframe D)) (_series mask)))).
  { unfold df_loc_mask. destruct Hdt as [-> | ->]; reflexivity. }
  rewrite Hloc. cbn [bind]. rewrite (init_take D _ HD).
  eexists. split; [reflexivity|].
  change (range_len 0
            (Z.of_nat (length (mask_positions (df_len (_dataframe D))
                                              (_series mask)))) 1
          = length (filter selects (s_values (_series mask)))).
  rewrite range_len_from_0. unfold mask_positions. rewrite <- Hlen.
  apply (count_by_position selects CNone).
Qed.

Lemma cell_invert_involutive (c : cell) : cell_invert (cell_invert c) = c.
Proof.
  destruct c; simpl; try reflexivity.
  - now rewrite negb_involutive.
  - f_equal. lia.
Qed.

Lemma selected_or_not (vals : list cell) :
  Forall (fun c => exists b, c = CBool b) vals ->
  (length (filter selects vals) + length (filter selects (map cell_invert vals))
   = length vals)%nat.
Proof.
  induction 1 as [|c vals [b ->] _ IH]; [reflexivity|].
  simpl. destruct b; simpl; lia.
Qed.

Lemma and_complement (vals : list cell) :
  Forall (fun c => exists b, c = CBool b) vals ->
  filter selects
    (map (fun p => cell_and (fst p) (snd p))
         (combine vals (map cell_invert vals))) = [].
Proof.
  induction 1 as [|c vals [b ->] _ IH]; [reflexivity|].
  simpl. now destruct b.
Qed.

(** X27: for a bool mask [C] on a Dataframe's index (an index of row
    positions without a name, a RangeIndex or an unnamed int64 Index,
    with the Dataframe's entries), [~C] is a mask on the same index with
    the same name, and [~~C] is [C]; the rows [C] selects and the rows
    [~C] selects are together as many as the Dataframe has, and [C & ~C]
    selects no row. *)
Theorem mask_complement (D : PandasDataFrame) (C : PandasColumn) :
  constructed D ->
  s_dtype (_series C) = np_bool ->
  Forall (fun c => exists b, c = CBool b) (s_values (_series C)) ->
  unnamed_positions (s_index (_series C)) = true ->
  Index_equals (df_index (PandasDataFrame.dataframe D))
               (s_index (_series C)) = true ->
  PandasColumn.__len__ C = PandasDataFrame.__len__ D ->
  exists N B R1 R2 R0,
    PandasColumn.__invert__ C = Ok N
    /\ PandasColumn.__invert__ N = Ok C
    /\ s_name (_series N) = s_name (_series C)
    /\ s_index (_series N) = s_index (_series C)
    /\ PandasDataFrame.get_rows_by_mask D C = Ok R1
    /\ PandasDataFrame.get_rows_by_mask D N = Ok R2
    /\ (PandasDataFrame.__len__ R1 + PandasDataFrame.__len__ R2
        = PandasDataFrame.__len__ D)%nat
    /\ PandasColumn.__and__ C N = Ok B
    /\ PandasDataFrame.get_rows_by_mask D B = Ok R0
    /\ PandasDataFrame.__len__ R0 = 0%nat.
Proof.
  intros HD Hdt Hb Hun Hidx Hlen.
  unfold PandasColumn.__len__, Series_len, PandasDataFrame.__len__,
    PandasDataFrame.shape, shape, PandasDataFrame.dataframe in *.
  cbn [fst] in *.
  destruct C as [[name [dt vals] idx]].
  unfold s_dtype, s_values in *. cbn [_series s_array a_dtype a_values s_index] in *.
  subst dt.
  set (N := {| _series := mk_series name np_bool (map cell_invert vals) idx |}).
  set (B := {| _series :=
                 mk_series name np_bool
                   (map (fun p => cell_and (fst p) (snd p))
                        (combine vals (map cell_invert vals))) idx |}).
  destruct (masked_frame D {| _series := {| s_name := name;
                                            s_array := {| a_dtype := np_bool;
                                                          a_values := vals |};
                                            s_index := idx |} |} HD Hun Hidx
              (or_introl eq_refl) Hlen) as [R1 [HR1 Hl1]].
  destruct (masked_frame D N HD Hun Hidx (or_introl eq_refl)) as [R2 [HR2 Hl2]].
  { unfold N, mk_series, s_values. cbn. now rewrite length_map. }
  destruct (masked_frame D B HD Hun Hidx (or_introl eq_refl)) as [R0 [HR0 Hl0]].
  { unfold B, mk_series, s_values. cbn.
    rewrite length_map, length_combine, length_map. lia. }
  exists N, B, R1, R2, R0.
  split; [reflexivity|]. split.
  { unfold PandasColumn.__invert__, Series_invert, N, mk_series, s_dtype, s_values.
    cbn. rewrite map_map.
    rewrite (map_ext _ (fun c => c)) by apply cell_invert_involutive.
    now rewrite map_id. }
  split; [reflexivity|]. split; [reflexivity|].
  split; [exact HR1|]. split; [exact HR2|]. split.
  { rewrite Hl1, Hl2, <- Hlen. unfold N, mk_series, s_values. cbn.
    now apply selected_or_not. }
  split.
  { unfold PandasColumn.__and__, Series_and, N, B, mk_series, s_dtype, s_values.
    cbn. rewrite Index_equals_refl, name_eqb_refl. reflexivity. }
  split; [exact HR0|].
  rewrite Hl0. unfold B, mk_series, s_values. cbn.
  now rewrite and_complement.
Qed.

(** [mask_complement] on [{a: [10, 20, 30]}] and the mask
    [[True, False, True]]. *)
Lemma mask_complement_witness :
  let D := wrap (frame_of 3 [named "a" (int64_array [10; 20; 30])]) in
  let C := column_of (bool_array [true; false; true]) in
  exists N, PandasColumn.__invert__ C = Ok N /\ PandasColumn.__invert__ N = Ok C.
Proof.
  intros D C.
  destruct (mask_complement D C) as [N [B [R1 [R2 [R0 [H1 [H2 _]]]]]]].
  - exists (frame_of 3 [named "a" (int64_array [10; 20; 30])]).
    split; reflexivity.
  - reflexivity.
  - repeat (apply Forall_cons || apply Forall_nil); eexists; reflexivity.
  - reflexivity.
  - reflexivity.
  - reflexivity.
  - exists N. split; [exact H1 | exact H2].
Defined.
